(** * StylexWebpackPlugin: the bundle bookkeeping of [src/index.js]

    A shallow embedding of the plugin class [StylexPlugin]: the
    transformation step [transformCode], the [afterOptimizeChunks] handler that
    records bundle membership, the rule aggregator [getBundleToStylexRules],
    the content hash [getContentHash] and the [processAssets] handler that
    emits one stylesheet per bundle; besides, the loader hook of [apply], the
    loader [stylexLoader] and the aggregator of the TypeScript class.

    The bundler, the compiler and Node's [path] and [fs] modules are not part
    of the repository: they are the variables of [Section Plugin].  JavaScript
    objects used as dictionaries are modelled with the key order of the
    language (canonical array indices first, ascending, then the other keys in
    creation order).  A bundle identifier is any string, so the lookup
    [bundleToRules[bundle]] of the aggregator is modelled with the names every
    object inherits from [Object.prototype]; the other dictionaries are keyed
    by the absolute paths of module resources and by the own keys of
    [bundleToRules], which are never such names.

    The definitions come first: the language helpers, the plugin, the
    vocabulary of the statements and a small host on which the plugin runs.
    [Section Properties] holds the lemmas and theorems; the end of the file
    evaluates them on the sample project. *)

From Stdlib Require Import List String Ascii Bool Arith NArith ZArith Lia.
From Stdlib Require Import Permutation DecimalString.
Import ListNotations.
Local Open Scope string_scope.

(* ------------------------------------------------------------------ *)
(** ** JavaScript strings *)

Module Js.

(** [hay.includes(needle)] *)
Fixpoint includes (needle hay : string) : bool :=
  String.prefix needle hay ||
  match hay with
  | EmptyString => false
  | String _ rest => includes needle rest
  end.

(** truthiness of a string value *)
Definition truthy (s : string) : bool :=
  match s with EmptyString => false | _ => true end.

(** truthiness of a value that is a string, [undefined] or [null] *)
Definition truthy_opt (o : option string) : bool :=
  match o with Some s => truthy s | None => false end.

(** [a || b] where [a] is a string, [undefined] or [null] *)
Definition or_else (a : option string) (b : option string) : option string :=
  if truthy_opt a then a else b.

(** a value interpolated in a template literal *)
Definition interpolate (o : option string) : string :=
  match o with Some s => s | None => "undefined" end.

(** [Number.prototype.toString] on a non-negative integer *)
Definition number_toString (n : N) : string :=
  NilZero.string_of_uint (N.to_uint n).

(** [s.slice(0, n)]; [None] is [undefined] *)
Definition slice0 (s : string) (n : option Z) : string :=
  match n with
  | None => s
  | Some z =>
      let len := Z.of_nat (String.length s) in
      let stop := if (z <? 0)%Z then Z.max (len + z) 0 else Z.min z len in
      String.substring 0 (Z.to_nat stop) s
  end.

(** *** Objects used as dictionaries

    The entries are kept in creation order; a write to an existing key keeps
    its place. *)

Definition obj (V : Type) : Type := list (string * V).

Definition empty {V} : obj V := [].

Fixpoint get {V} (k : string) (o : obj V) : option V :=
  match o with
  | [] => None
  | (k', v) :: rest => if String.eqb k k' then Some v else get k rest
  end.

Fixpoint set {V} (k : string) (v : V) (o : obj V) : obj V :=
  match o with
  | [] => [(k, v)]
  | (k', v') :: rest =>
      if String.eqb k k' then (k', v) :: rest else (k', v') :: set k v rest
  end.

Definition digit_val (a : ascii) : option N :=
  let n := N_of_ascii a in
  if ((48 <=? n) && (n <=? 57))%N then Some (n - 48)%N else None.

Fixpoint parse_digits (s : string) (acc : N) : option N :=
  match s with
  | EmptyString => Some acc
  | String a rest =>
      match digit_val a with
      | Some d => parse_digits rest (acc * 10 + d)%N
      | None => None
      end
  end.

(** a key is an array index when it is the canonical decimal form of an
    integer below 2^32 - 1 *)
Definition array_index (s : string) : option N :=
  match s with
  | EmptyString => None
  | String a rest =>
      if Ascii.eqb a "0"%char
      then match rest with EmptyString => Some 0%N | _ => None end
      else match parse_digits s 0 with
           | Some n => if (n <? 4294967295)%N then Some n else None
           | None => None
           end
  end.

Definition is_index (s : string) : bool :=
  match array_index s with Some _ => true | None => false end.

Definition index_of (s : string) : N :=
  match array_index s with Some n => n | None => 0%N end.

Fixpoint insert_by_index {V} (e : string * V) (l : list (string * V))
  : list (string * V) :=
  match l with
  | [] => [e]
  | e' :: rest =>
      if (index_of (fst e) <=? index_of (fst e'))%N
      then e :: l
      else e' :: insert_by_index e rest
  end.

Definition sort_by_index {V} (l : list (string * V)) : list (string * V) :=
  fold_right insert_by_index [] l.

(** the entries in the order of [for (k in o)] and [Object.keys(o)] *)
Definition own_entries {V} (o : obj V) : list (string * V) :=
  sort_by_index (filter (fun e => is_index (fst e)) o)
  ++ filter (fun e => negb (is_index (fst e))) o.

Definition own_keys {V} (o : obj V) : list string :=
  map fst (own_entries o).

(** [arr.includes(x)] on an array of strings *)
Definition array_includes (x : string) (arr : list string) : bool :=
  existsb (String.eqb x) arr.

(** the property names an object literal inherits from [Object.prototype];
    each of them reads as a function, or as the prototype itself
    ([__proto__]): a truthy value that has no [push] *)
Definition object_prototype_names : list string :=
  [ "constructor"; "hasOwnProperty"; "isPrototypeOf"; "propertyIsEnumerable";
    "toLocaleString"; "toString"; "valueOf"; "__proto__";
    "__defineGetter__"; "__defineSetter__";
    "__lookupGetter__"; "__lookupSetter__" ].

Definition inherited (k : string) : bool :=
  array_includes k object_prototype_names.

End Js.

(* ------------------------------------------------------------------ *)
(** ** Node's [path] module, POSIX flavour

    The plugin reads [path.sep], [path.extname] and [path.parse(..).name];
    the definitions of the plugin take them as parameters, and this module is
    the instance used when a result is evaluated. *)

Module PosixPath.

Definition slash : ascii := "/"%char.
Definition dot : ascii := "."%char.
Definition sep : string := "/".

Fixpoint drop_slashes (l : list ascii) : list ascii :=
  match l with
  | c :: rest => if Ascii.eqb c slash then drop_slashes rest else l
  | [] => []
  end.

Fixpoint take_segment (l : list ascii) : list ascii :=
  match l with
  | c :: rest => if Ascii.eqb c slash then [] else c :: take_segment rest
  | [] => []
  end.

(** the last segment of the path, trailing slashes ignored, reversed *)
Definition rev_base (p : string) : list ascii :=
  take_segment (drop_slashes (rev (list_ascii_of_string p))).

(** splits a reversed segment at its last dot: the reversed extension
    without the dot, and what is before the dot (reversed) *)
Fixpoint split_dot (rb : list ascii) : option (list ascii * list ascii) :=
  match rb with
  | [] => None
  | c :: rest =>
      if Ascii.eqb c dot then Some ([], rest)
      else match split_dot rest with
           | Some (e, b) => Some (c :: e, b)
           | None => None
           end
  end.

(** [(name, ext)] of [path.parse] *)
Definition name_ext (p : string) : string * string :=
  let rb := rev_base p in
  let whole := string_of_list_ascii (rev rb) in
  match split_dot rb with
  | None => (whole, "")
  | Some (_, []) => (whole, "")
  | Some (e, before) =>
      match e, before with
      | [], [d] => if Ascii.eqb d dot then (whole, "")
                   else (string_of_list_ascii (rev before), ".")
      | _, _ => (string_of_list_ascii (rev before),
                 string_of_list_ascii (dot :: rev e))
      end
  end.

Definition extname (p : string) : string := snd (name_ext p).
Definition parse_name (p : string) : string := fst (name_ext p).

End PosixPath.

(* ------------------------------------------------------------------ *)
(** ** Thrown values and the two effect shapes of the plugin *)

Inductive Thrown : Type :=
| TypeError (msg : string)      (* raised by the language itself *)
| HostError (msg : string).     (* raised by the bundler, the compiler or Node *)

(** a call that returns or throws *)
Definition Res (A : Type) : Type := (Thrown + A)%type.

(** a call that returns or throws, and mutates a state of type [St]; the
    mutations made before a throw stay *)
Definition M (St A : Type) : Type := St -> Res A * St.

Definition ret {St A} (a : A) : M St A := fun st => (inr a, st).
Definition throw {St A} (e : Thrown) : M St A := fun st => (inl e, st).
Definition bind {St A B} (m : M St A) (k : A -> M St B) : M St B :=
  fun st =>
    match m st with
    | (inr a, st') => k a st'
    | (inl e, st') => (inl e, st')
    end.
Definition lift {St A} (r : Res A) : M St A := fun st => (r, st).
Definition read {St} : M St St := fun st => (inr st, st).
Definition put {St} (st' : St) : M St unit := fun _ => (inr tt, st').

Definition rbind {A B} (r : Res A) (k : A -> Res B) : Res B :=
  match r with inr a => k a | inl e => inl e end.

(** a loop that updates [a] once per element and stops at the first throw *)
Fixpoint fold_res {A B} (f : A -> B -> Res A) (l : list B) (a : A) : Res A :=
  match l with
  | [] => inr a
  | x :: rest => rbind (f a x) (fold_res f rest)
  end.

Declare Scope js_scope.
Delimit Scope js_scope with js.
Notation "x <- m ;; k" := (bind m (fun x => k))
  (at level 61, m at next level, right associativity) : js_scope.
Notation "m ;; k" := (bind m (fun _ => k))
  (at level 61, right associativity) : js_scope.
Notation "x <-? r ;; k" := (rbind r (fun x => k))
  (at level 61, r at next level, right associativity) : js_scope.

(** [for (const x of xs) body(x)] *)
Fixpoint for_of {St X} (xs : list X) (body : X -> M St unit) : M St unit :=
  match xs with
  | [] => ret tt
  | x :: rest => bind (body x) (fun _ => for_of rest body)
  end.

(* ------------------------------------------------------------------ *)
(** ** What the bundler hands to the plugin *)

Record Module_ : Type := { resource : option string }.

Inductive ChunkId : Type :=
| IdNumber (n : N)
| IdString (s : string).

Record Chunk : Type := {
  debugId : nat;
  name : option string;
  id : option ChunkId;
  renderedHash : option string
}.

Record OutputOptions : Type := {
  hashDigest : option string;
  hashDigestLength : option Z;
  hashFunction : string;
  hashSalt : option string;
  outputPath : string
}.

(** the pseudo-chunk and the path data built for [getPathWithInfo] *)
Record PseudoChunk : Type := {
  pc_id : string;
  pc_name : string;
  pc_hash : string
}.

Record PathData : Type := {
  pd_filename : string;
  pd_contentHash : string;
  pd_chunk : PseudoChunk
}.

Inductive RawSource : Type := mkRawSource (text : string).

(* ------------------------------------------------------------------ *)
(** ** The plugin *)

Section Plugin.

Local Open Scope js_scope.

(** payloads the plugin only passes along *)
Variable Rule : Type.          (* an entry of [metadata.stylex] *)
Variable SourceMap : Type.
Variable AssetInfo : Type.
Variable BabelItem : Type.     (* an entry of [babelConfig.plugins] or [presets] *)
Variable ExtraOptions : Type.  (* the rest options forwarded to the compiler *)
Variable Hash : Type.          (* the object of [webpack.util.createHash] *)

(** the process environment *)
Variable IS_DEV_ENV : bool.
Variable cwd : string.

(** Node's [path] and [fs] *)
Variable path_sep : string.
Variable path_extname : string -> string.
Variable path_parse_name : string -> string.
Variable readFile : string -> Res string.

Record ModuleResolution : Type := { mr_type : string; mr_rootDir : string }.

Record StylexBabelOptions : Type := {
  sb_dev : bool;
  sb_moduleResolution : ModuleResolution;
  sb_importSources : list string;
  sb_rest : ExtraOptions
}.

Inductive BabelPluginEntry : Type :=
| Configured (item : BabelItem)
| TypescriptSyntax (isTSX : bool)
| JsxSyntax
| StylexBabel (o : StylexBabelOptions).

Record BabelConfig : Type := {
  plugins : list BabelItem;
  presets : list BabelItem;
  babelrc : bool
}.

Record BabelOptions : Type := {
  bo_babelrc : bool;
  bo_filename : string;
  bo_plugins : list BabelPluginEntry;
  bo_presets : list BabelItem
}.

Record BabelResult : Type := {
  br_code : string;
  br_map : option SourceMap;
  br_stylex : option (list Rule)     (* [metadata.stylex] *)
}.

(** the compiler *)
Variable transformAsync : string -> BabelOptions -> Res BabelResult.
Variable processStylexRules : list Rule -> bool -> Res string.

Record Compilation : Type := {
  outputOptions : OutputOptions;
  chunkGraph : Chunk -> list Module_;
  assets : Js.obj (RawSource * AssetInfo);
  errors : list Thrown
}.

(** the bundler *)
Variable createHash : string -> Res Hash.
Variable hash_update : Hash -> string -> Res Hash.
Variable hash_digest : Hash -> option string -> Res string.
Variable getPathWithInfo : string -> PathData -> Res (string * AssetInfo).
Variable emitAsset_rejects :
  Compilation -> string -> RawSource -> AssetInfo -> option Thrown.

(** *** Construction (lines 20-48) *)

Record BabelConfigOptions : Type := {
  bc_plugins : option (list BabelItem);
  bc_presets : option (list BabelItem);
  bc_babelrc : option bool
}.

Record PluginOptions : Type := {
  o_dev : option bool;
  o_appendTo : option string;
  o_filename : option string;
  o_stylexImports : option (list string);
  o_moduleResolution : option ModuleResolution;
  o_babelConfig : option BabelConfigOptions;
  o_useCSSLayers : option bool;
  (* [...options]: its [importSources] key when it has one, and the others *)
  o_importSources : option (list string);
  o_rest : ExtraOptions
}.

Record Plugin : Type := {
  dev : bool;
  filename : option string;
  babelConfig : BabelConfig;
  stylexImports : list string;
  babelPlugin : StylexBabelOptions;
  useCSSLayers : bool;
  stylexRules : Js.obj (list Rule);
  filesInLastRun : option (list (option string));
  fileToBundlesMap : option (Js.obj (list string))   (* [None]: never assigned *)
}.

Definition default {A} (o : option A) (d : A) : A :=
  match o with Some a => a | None => d end.

Definition new_StylexPlugin (o : PluginOptions) : Plugin :=
  let dev := default (o_dev o) IS_DEV_ENV in
  let filename :=
    match o_filename o with
    | Some f => Some f
    | None => match o_appendTo o with
              | None => Some "[name].stylex.css"
              | Some _ => None
              end
    end in
  let stylexImports := default (o_stylexImports o) ["stylex"; "@stylexjs/stylex"] in
  let unstable_moduleResolution :=
    default (o_moduleResolution o) {| mr_type := "commonJS"; mr_rootDir := cwd |} in
  let bc := default (o_babelConfig o)
              {| bc_plugins := None; bc_presets := None; bc_babelrc := None |} in
  {| dev := dev;
     filename := filename;
     babelConfig := {| plugins := default (bc_plugins bc) [];
                       presets := default (bc_presets bc) [];
                       babelrc := default (bc_babelrc bc) false |};
     stylexImports := stylexImports;
     babelPlugin := {| sb_dev := dev;
                       sb_moduleResolution := unstable_moduleResolution;
                       (* [importSources: stylexImports, ...options]: a key
                          of the rest options replaces the one before it *)
                       sb_importSources := default (o_importSources o) stylexImports;
                       sb_rest := o_rest o |};
     useCSSLayers := default (o_useCSSLayers o) false;
     stylexRules := Js.empty;
     filesInLastRun := None;
     fileToBundlesMap := None |}.

Definition set_stylexRules (p : Plugin) (r : Js.obj (list Rule)) : Plugin :=
  {| dev := dev p; filename := filename p; babelConfig := babelConfig p;
     stylexImports := stylexImports p; babelPlugin := babelPlugin p;
     useCSSLayers := useCSSLayers p; stylexRules := r;
     filesInLastRun := filesInLastRun p;
     fileToBundlesMap := fileToBundlesMap p |}.

Definition set_filesInLastRun (p : Plugin) (l : list (option string)) : Plugin :=
  {| dev := dev p; filename := filename p; babelConfig := babelConfig p;
     stylexImports := stylexImports p; babelPlugin := babelPlugin p;
     useCSSLayers := useCSSLayers p; stylexRules := stylexRules p;
     filesInLastRun := Some l;
     fileToBundlesMap := fileToBundlesMap p |}.

Definition set_fileToBundlesMap (p : Plugin) (m : Js.obj (list string)) : Plugin :=
  {| dev := dev p; filename := filename p; babelConfig := babelConfig p;
     stylexImports := stylexImports p; babelPlugin := babelPlugin p;
     useCSSLayers := useCSSLayers p; stylexRules := stylexRules p;
     filesInLastRun := filesInLastRun p;
     fileToBundlesMap := Some m |}.

(** *** The transformation step (lines 210-244) *)

Record Transformed : Type := {
  code : string;
  map : option SourceMap        (* [None]: no [map] property *)
}.

(** what [transformCode] mutates: the plugin, and the logger's debug output *)
Record Loading : Type := {
  plugin : Plugin;
  debugLog : list (string * list Rule)
}.

Definition record_rules (filename : string) (rules : list Rule) : M Loading unit :=
  fun st =>
    (inr tt,
     {| plugin := set_stylexRules (plugin st)
                    (Js.set filename rules (stylexRules (plugin st)));
        debugLog := debugLog st
                    ++ [("Read stylex styles from " ++ filename ++ ":", rules)] |}).

Definition transformCode (inputCode filename : string) : M Loading Transformed :=
  st <- read ;;
  let this := plugin st in
  if existsb (fun importName => Js.includes importName inputCode) (stylexImports this)
  then
    originalSource <- lift (if babelrc (babelConfig this)
                            then readFile filename
                            else inr inputCode) ;;
    result <- lift (transformAsync originalSource
                {| bo_babelrc := babelrc (babelConfig this);
                   bo_filename := filename;
                   bo_plugins :=
                     List.map Configured (plugins (babelConfig this))
                     ++ [ (if String.eqb (path_extname filename) ".ts"
                           then TypescriptSyntax false
                           else TypescriptSyntax true);
                          JsxSyntax;
                          StylexBabel (babelPlugin this) ];
                   bo_presets := presets (babelConfig this) |}) ;;
    (match br_stylex result with
     | Some rules =>
         if (0 <? List.length rules)%nat then record_rules filename rules else ret tt
     | None => ret tt
     end) ;;
    if negb (babelrc (babelConfig this))
    then ret {| code := br_code result; map := br_map result |}
    else ret {| code := inputCode; map := None |}
  else ret {| code := inputCode; map := None |}.

(** *** The hooks of [apply] that assign fields of the plugin (lines 50-103) *)

(** the [make] callback, run when a compilation starts: it taps the loader,
    [finishModules], [afterOptimizeChunks] and [processAssets] hooks of the new
    compilation and assigns no field of the plugin *)
Definition make (p : Plugin) : Plugin := p.

Definition finishModules (modules : list Module_) (p : Plugin) : Plugin :=
  set_filesInLastRun p (List.map resource modules).

Definition id_toString (i : option ChunkId) : option string :=
  match i with
  | Some (IdNumber n) => Some (Js.number_toString n)
  | Some (IdString s) => Some s
  | None => None
  end.

(** [a || b] where [b] is a string *)
Definition or_string (a : option string) (b : string) : string :=
  match a with
  | Some s => if Js.truthy s then s else b
  | None => b
  end.

(** line 82 *)
Definition chunkName (chunk : Chunk) : string :=
  or_string (Js.or_else (name chunk) (id_toString (id chunk)))
            ("chunk-" ++ Js.interpolate (renderedHash chunk)).

(** lines 90-96 *)
Definition add_bundle (filePath cn : string) (m : Js.obj (list string))
  : Js.obj (list string) :=
  match Js.get filePath m with
  | Some cur =>
      if Js.array_includes cn cur then m else Js.set filePath (cur ++ [cn])%list m
  | None =>
      let m1 := Js.set filePath [] m in
      if Js.array_includes cn [] then m1 else Js.set filePath ([] ++ [cn])%list m1
  end.

(** line 87 *)
Definition is_node_module (filePath : string) : bool :=
  Js.includes (path_sep ++ "node_modules" ++ path_sep) filePath.

(** lines 85-98 *)
Definition track_module (cn : string) (m : Js.obj (list string)) (module : Module_)
  : Js.obj (list string) :=
  match resource module with
  | Some filePath =>
      if Js.truthy filePath then
        let isNodeModule := is_node_module filePath in
        if negb isNodeModule then add_bundle filePath cn m else m
      else m
  | None => m
  end.

(** lines 81-100, one iteration *)
Definition track_chunk (c : Compilation) (m : Js.obj (list string)) (chunk : Chunk)
  : Js.obj (list string) :=
  let cn := chunkName chunk in
  if negb (Js.truthy cn) then m
  else fold_left (track_module cn) (chunkGraph c chunk) m.

Definition track_chunks (c : Compilation) (chunks : list Chunk)
  : Js.obj (list string) :=
  fold_left (track_chunk c) chunks Js.empty.

(** lines 77-103 *)
Definition afterOptimizeChunks (c : Compilation) (chunks : list Chunk) (p : Plugin)
  : Plugin :=
  set_fileToBundlesMap p (track_chunks c chunks).

(** *** The rule aggregator (lines 105-136) *)

(** what line 122 throws when [bundleToRules[bundle]] is no array *)
Definition push_TypeError : Thrown :=
  TypeError "bundleToRules[bundle].push is not a function".

(** lines 119-122.  [bundleToRules] starts as [{}] and gets own properties
    only here: under a name of [Object.prototype] the guard of line 119 reads
    the inherited value, which is truthy, no array is created, and the call
    of [push] on line 122 throws *)
Definition push_rules (rules : list Rule) (acc : Js.obj (list Rule)) (bundle : string)
  : Res (Js.obj (list Rule)) :=
  match Js.get bundle acc with
  | Some cur => inr (Js.set bundle (cur ++ rules)%list acc)
  | None =>
      if Js.inherited bundle
      then inl push_TypeError
      else inr (Js.set bundle ([] ++ rules)%list (Js.set bundle [] acc))
  end.

(** lines 113-124, one iteration *)
Definition collect_file (ftb : Js.obj (list string)) (acc : Js.obj (list Rule))
  (e : string * list Rule) : Res (Js.obj (list Rule)) :=
  match Js.get (fst e) ftb with
  | None => inr acc
  | Some bundles => fold_res (push_rules (snd e)) bundles acc
  end.

(** lines 112-124: the accumulated rule list of every bundle *)
Definition bundleToRules (sr : Js.obj (list Rule)) (ftb : Js.obj (list string))
  : Res (Js.obj (list Rule)) :=
  fold_res (collect_file ftb) (Js.own_entries sr) Js.empty.

(** lines 126-133 *)
Fixpoint process_bundles (layers : bool) (es : list (string * list Rule))
  (acc : Js.obj string) : Res (Js.obj string) :=
  match es with
  | [] => inr acc
  | (bundle, rules) :: rest =>
      css <-? processStylexRules rules layers ;;
      process_bundles layers rest (Js.set bundle css acc)
  end.

Definition getBundleToStylexRules (p : Plugin) : Res (option (Js.obj string)) :=
  if Nat.eqb (List.length (Js.own_keys (stylexRules p))) 0 then inr None
  else
    match fileToBundlesMap p with
    | None => inl (TypeError "Cannot read properties of undefined")
    | Some ftb =>
        bundleToRules <-? bundleToRules (stylexRules p) ftb ;;
        processed <-? process_bundles (useCSSLayers p)
                        (Js.own_entries bundleToRules) Js.empty ;;
        inr (Some processed)
    end.

(** *** The content hash (lines 142-157) *)

Definition getContentHash (c : Compilation) (source : string) : Res string :=
  let oo := outputOptions c in
  hash <-? createHash (hashFunction oo) ;;
  hash <-? (match hashSalt oo with
            | Some salt => if Js.truthy salt then hash_update hash salt else inr hash
            | None => inr hash
            end) ;;
  hash <-? hash_update hash source ;;
  fullContentHash <-? hash_digest hash (hashDigest oo) ;;
  inr (Js.slice0 fullContentHash (hashDigestLength oo)).

(** *** Asset emission (lines 159-202) *)

(** [compilation.emitAsset]: the bundler rejects the asset, or registers it *)
Definition emitAsset (file : string) (source : RawSource) (info : AssetInfo)
  : M Compilation unit :=
  c <- read ;;
  match emitAsset_rejects c file source info with
  | Some e => throw e
  | None =>
      put {| outputOptions := outputOptions c;
             chunkGraph := chunkGraph c;
             assets := Js.set file (source, info) (assets c);
             errors := errors c |}
  end.

(** lines 178-187 *)
Definition path_data (bundle contentHash : string) : PathData :=
  let filename := bundle ++ ".stylex.css" in
  {| pd_filename := filename;
     pd_contentHash := contentHash;
     pd_chunk := {| pc_id := filename;
                    pc_name := path_parse_name filename;
                    pc_hash := contentHash |} |}.

(** lines 170-195, one iteration *)
Definition emit_bundle (e : string * string) : M Compilation unit :=
  let bundle := fst e in
  let collectedCSS := snd e in
  c <- read ;;
  contentHash <- lift (getContentHash c collectedCSS) ;;
  let data := path_data bundle contentHash in
  resolved <- lift (getPathWithInfo (pd_filename data) data) ;;
  emitAsset (fst resolved) (mkRawSource collectedCSS) (snd resolved).

(** lines 166-197: the body of the [try] *)
Definition emit_all (p : Plugin) : M Compilation unit :=
  bundleToStylexRules <- lift (getBundleToStylexRules p) ;;
  match bundleToStylexRules with
  | Some out => for_of (Js.own_entries out) emit_bundle
  | None => ret tt
  end.

Definition push_error (e : Thrown) (c : Compilation) : Compilation :=
  {| outputOptions := outputOptions c;
     chunkGraph := chunkGraph c;
     assets := assets c;
     errors := errors c ++ [e] |}.

(** lines 164-201: [try { .. } catch (e) { compilation.errors.push(e) }] *)
Definition processAssets (p : Plugin) (c : Compilation) : Compilation :=
  match emit_all p c with
  | (inr _, c') => c'
  | (inl e, c') => push_error e c'
  end.

(** *** What can happen to one plugin instance

    The loader hook (lines 53-69) changes [module.loaders] only and is not
    an event here. *)

Inductive Event : Type :=
| Make
| TransformCode (inputCode filename : string)
| FinishModules (modules : list Module_)
| AfterOptimizeChunks (c : Compilation) (chunks : list Chunk)
| ProcessAssets (c : Compilation).

Definition step (st : Loading) (ev : Event) : Loading :=
  match ev with
  | Make => {| plugin := make (plugin st); debugLog := debugLog st |}
  | TransformCode inputCode filename => snd (transformCode inputCode filename st)
  | FinishModules modules =>
      {| plugin := finishModules modules (plugin st); debugLog := debugLog st |}
  | AfterOptimizeChunks c chunks =>
      {| plugin := afterOptimizeChunks c chunks (plugin st); debugLog := debugLog st |}
  | ProcessAssets c => st
  end.

Definition run (st : Loading) (evs : list Event) : Loading :=
  fold_left step evs st.

(** *** The loader hook of [apply] (lines 53-69) *)

(** [/\.[mc]?[jt]sx?$/]: what may follow the [s] *)
Definition x_then_end (s : string) : bool :=
  match s with
  | EmptyString => true
  | String c EmptyString => Ascii.eqb c "x"
  | _ => false
  end.

(** [[jt]sx?$] *)
Definition jt_s (s : string) : bool :=
  match s with
  | String c (String c' rest) =>
      (Ascii.eqb c "j" || Ascii.eqb c "t") && Ascii.eqb c' "s" && x_then_end rest
  | _ => false
  end.

(** the pattern matched at the start of [s] *)
Definition ext_pattern_here (s : string) : bool :=
  match s with
  | String c rest =>
      Ascii.eqb c "." &&
      ((match rest with
        | String c' rest' => (Ascii.eqb c' "m" || Ascii.eqb c' "c") && jt_s rest'
        | EmptyString => false
        end) || jt_s rest)
  | EmptyString => false
  end.

(** [/\.[mc]?[jt]sx?$/.test(s)]: the pattern matched somewhere in [s] *)
Fixpoint ext_pattern_test (s : string) : bool :=
  ext_pattern_here s ||
  match s with
  | EmptyString => false
  | String _ rest => ext_pattern_test rest
  end.

(** what [getOptions()] gives the loader *)
Inductive PluginOption : Type :=
| PluginAbsent              (* no [stylexPlugin] property *)
| PluginWithoutTransform    (* its [transformCode] is not a function *)
| PluginInstance.           (* the plugin *)

Record LoaderEntry : Type := {
  loader : string;
  options : option PluginOption
}.

Record NormalModule : Type := {
  nm_module : Module_;
  loaders : list LoaderEntry
}.

(** [path.resolve(__dirname, 'loader.js')] *)
Variable loader_js : string.

(** lines 55-68; [path.extname] throws on a resource that is no string *)
Definition loader_hook (module : NormalModule) : Res NormalModule :=
  match resource (nm_module module) with
  | None => inl (TypeError "The path argument must be of type string")
  | Some r =>
      if ext_pattern_test (path_extname r)
      then inr {| nm_module := nm_module module;
                  loaders := {| loader := loader_js;
                                options := Some PluginInstance |}
                             :: loaders module |}
      else inr module
  end.

(** *** The loader (lines 247-305) *)

(** what the loader hands to the callback as its error *)
Inductive LoaderError : Type :=
| Rethrown (e : Thrown)
| NewError (msg : string).

Inductive Callback : Type :=
| CallbackError (e : LoaderError)
| CallbackResult (code : string) (map : option SourceMap).

(** [error instanceof Error] *)
Variable is_Error : Thrown -> bool.
(** [String(error)] of a truthy thrown value; [None] for a falsy one *)
Variable String_of_truthy : Thrown -> option string.

Definition missing_plugin_message : string :=
  "stylex loader: The 'stylexPlugin' option with a 'transformCode' method was not provided. "
  ++ "Please ensure it's configured correctly in your webpack.config.js.".

(** lines 267-305; the state is the plugin the options refer to *)
Definition stylexLoader (opts : option PluginOption)
  (resourcePath inputCode : string) (st : Loading) : Callback * Loading :=
  match opts with
  | Some PluginInstance =>
      match transformCode inputCode resourcePath st with
      | (inr r, st') => (CallbackResult (code r) (map r), st')
      | (inl error, st') =>
          if is_Error error then (CallbackError (Rethrown error), st')
          else (CallbackError
                  (NewError (default (String_of_truthy error)
                               "Unknown error in stylexPlugin.transformCode")),
                st')
      end
  | _ => (CallbackError (NewError missing_plugin_message), st)
  end.

(** *** The aggregator of the TypeScript class (lines 410-440)

    There [stylexRules] and [fileToBundlesMap] are [Map]s, visited in
    insertion order, and both are assigned by the constructor; the bundle
    lists are [Set]s; [bundleToRules] is a plain object as before. *)

Record TsPlugin : Type := {
  ts_stylexRules : Js.obj (list Rule);
  ts_fileToBundlesMap : Js.obj (list string)
}.

(** lines 416-428 *)
Definition ts_bundleToRules (p : TsPlugin) : Res (Js.obj (list Rule)) :=
  fold_res (collect_file (ts_fileToBundlesMap p)) (ts_stylexRules p) Js.empty.

(** lines 410-440 *)
Definition ts_getBundleToStylexRules (p : TsPlugin) : Res (option (Js.obj string)) :=
  if Nat.eqb (List.length (ts_stylexRules p)) 0 then inr None
  else
    bundleToRules <-? ts_bundleToRules p ;;
    processed <-? process_bundles false (Js.own_entries bundleToRules) Js.empty ;;
    inr (Some processed).

(* ------------------------------------------------------------------ *)
(** ** The vocabulary of the statements *)

(** every recorded bundle list is duplicate-free *)
Definition lists_NoDup (m : Js.obj (list string)) : Prop :=
  forall f l, Js.get f m = Some l -> NoDup l.

(** every recorded file satisfies [Q] *)
Definition keys_sat (Q : string -> Prop) (m : Js.obj (list string)) : Prop :=
  forall f l, Js.get f m = Some l -> Q f.

(** nothing recorded in [m] is lost in [m'] *)
Definition grows (m m' : Js.obj (list string)) : Prop :=
  forall f l, Js.get f m = Some l ->
    exists l', Js.get f m' = Some l' /\ incl l l'.

(** the bundle set recorded for [file] contains [bundle] *)
Definition in_bundle (ftb : Js.obj (list string)) (file bundle : string) : bool :=
  match Js.get file ftb with
  | Some bundles => Js.array_includes bundle bundles
  | None => false
  end.

(** the recorded files that are members of [bundle], with their rules, in
    the order the aggregator visits them *)
Definition contributors (sr : Js.obj (list Rule)) (ftb : Js.obj (list string))
  (bundle : string) : list (string * list Rule) :=
  filter (fun e => in_bundle ftb (fst e) bundle) (Js.own_entries sr).

(** what a bundle has accumulated once the rules of [cs] are appended *)
Definition appended (before : option (list Rule)) (cs : list (string * list Rule))
  : option (list Rule) :=
  match cs with
  | [] => before
  | _ => Some (default before [] ++ flat_map snd cs)%list
  end.

(** [needle] occurs in [hay] *)
Definition substring_of (needle hay : string) : Prop :=
  exists pre post, hay = pre ++ needle ++ post.

(** [ev] is a transformation of [file] *)
Definition transforms (file : string) (ev : Event) : bool :=
  match ev with
  | TransformCode _ filename => String.eqb filename file
  | _ => false
  end.

(** [ev], run in [st], is a transformation that records [rules] for [file]:
    the assignment and the debug message of lines 235-238 *)
Definition records_rules (file : string) (rules : list Rule) (st : Loading)
  (ev : Event) : Prop :=
  exists inputCode,
    ev = TransformCode inputCode file /\ rules <> [] /\
    step st ev
    = {| plugin := set_stylexRules (plugin st)
                     (Js.set file rules (stylexRules (plugin st)));
         debugLog := (debugLog st
                      ++ [(("Read stylex styles from " ++ file ++ ":")%string,
                           rules)])%list |}.

(** no event of the run records rules for [file] *)
Fixpoint never_records (file : string) (st : Loading) (evs : list Event) : Prop :=
  match evs with
  | [] => True
  | ev :: rest =>
      (forall rules, ~ records_rules file rules st ev) /\
      never_records file (step st ev) rest
  end.

(** lines 173-190: the path an asset of [bundle] with text [css] is
    registered under *)
Definition asset_path (c : Compilation) (bundle css : string)
  : Res (string * AssetInfo) :=
  contentHash <-? getContentHash c css ;;
  getPathWithInfo (bundle ++ ".stylex.css") (path_data bundle contentHash).

(** the path under the reading of the specification: the filename template
    configured on the plugin, resolved with the data of the bundle *)
Definition claimed_asset_path (p : Plugin) (c : Compilation) (bundle css : string)
  : Res (string * AssetInfo) :=
  match filename p with
  | Some template =>
      contentHash <-? getContentHash c css ;;
      getPathWithInfo template (path_data bundle contentHash)
  | None => inl (TypeError "no filename template")
  end.

(** the plugin with another configured filename template *)
Definition with_filename (p : Plugin) (template : option string) : Plugin :=
  {| dev := dev p; filename := template; babelConfig := babelConfig p;
     stylexImports := stylexImports p; babelPlugin := babelPlugin p;
     useCSSLayers := useCSSLayers p; stylexRules := stylexRules p;
     filesInLastRun := filesInLastRun p;
     fileToBundlesMap := fileToBundlesMap p |}.

(** the compilation after a successful [emitAsset] *)
Definition with_asset (c : Compilation) (file : string) (source : RawSource)
  (info : AssetInfo) : Compilation :=
  {| outputOptions := outputOptions c;
     chunkGraph := chunkGraph c;
     assets := Js.set file (source, info) (assets c);
     errors := errors c |}.

(** the extensions the pattern of the loader hook accepts *)
Definition matched_extensions : list string :=
  [ ".js"; ".jsx"; ".ts"; ".tsx";
    ".mjs"; ".mjsx"; ".mts"; ".mtsx";
    ".cjs"; ".cjsx"; ".cts"; ".ctsx" ].

(** [s] ends with one of the accepted extensions *)
Definition ends_with_matched (s : string) : Prop :=
  exists pre e, In e matched_extensions /\ s = pre ++ e.

(** the entry the loader hook puts in front *)
Definition stylex_entry : LoaderEntry :=
  {| loader := loader_js; options := Some PluginInstance |}.

(** every recorded bundle list is non-empty and relates to its file by [R] *)
Definition members_sat (R : string -> string -> Prop) (m : Js.obj (list string))
  : Prop :=
  forall f l, Js.get f m = Some l -> l <> [] /\ forall b, In b l -> R f b.

(** the fields of the plugin read from its options *)
Definition same_config (p p' : Plugin) : Prop :=
  dev p' = dev p /\ filename p' = filename p /\ babelConfig p' = babelConfig p /\
  stylexImports p' = stylexImports p /\ babelPlugin p' = babelPlugin p /\
  useCSSLayers p' = useCSSLayers p.

(** a plugin instance right after [new StylexPlugin(o)] *)
Definition constructed (o : PluginOptions) : Loading :=
  {| plugin := new_StylexPlugin o; debugLog := [] |}.

(** the three places of one iteration where an exception can come from *)
Definition emission_failure (c : Compilation) (b : string * string) (e : Thrown)
  : Prop :=
  getContentHash c (snd b) = inl e \/
  (exists h, getContentHash c (snd b) = inr h /\
     getPathWithInfo (fst b ++ ".stylex.css") (path_data (fst b) h) = inl e) \/
  (exists h file info, getContentHash c (snd b) = inr h /\
     getPathWithInfo (fst b ++ ".stylex.css") (path_data (fst b) h)
       = inr (file, info) /\
     emitAsset_rejects c file (mkRawSource (snd b)) info = Some e).

End Plugin.

Arguments sb_dev {ExtraOptions}.
Arguments sb_moduleResolution {ExtraOptions}.
Arguments sb_importSources {ExtraOptions}.
Arguments sb_rest {ExtraOptions}.
Arguments Build_StylexBabelOptions {ExtraOptions}.
Arguments plugins {BabelItem}.
Arguments presets {BabelItem}.
Arguments babelrc {BabelItem}.
Arguments Build_BabelConfig {BabelItem}.
Arguments bo_babelrc {BabelItem ExtraOptions}.
Arguments bo_filename {BabelItem ExtraOptions}.
Arguments bo_plugins {BabelItem ExtraOptions}.
Arguments bo_presets {BabelItem ExtraOptions}.
Arguments Build_BabelOptions {BabelItem ExtraOptions}.
Arguments br_code {Rule SourceMap}.
Arguments br_map {Rule SourceMap}.
Arguments br_stylex {Rule SourceMap}.
Arguments Build_BabelResult {Rule SourceMap}.
Arguments outputOptions {AssetInfo}.
Arguments chunkGraph {AssetInfo}.
Arguments assets {AssetInfo}.
Arguments errors {AssetInfo}.
Arguments Build_Compilation {AssetInfo}.
Arguments bc_plugins {BabelItem}.
Arguments bc_presets {BabelItem}.
Arguments bc_babelrc {BabelItem}.
Arguments Build_BabelConfigOptions {BabelItem}.
Arguments o_dev {BabelItem ExtraOptions}.
Arguments o_appendTo {BabelItem ExtraOptions}.
Arguments o_filename {BabelItem ExtraOptions}.
Arguments o_stylexImports {BabelItem ExtraOptions}.
Arguments o_moduleResolution {BabelItem ExtraOptions}.
Arguments o_babelConfig {BabelItem ExtraOptions}.
Arguments o_useCSSLayers {BabelItem ExtraOptions}.
Arguments o_importSources {BabelItem ExtraOptions}.
Arguments o_rest {BabelItem ExtraOptions}.
Arguments Build_PluginOptions {BabelItem ExtraOptions}.
Arguments dev {Rule BabelItem ExtraOptions}.
Arguments filename {Rule BabelItem ExtraOptions}.
Arguments babelConfig {Rule BabelItem ExtraOptions}.
Arguments stylexImports {Rule BabelItem ExtraOptions}.
Arguments babelPlugin {Rule BabelItem ExtraOptions}.
Arguments useCSSLayers {Rule BabelItem ExtraOptions}.
Arguments stylexRules {Rule BabelItem ExtraOptions}.
Arguments filesInLastRun {Rule BabelItem ExtraOptions}.
Arguments fileToBundlesMap {Rule BabelItem ExtraOptions}.
Arguments Build_Plugin {Rule BabelItem ExtraOptions}.
Arguments code {SourceMap}.
Arguments map {SourceMap}.
Arguments Build_Transformed {SourceMap}.
Arguments plugin {Rule BabelItem ExtraOptions}.
Arguments debugLog {Rule BabelItem ExtraOptions}.
Arguments Build_Loading {Rule BabelItem ExtraOptions}.
Arguments Configured {BabelItem ExtraOptions}.
Arguments TypescriptSyntax {BabelItem ExtraOptions}.
Arguments JsxSyntax {BabelItem ExtraOptions}.
Arguments StylexBabel {BabelItem ExtraOptions}.
Arguments Make {AssetInfo}.
Arguments TransformCode {AssetInfo}.
Arguments FinishModules {AssetInfo}.
Arguments AfterOptimizeChunks {AssetInfo}.
Arguments ProcessAssets {AssetInfo}.
Arguments bundleToRules {Rule}.
Arguments contributors {Rule}.
Arguments appended {Rule}.
Arguments with_filename {Rule BabelItem ExtraOptions}.
Arguments with_asset {AssetInfo}.
Arguments push_error {AssetInfo}.
Arguments ts_stylexRules {Rule}.
Arguments ts_fileToBundlesMap {Rule}.
Arguments Build_TsPlugin {Rule}.
Arguments CallbackError {SourceMap}.
Arguments CallbackResult {SourceMap}.

(* ------------------------------------------------------------------ *)
(** ** A small host to run the plugin on

    Rules are strings, the compiler extracts one rule from a module that
    calls [stylex.create], the hash is a checksum and paths are resolved by
    replacing the [name], [id] and [contenthash] tokens. *)

Module Sample.

Definition Rule : Type := string.
Definition SourceMap : Type := string.
Definition AssetInfo : Type := string.
Definition BabelItem : Type := string.
Definition ExtraOptions : Type := unit.
Definition Hash : Type := string.

Definition readFile (file : string) : Res string :=
  inl (HostError ("ENOENT: " ++ file)).

Definition transformAsync (source : string)
  (o : BabelOptions BabelItem ExtraOptions) : Res (BabelResult Rule SourceMap) :=
  if Js.includes "syntax error" source then inl (HostError "SyntaxError")
  else inr {| br_code := "compiled:" ++ source;
              br_map := Some "map";
              br_stylex := if Js.includes "stylex.create" source
                           then Some ["rule-of:" ++ bo_filename o]
                           else Some [] |}.

Definition processStylexRules (rules : list Rule) (layers : bool) : Res string :=
  inr ((if layers then "@layer;" else "") ++ String.concat ";" rules).

Definition createHash (hashFunction : string) : Res Hash :=
  if String.eqb hashFunction "md4" || String.eqb hashFunction "sha256"
  then inr ""
  else inl (HostError ("Digest method not supported: " ++ hashFunction)).

Definition hash_update (h : Hash) (data : string) : Res Hash := inr (h ++ data).

Fixpoint checksum (s : string) (acc : N) : N :=
  match s with
  | EmptyString => acc
  | String a rest => checksum rest ((acc * 31 + N_of_ascii a) mod 1000000007)%N
  end.

Definition hash_digest (h : Hash) (encoding : option string) : Res string :=
  inr (Js.number_toString (checksum h 7)).

(** replaces every occurrence of a non-empty [token]; [skip] counts the
    characters of an occurrence still to drop *)
Fixpoint replace_from (token by_ s : string) (skip : nat) : string :=
  match s with
  | EmptyString => EmptyString
  | String a rest =>
      match skip with
      | S k => replace_from token by_ rest k
      | O =>
          if String.prefix token s
          then by_ ++ replace_from token by_ rest (String.length token - 1)
          else String a (replace_from token by_ rest 0)
      end
  end.

Definition replace_all (token by_ s : string) : string :=
  replace_from token by_ s 0.

Definition getPathWithInfo (template : string) (data : PathData)
  : Res (string * AssetInfo) :=
  if Js.includes "[fullhash]" template
  then inl (HostError "Path variable [fullhash] not implemented in this context")
  else inr (replace_all "[contenthash]" (pd_contentHash data)
             (replace_all "[id]" (pc_id (pd_chunk data))
               (replace_all "[name]" (pc_name (pd_chunk data)) template)),
            pd_contentHash data).

Definition emitAsset_rejects (c : Compilation AssetInfo) (file : string)
  (source : RawSource) (info : AssetInfo) : option Thrown :=
  match Js.get file (assets c) with
  | Some _ => Some (HostError ("Conflict: " ++ file))
  | None => None
  end.

(** the plugin's operations on this host *)
Definition new_StylexPlugin := new_StylexPlugin Rule BabelItem ExtraOptions false "/proj".
Definition transformCode :=
  transformCode Rule SourceMap BabelItem ExtraOptions
    PosixPath.extname readFile transformAsync.
Definition step :=
  step Rule SourceMap AssetInfo BabelItem ExtraOptions
    PosixPath.sep PosixPath.extname readFile transformAsync.
Definition run :=
  run Rule SourceMap AssetInfo BabelItem ExtraOptions
    PosixPath.sep PosixPath.extname readFile transformAsync.
Definition afterOptimizeChunks :=
  afterOptimizeChunks Rule AssetInfo BabelItem ExtraOptions PosixPath.sep.
Definition track_chunks := track_chunks AssetInfo PosixPath.sep.
Definition getBundleToStylexRules :=
  getBundleToStylexRules Rule BabelItem ExtraOptions processStylexRules.
Definition getContentHash :=
  getContentHash AssetInfo Hash createHash hash_update hash_digest.
Definition asset_path :=
  asset_path AssetInfo Hash PosixPath.parse_name
    createHash hash_update hash_digest getPathWithInfo.
Definition emit_bundle :=
  emit_bundle AssetInfo Hash PosixPath.parse_name
    createHash hash_update hash_digest getPathWithInfo emitAsset_rejects.
Definition emission_failure :=
  emission_failure AssetInfo Hash PosixPath.parse_name
    createHash hash_update hash_digest getPathWithInfo emitAsset_rejects.
Definition processAssets :=
  processAssets Rule AssetInfo BabelItem ExtraOptions Hash PosixPath.parse_name
    processStylexRules createHash hash_update hash_digest getPathWithInfo
    emitAsset_rejects.
Definition claimed_asset_path :=
  claimed_asset_path Rule AssetInfo BabelItem ExtraOptions Hash
    PosixPath.parse_name createHash hash_update hash_digest getPathWithInfo.

(** a project: [a.js] and [b.js] use the styling API, [util.js] does not,
    [gone.js] is in no chunk, and a dependency ships its own styles *)
Definition a_js : string := "/proj/src/a.js".
Definition b_js : string := "/proj/src/b.js".
Definition util_js : string := "/proj/src/util.js".
Definition gone_js : string := "/proj/src/gone.js".
Definition dep_js : string := "/proj/node_modules/ui/index.js".

Definition styled : string := "import * as stylex from '@stylexjs/stylex'; stylex.create({})".
Definition plain : string := "export const answer = 42".

Definition main : Chunk :=
  {| debugId := 1000; name := Some "main"; id := None; renderedHash := None |}.
Definition lazy : Chunk :=
  {| debugId := 1001; name := None; id := Some (IdNumber 179); renderedHash := None |}.
Definition anonymous : Chunk :=
  {| debugId := 1002; name := None; id := None; renderedHash := None |}.

(** an entry point that the configuration names [constructor] *)
Definition entry_constructor : Chunk :=
  {| debugId := 1003; name := Some "constructor"; id := None; renderedHash := None |}.

Definition modules_of (chunk : Chunk) : list Module_ :=
  match debugId chunk with
  | 1000 => [ {| resource := Some a_js |}; {| resource := Some util_js |};
              {| resource := Some dep_js |}; {| resource := Some a_js |};
              {| resource := None |} ]
  | 1001 => [ {| resource := Some b_js |}; {| resource := Some a_js |} ]
  | 1002 => [ {| resource := Some util_js |}; {| resource := Some b_js |} ]
  | 1003 => [ {| resource := Some a_js |}; {| resource := Some b_js |} ]
  | _ => []
  end.

Definition compilation (hashFunction : string) : Compilation AssetInfo :=
  {| outputOptions := {| hashDigest := Some "hex";
                         hashDigestLength := Some 6%Z;
                         hashFunction := hashFunction;
                         hashSalt := None;
                         outputPath := "/proj/dist" |};
     chunkGraph := modules_of;
     assets := Js.empty;
     errors := [] |}.

Definition no_options : PluginOptions BabelItem ExtraOptions :=
  {| o_dev := None; o_appendTo := None; o_filename := None;
     o_stylexImports := None; o_moduleResolution := None;
     o_babelConfig := None; o_useCSSLayers := None;
                    o_importSources := None; o_rest := tt |}.

Definition started : Loading Rule BabelItem ExtraOptions :=
  {| plugin := new_StylexPlugin no_options; debugLog := [] |}.

(** one build: the three modules are loaded, then the chunks are final *)
Definition first_build : list (Event AssetInfo) :=
  [ Make;
    TransformCode styled a_js;
    TransformCode styled b_js;
    TransformCode plain util_js;
    TransformCode styled gone_js;
    FinishModules (modules_of main ++ modules_of lazy);
    AfterOptimizeChunks (compilation "md4") [main; lazy] ].

Definition built : Loading Rule BabelItem ExtraOptions := run started first_build.

(** the same build with [filename: 'styles.css'] in the options *)
Definition configured : Loading Rule BabelItem ExtraOptions :=
  {| plugin := new_StylexPlugin
                 {| o_dev := None; o_appendTo := None;
                    o_filename := Some "styles.css";
                    o_stylexImports := None; o_moduleResolution := None;
                    o_babelConfig := None; o_useCSSLayers := None;
                    o_importSources := None; o_rest := tt |};
     debugLog := [] |}.

Definition configured_built : Loading Rule BabelItem ExtraOptions :=
  run configured first_build.

(** the first build with the entry point [constructor] beside [main] *)
Definition with_entry_constructor : Plugin Rule BabelItem ExtraOptions :=
  afterOptimizeChunks (compilation "md4") [main; entry_constructor] (plugin built).

(** the options of the sample with [stylexImports: ['css']] and, among the
    rest options, [importSources: ['@acme/css']] *)
Definition two_import_lists : PluginOptions BabelItem ExtraOptions :=
  {| o_dev := None; o_appendTo := None; o_filename := None;
     o_stylexImports := Some ["css"]; o_moduleResolution := None;
     o_babelConfig := None; o_useCSSLayers := None;
     o_importSources := Some ["@acme/css"]; o_rest := tt |}.

(** a third chunk, and a compilation that already holds [main.stylex.css] *)
Definition three_chunks : Plugin Rule BabelItem ExtraOptions :=
  afterOptimizeChunks (compilation "md4") [main; lazy; anonymous] (plugin built).

Definition occupied : Compilation AssetInfo :=
  {| outputOptions := outputOptions (compilation "md4");
     chunkGraph := modules_of;
     assets := [("main.stylex.css", (mkRawSource "/* by hand */", "none"))];
     errors := [] |}.

End Sample.

(** the loader, a raw-config instance and further inputs on the same host *)
Module SampleLoader.

Definition loader_js : string := "/plugin/loader.js".
Definition is_Error (e : Thrown) : bool := true.
Definition String_of_truthy (e : Thrown) : option string :=
  match e with TypeError msg | HostError msg => Some msg end.

Definition loader_hook := loader_hook PosixPath.extname loader_js.
Definition stylexLoader :=
  stylexLoader Sample.Rule Sample.SourceMap Sample.BabelItem Sample.ExtraOptions
    PosixPath.extname Sample.readFile Sample.transformAsync
    is_Error String_of_truthy.

Definition babel_loader : LoaderEntry :=
  {| loader := "/proj/node_modules/babel-loader/lib/index.js"; options := None |}.

Definition page : NormalModule :=
  {| nm_module := {| resource := Some "/proj/src/page.mjsx" |};
     loaders := [babel_loader] |}.

Definition stylesheet : NormalModule :=
  {| nm_module := {| resource := Some "/proj/src/page.css" |};
     loaders := [babel_loader] |}.

(** a text the sample compiler rejects, and one it finds no rules in *)
Definition broken : string := "import 'stylex'; syntax error".
Definition unused_import : string := "import * as stylex from 'stylex'".

(** [babelConfig: { babelrc: true }], with the file on disk *)
Definition on_disk (file : string) : Res string := inr Sample.styled.

Definition raw_config : Loading Sample.Rule Sample.BabelItem Sample.ExtraOptions :=
  {| plugin := Sample.new_StylexPlugin
                 {| o_dev := None; o_appendTo := None; o_filename := None;
                    o_stylexImports := None; o_moduleResolution := None;
                    o_babelConfig := Some {| bc_plugins := None;
                                             bc_presets := None;
                                             bc_babelrc := Some true |};
                    o_useCSSLayers := None;
                    o_importSources := None; o_rest := tt |};
     debugLog := [] |}.

Definition transformCode_on_disk :=
  transformCode Sample.Rule Sample.SourceMap Sample.BabelItem Sample.ExtraOptions
    PosixPath.extname on_disk Sample.transformAsync.

(** a plugin whose entry for a.js holds a rule of an earlier compilation *)
Definition renamed : Loading Sample.Rule Sample.BabelItem Sample.ExtraOptions :=
  {| plugin := set_stylexRules Sample.Rule Sample.BabelItem Sample.ExtraOptions
                 (plugin Sample.built)
                 (Js.set Sample.a_js ["old-rule"] (stylexRules (plugin Sample.built)));
     debugLog := debugLog Sample.built |}.

(** the compilation of the sample with [hashSalt] set *)
Definition salted (salt : option string) : Compilation Sample.AssetInfo :=
  {| outputOptions := {| hashDigest := Some "hex";
                         hashDigestLength := Some 6%Z;
                         hashFunction := "md4";
                         hashSalt := salt;
                         outputPath := "/proj/dist" |};
     chunkGraph := Sample.modules_of;
     assets := Js.empty;
     errors := [] |}.

End SampleLoader.

(* ------------------------------------------------------------------ *)
(** ** Properties *)

Section Properties.

Local Open Scope js_scope.
Set Default Proof Using "Type".

(** the parameters of the plugin, as in [Section Plugin] *)
Variable Rule : Type.
Variable SourceMap : Type.
Variable AssetInfo : Type.
Variable BabelItem : Type.
Variable ExtraOptions : Type.
Variable Hash : Type.

Local Abbreviation StylexBabelOptions := (StylexBabelOptions ExtraOptions).
Local Abbreviation BabelPluginEntry :=
  (BabelPluginEntry BabelItem ExtraOptions).
Local Abbreviation BabelConfig := (BabelConfig BabelItem).
Local Abbreviation BabelOptions := (BabelOptions BabelItem ExtraOptions).
Local Abbreviation BabelResult := (BabelResult Rule SourceMap).
Local Abbreviation Compilation := (Compilation AssetInfo).
Local Abbreviation BabelConfigOptions := (BabelConfigOptions BabelItem).
Local Abbreviation PluginOptions := (PluginOptions BabelItem ExtraOptions).
Local Abbreviation Plugin := (Plugin Rule BabelItem ExtraOptions).
Local Abbreviation Transformed := (Transformed SourceMap).
Local Abbreviation Loading := (Loading Rule BabelItem ExtraOptions).
Local Abbreviation Event := (Event AssetInfo).

Variable IS_DEV_ENV : bool.
Variable cwd : string.
Variable path_sep : string.
Variable path_extname : string -> string.
Variable path_parse_name : string -> string.
Variable readFile : string -> Res string.
Variable transformAsync : string -> BabelOptions -> Res BabelResult.
Variable processStylexRules : list Rule -> bool -> Res string.
Variable createHash : string -> Res Hash.
Variable hash_update : Hash -> string -> Res Hash.
Variable hash_digest : Hash -> option string -> Res string.
Variable getPathWithInfo : string -> PathData -> Res (string * AssetInfo).
Variable emitAsset_rejects :
  Compilation -> string -> RawSource -> AssetInfo -> option Thrown.

Variable loader_js : string.
Variable is_Error : Thrown -> bool.
Variable String_of_truthy : Thrown -> option string.

Local Abbreviation TsPlugin := (TsPlugin Rule).
Local Abbreviation ts_bundleToRules := (ts_bundleToRules Rule).
Local Abbreviation ts_getBundleToStylexRules :=
  (ts_getBundleToStylexRules Rule processStylexRules).
Local Abbreviation Callback := (Callback SourceMap).
Local Abbreviation loader_hook := (loader_hook path_extname loader_js).
Local Abbreviation stylex_entry := (stylex_entry loader_js).
Local Abbreviation stylexLoader :=
  (stylexLoader Rule SourceMap BabelItem ExtraOptions path_extname readFile
     transformAsync is_Error String_of_truthy).
Local Abbreviation same_config := (same_config Rule BabelItem ExtraOptions).
Local Abbreviation constructed :=
  (constructed Rule BabelItem ExtraOptions IS_DEV_ENV cwd).
Local Abbreviation new_StylexPlugin :=
  (new_StylexPlugin Rule BabelItem ExtraOptions IS_DEV_ENV cwd).
Local Abbreviation set_stylexRules :=
  (set_stylexRules Rule BabelItem ExtraOptions).
Local Abbreviation set_filesInLastRun :=
  (set_filesInLastRun Rule BabelItem ExtraOptions).
Local Abbreviation set_fileToBundlesMap :=
  (set_fileToBundlesMap Rule BabelItem ExtraOptions).
Local Abbreviation record_rules := (record_rules Rule BabelItem ExtraOptions).
Local Abbreviation transformCode :=
  (transformCode Rule SourceMap BabelItem ExtraOptions path_extname readFile
     transformAsync).
Local Abbreviation make := (make Rule BabelItem ExtraOptions).
Local Abbreviation finishModules := (finishModules Rule BabelItem ExtraOptions).
Local Abbreviation track_module := (track_module path_sep).
Local Abbreviation track_chunk := (track_chunk AssetInfo path_sep).
Local Abbreviation track_chunks := (track_chunks AssetInfo path_sep).
Local Abbreviation afterOptimizeChunks :=
  (afterOptimizeChunks Rule AssetInfo BabelItem ExtraOptions path_sep).
Local Abbreviation push_rules := (push_rules Rule).
Local Abbreviation collect_file := (collect_file Rule).
Local Abbreviation process_bundles := (process_bundles Rule processStylexRules).
Local Abbreviation getBundleToStylexRules :=
  (getBundleToStylexRules Rule BabelItem ExtraOptions processStylexRules).
Local Abbreviation getContentHash :=
  (getContentHash AssetInfo Hash createHash hash_update hash_digest).
Local Abbreviation emitAsset := (emitAsset AssetInfo emitAsset_rejects).
Local Abbreviation path_data := (path_data path_parse_name).
Local Abbreviation emit_bundle :=
  (emit_bundle AssetInfo Hash path_parse_name createHash hash_update
     hash_digest getPathWithInfo emitAsset_rejects).
Local Abbreviation emit_all :=
  (emit_all Rule AssetInfo BabelItem ExtraOptions Hash path_parse_name
     processStylexRules createHash hash_update hash_digest getPathWithInfo
     emitAsset_rejects).
Local Abbreviation processAssets :=
  (processAssets Rule AssetInfo BabelItem ExtraOptions Hash path_parse_name
     processStylexRules createHash hash_update hash_digest getPathWithInfo
     emitAsset_rejects).
Local Abbreviation step :=
  (step Rule SourceMap AssetInfo BabelItem ExtraOptions path_sep
     path_extname readFile transformAsync).
Local Abbreviation run :=
  (run Rule SourceMap AssetInfo BabelItem ExtraOptions path_sep path_extname
     readFile transformAsync).
Local Abbreviation is_node_module := (is_node_module path_sep).
Local Abbreviation records_rules :=
  (records_rules Rule SourceMap AssetInfo BabelItem ExtraOptions path_sep
     path_extname readFile transformAsync).
Local Abbreviation never_records :=
  (never_records Rule SourceMap AssetInfo BabelItem ExtraOptions path_sep
     path_extname readFile transformAsync).
Local Abbreviation transforms := (transforms AssetInfo).
Local Abbreviation asset_path :=
  (asset_path AssetInfo Hash path_parse_name createHash hash_update
     hash_digest getPathWithInfo).
Local Abbreviation claimed_asset_path :=
  (claimed_asset_path Rule AssetInfo BabelItem ExtraOptions Hash
     path_parse_name createHash hash_update hash_digest getPathWithInfo).
Local Abbreviation emission_failure :=
  (emission_failure AssetInfo Hash path_parse_name createHash hash_update
     hash_digest getPathWithInfo emitAsset_rejects).

(* ------------------------------------------------------------------ *)
(** ** Facts about objects used as dictionaries *)

Lemma get_set_same {V} (k : string) (v : V) (o : Js.obj V) :
  Js.get k (Js.set k v o) = Some v.
Proof.
  induction o as [|[k' v'] o IH]; simpl.
  - now rewrite String.eqb_refl.
  - destruct (String.eqb k k') eqn:E; simpl; rewrite E; auto.
Qed.

Lemma get_set_other {V} (k k' : string) (v : V) (o : Js.obj V) :
  k <> k' -> Js.get k (Js.set k' v o) = Js.get k o.
Proof.
  intros Hne. induction o as [|[k0 v0] o IH]; simpl.
  - destruct (String.eqb_spec k k'); congruence.
  - destruct (String.eqb_spec k' k0) as [Hk|Hk]; simpl.
    + subst k0. destruct (String.eqb_spec k k'); congruence.
    + destruct (String.eqb k k0); auto.
Qed.

Lemma get_set {V} (k k' : string) (v : V) (o : Js.obj V) :
  Js.get k (Js.set k' v o) = if String.eqb k k' then Some v else Js.get k o.
Proof.
  destruct (String.eqb_spec k k') as [->|Hne].
  - apply get_set_same.
  - now apply get_set_other.
Qed.

Lemma get_In {V} (k : string) (v : V) (o : Js.obj V) :
  Js.get k o = Some v -> In (k, v) o.
Proof.
  induction o as [|[k' v'] o IH]; simpl; [discriminate|].
  destruct (String.eqb_spec k k') as [->|Hne]; intros H.
  - injection H as ->. now left.
  - right; auto.
Qed.

Lemma In_get {V} (k : string) (v : V) (o : Js.obj V) :
  NoDup (List.map fst o) -> In (k, v) o -> Js.get k o = Some v.
Proof.
  induction o as [|[k' v'] o IH]; simpl; [intros _ []|].
  intros Hnd [Heq|Hin]; inversion Hnd as [|? ? Hnotin Hnd' [E1 E2]]; clear E1 E2.
  - injection Heq as -> ->. now rewrite String.eqb_refl.
  - destruct (String.eqb_spec k k') as [->|Hne]; auto.
    exfalso. apply Hnotin. apply (in_map fst) in Hin. exact Hin.
Qed.

Lemma get_None_notin {V} (k : string) (o : Js.obj V) :
  Js.get k o = None <-> ~ In k (List.map fst o).
Proof.
  induction o as [|[k' v'] o IH]; simpl; [split; [intros _ []|reflexivity]|].
  destruct (String.eqb_spec k k') as [->|Hne]; split; intros H.
  - discriminate.
  - exfalso; apply H; now left.
  - intros [Heq|Hin]; [congruence|]. now apply IH in H.
  - apply IH. intros Hin. apply H. now right.
Qed.

Lemma set_keys {V} (k : string) (v : V) (o : Js.obj V) :
  List.map fst (Js.set k v o) =
  match Js.get k o with
  | Some _ => List.map fst o
  | None => (List.map fst o ++ [k])%list
  end.
Proof.
  induction o as [|[k' v'] o IH]; simpl; [reflexivity|].
  destruct (String.eqb k k') eqn:E; simpl; [reflexivity|].
  rewrite IH. now destruct (Js.get k o).
Qed.

Lemma set_keys_NoDup {V} (k : string) (v : V) (o : Js.obj V) :
  NoDup (List.map fst o) -> NoDup (List.map fst (Js.set k v o)).
Proof.
  intros Hnd. rewrite set_keys. destruct (Js.get k o) eqn:E; [exact Hnd|].
  apply get_None_notin in E.
  apply NoDup_rev in Hnd. rewrite <- (rev_involutive (_ ++ _)).
  apply NoDup_rev. rewrite rev_app_distr. simpl. constructor; [|exact Hnd].
  now rewrite <- in_rev.
Qed.

Lemma insert_by_index_perm {V} (e : string * V) (l : list (string * V)) :
  Permutation (Js.insert_by_index e l) (e :: l).
Proof.
  induction l as [|e' l IH]; simpl; [reflexivity|].
  destruct (N.leb _ _); [reflexivity|].
  rewrite IH. apply perm_swap.
Qed.

Lemma sort_by_index_perm {V} (l : list (string * V)) :
  Permutation (Js.sort_by_index l) l.
Proof.
  induction l as [|e l IH]; simpl; [reflexivity|].
  rewrite insert_by_index_perm. now constructor.
Qed.

Lemma filter_split_perm {A} (f : A -> bool) (l : list A) :
  Permutation (filter f l ++ filter (fun x => negb (f x)) l) l.
Proof.
  induction l as [|a l IH]; simpl; [reflexivity|].
  destruct (f a); simpl.
  - now constructor.
  - rewrite <- Permutation_middle. now constructor.
Qed.

(** enumeration visits exactly the entries of the object *)
Lemma own_entries_perm {V} (o : Js.obj V) : Permutation (Js.own_entries o) o.
Proof.
  unfold Js.own_entries. rewrite sort_by_index_perm.
  apply (filter_split_perm (fun e => Js.is_index (fst e))).
Qed.

Lemma filter_nil {A} (f : A -> bool) (l : list A) :
  (forall x, In x l -> f x = false) -> filter f l = [].
Proof.
  induction l as [|a l IH]; simpl; intros H; [reflexivity|].
  rewrite (H a) by now left. apply IH. intros; apply H; now right.
Qed.

Lemma filter_filter_absorb {A} (f g : A -> bool) (l : list A) :
  (forall x, In x l -> f x = true -> g x = true) ->
  filter f (filter g l) = filter f l.
Proof.
  induction l as [|a l IH]; simpl; intros H; [reflexivity|].
  destruct (g a) eqn:Eg; simpl.
  - rewrite IH; [reflexivity|]. intros; apply H; auto.
  - destruct (f a) eqn:Ef.
    + rewrite (H a) in Eg; auto; discriminate.
    + apply IH. intros; apply H; auto.
Qed.

(** a selection that never picks an array-index key is enumerated in
    creation order *)
Lemma filter_own_entries {V} (sel : string * V -> bool) (o : Js.obj V) :
  (forall e, In e o -> sel e = true -> Js.is_index (fst e) = false) ->
  filter sel (Js.own_entries o) = filter sel o.
Proof.
  intros H. unfold Js.own_entries. rewrite filter_app.
  rewrite filter_nil.
  - simpl. apply filter_filter_absorb. intros x Hin Hs.
    now rewrite (H x Hin Hs).
  - intros x Hin.
    apply (Permutation_in _ (sort_by_index_perm _)) in Hin.
    apply filter_In in Hin. destruct Hin as [Hin Hidx].
    destruct (sel x) eqn:Es; [|reflexivity].
    rewrite (H x Hin Es) in Hidx. discriminate.
Qed.

(* ------------------------------------------------------------------ *)
(** ** The bundle-membership tracker *)

Lemma array_includes_In (x : string) (l : list string) :
  Js.array_includes x l = true <-> In x l.
Proof.
  unfold Js.array_includes. rewrite existsb_exists. split.
  - intros [y [Hin Heq]]. apply String.eqb_eq in Heq. now subst.
  - intros Hin. exists x. split; [exact Hin|apply String.eqb_refl].
Qed.

Lemma chunkName_truthy (chunk : Chunk) : Js.truthy (chunkName chunk) = true.
Proof.
  unfold chunkName, or_string.
  destruct (Js.or_else (name chunk) (id_toString (id chunk))) as [s|].
  - destruct (Js.truthy s) eqn:E; [exact E|reflexivity].
  - reflexivity.
Qed.

Lemma add_bundle_same (fp cn : string) (m : Js.obj (list string)) :
  exists l, Js.get fp (add_bundle fp cn m) = Some l /\ In cn l /\
    incl (default (Js.get fp m) []) l /\
    (NoDup (default (Js.get fp m) []) -> NoDup l).
Proof.
  unfold add_bundle. destruct (Js.get fp m) as [cur|] eqn:E; simpl.
  - destruct (Js.array_includes cn cur) eqn:Ei.
    + exists cur. rewrite E. repeat split; auto using incl_refl.
      now apply array_includes_In.
    + exists (cur ++ [cn])%list. rewrite get_set_same. repeat split.
      * apply in_or_app; right; now left.
      * now apply incl_appl, incl_refl.
      * intros Hnd. apply NoDup_rev in Hnd.
        rewrite <- (rev_involutive (_ ++ _)). apply NoDup_rev.
        rewrite rev_app_distr. simpl. constructor; [|exact Hnd].
        rewrite <- in_rev. intros Hin. apply array_includes_In in Hin. congruence.
  - exists [cn]. rewrite get_set_same. repeat split.
    + now left.
    + intros x [].
    + intros _. constructor; [intros []|constructor].
Qed.

Lemma add_bundle_other (f fp cn : string) (m : Js.obj (list string)) :
  f <> fp -> Js.get f (add_bundle fp cn m) = Js.get f m.
Proof.
  intros Hne. unfold add_bundle. destruct (Js.get fp m) as [cur|]; simpl.
  - destruct (Js.array_includes cn cur); [reflexivity|].
    now apply get_set_other.
  - rewrite !get_set_other by exact Hne. reflexivity.
Qed.

Lemma add_bundle_grows (fp cn : string) (m : Js.obj (list string)) :
  grows m (add_bundle fp cn m).
Proof.
  intros f l Hf. destruct (String.eqb_spec f fp) as [->|Hne].
  - destruct (add_bundle_same fp cn m) as [l' [Hg [_ [Hincl _]]]].
    exists l'. rewrite Hf in Hincl. auto.
  - exists l. rewrite add_bundle_other by exact Hne. auto using incl_refl.
Qed.

Lemma add_bundle_NoDup (fp cn : string) (m : Js.obj (list string)) :
  lists_NoDup m -> lists_NoDup (add_bundle fp cn m).
Proof.
  intros Hm f l Hf. destruct (String.eqb_spec f fp) as [->|Hne].
  - destruct (add_bundle_same fp cn m) as [l' [Hg [_ [_ Hnd]]]].
    rewrite Hf in Hg. injection Hg as <-. apply Hnd.
    destruct (Js.get fp m) as [cur|] eqn:E; simpl; [now apply (Hm fp)|constructor].
  - rewrite add_bundle_other in Hf by exact Hne. now apply (Hm f).
Qed.

Lemma grows_refl (m : Js.obj (list string)) : grows m m.
Proof. intros f l H. exists l. auto using incl_refl. Qed.

Lemma grows_trans (m1 m2 m3 : Js.obj (list string)) :
  grows m1 m2 -> grows m2 m3 -> grows m1 m3.
Proof.
  intros H12 H23 f l Hf.
  destruct (H12 f l Hf) as [l2 [H2 Hi2]].
  destruct (H23 f l2 H2) as [l3 [H3 Hi3]].
  exists l3. split; [exact H3|]. eapply incl_tran; eauto.
Qed.

Lemma track_module_grows (cn : string) (m : Js.obj (list string)) (md : Module_) :
  grows m (track_module cn m md).
Proof.
  unfold track_module. destruct (resource md) as [fp|]; [|apply grows_refl].
  destruct (Js.truthy fp); [|apply grows_refl].
  destruct (negb _); [apply add_bundle_grows|apply grows_refl].
Qed.

Lemma track_module_NoDup (cn : string) (m : Js.obj (list string)) (md : Module_) :
  lists_NoDup m -> lists_NoDup (track_module cn m md).
Proof.
  intros H. unfold track_module. destruct (resource md) as [fp|]; [|exact H].
  destruct (Js.truthy fp); [|exact H].
  destruct (negb _); [now apply add_bundle_NoDup|exact H].
Qed.

(** a file enters the map only as the resource of the module at hand, and
    only when it is outside every dependency directory *)
Lemma track_module_keys (Q : string -> Prop) (cn : string)
  (m : Js.obj (list string)) (md : Module_) :
  (forall fp, resource md = Some fp -> is_node_module fp = false -> Q fp) ->
  keys_sat Q m -> keys_sat Q (track_module cn m md).
Proof.
  intros HQ H. unfold track_module.
  destruct (resource md) as [fp|] eqn:Er; [|exact H].
  destruct (Js.truthy fp); [|exact H].
  destruct (is_node_module fp) eqn:En; simpl; [exact H|].
  intros f l Hf. destruct (String.eqb_spec f fp) as [->|Hne].
  - now apply HQ.
  - rewrite add_bundle_other in Hf by exact Hne. now apply (H f l).
Qed.

Lemma fold_modules_grows (cn : string) (mods : list Module_) (m : Js.obj (list string)) :
  grows m (fold_left (track_module cn) mods m).
Proof.
  revert m. induction mods as [|md mods IH]; intros m; simpl.
  - apply grows_refl.
  - eapply grows_trans; [apply track_module_grows|apply IH].
Qed.

Lemma fold_modules_NoDup (cn : string) (mods : list Module_) (m : Js.obj (list string)) :
  lists_NoDup m -> lists_NoDup (fold_left (track_module cn) mods m).
Proof.
  revert m. induction mods as [|md mods IH]; intros m H; simpl; auto.
  apply IH. now apply track_module_NoDup.
Qed.

Lemma fold_modules_keys (Q : string -> Prop) (cn : string) (mods : list Module_)
  (m : Js.obj (list string)) :
  (forall md fp, In md mods -> resource md = Some fp ->
                 is_node_module fp = false -> Q fp) ->
  keys_sat Q m -> keys_sat Q (fold_left (track_module cn) mods m).
Proof.
  revert m. induction mods as [|md mods IH]; intros m HQ H; simpl; auto.
  apply IH.
  - intros md' fp Hin. apply HQ. now right.
  - apply track_module_keys; [|exact H]. intros fp. apply HQ. now left.
Qed.

(** after the modules of a chunk are walked, each of its files outside the
    dependency directories carries the chunk's identifier *)
Lemma fold_modules_records (cn fp : string) (mods : list Module_)
  (m : Js.obj (list string)) (md : Module_) :
  In md mods -> resource md = Some fp -> Js.truthy fp = true ->
  is_node_module fp = false ->
  exists l, Js.get fp (fold_left (track_module cn) mods m) = Some l /\ In cn l.
Proof.
  revert m. induction mods as [|md0 mods IH]; intros m Hin Hr Ht Hn; [destruct Hin|].
  simpl. destruct Hin as [->|Hin].
  - assert (Hstep : exists l, Js.get fp (track_module cn m md) = Some l /\ In cn l).
    { unfold track_module. rewrite Hr, Ht. rewrite Hn. simpl.
      destruct (add_bundle_same fp cn m) as [l [Hg [Hc _]]]. eauto. }
    destruct Hstep as [l [Hg Hc]].
    destruct (fold_modules_grows cn mods _ fp l Hg) as [l' [Hg' Hi]].
    exists l'. auto.
  - now apply IH.
Qed.

Lemma track_chunk_unguarded (c : Compilation) (m : Js.obj (list string)) (chunk : Chunk) :
  track_chunk c m chunk =
  fold_left (track_module (chunkName chunk)) (chunkGraph c chunk) m.
Proof. unfold track_chunk. now rewrite chunkName_truthy. Qed.

Lemma fold_chunks_grows (c : Compilation) (chunks : list Chunk) (m : Js.obj (list string)) :
  grows m (fold_left (track_chunk c) chunks m).
Proof.
  revert m. induction chunks as [|ch chunks IH]; intros m; simpl.
  - apply grows_refl.
  - eapply grows_trans; [|apply IH].
    rewrite track_chunk_unguarded. apply fold_modules_grows.
Qed.

Lemma fold_chunks_NoDup (c : Compilation) (chunks : list Chunk) (m : Js.obj (list string)) :
  lists_NoDup m -> lists_NoDup (fold_left (track_chunk c) chunks m).
Proof.
  revert m. induction chunks as [|ch chunks IH]; intros m H; simpl; auto.
  apply IH. rewrite track_chunk_unguarded. now apply fold_modules_NoDup.
Qed.

Lemma fold_chunks_keys (Q : string -> Prop) (c : Compilation) (chunks : list Chunk)
  (m : Js.obj (list string)) :
  (forall ch md fp, In ch chunks -> In md (chunkGraph c ch) ->
     resource md = Some fp -> is_node_module fp = false -> Q fp) ->
  keys_sat Q m -> keys_sat Q (fold_left (track_chunk c) chunks m).
Proof.
  revert m. induction chunks as [|ch chunks IH]; intros m HQ H; simpl; auto.
  apply IH.
  - intros ch' md fp Hin. apply HQ. now right.
  - rewrite track_chunk_unguarded. apply fold_modules_keys; [|exact H].
    intros md fp. apply HQ. now left.
Qed.

Lemma fold_chunks_records (c : Compilation) (chunks : list Chunk)
  (m : Js.obj (list string)) (ch : Chunk) (md : Module_) (fp : string) :
  In ch chunks -> In md (chunkGraph c ch) -> resource md = Some fp ->
  Js.truthy fp = true -> is_node_module fp = false ->
  exists l, Js.get fp (fold_left (track_chunk c) chunks m) = Some l /\
            In (chunkName ch) l.
Proof.
  revert m. induction chunks as [|ch0 chunks IH]; intros m Hin Hmd Hr Ht Hn;
    [destruct Hin|].
  simpl. destruct Hin as [->|Hin].
  - rewrite track_chunk_unguarded.
    destruct (fold_modules_records (chunkName ch) fp (chunkGraph c ch) m md
                Hmd Hr Ht Hn) as [l [Hg Hc]].
    destruct (fold_chunks_grows c chunks _ fp l Hg) as [l' [Hg' Hi]].
    exists l'. auto.
  - now apply IH.
Qed.

Lemma lists_NoDup_empty : lists_NoDup Js.empty.
Proof. intros f l H. discriminate. Qed.

Lemma keys_sat_empty (Q : string -> Prop) : keys_sat Q Js.empty.
Proof. intros f l H. discriminate. Qed.

Lemma track_chunks_NoDup (c : Compilation) (chunks : list Chunk) :
  lists_NoDup (track_chunks c chunks).
Proof. apply fold_chunks_NoDup, lists_NoDup_empty. Qed.

Lemma truthy_nonempty (s : string) : s <> "" -> Js.truthy s = true.
Proof. destruct s; [congruence|reflexivity]. Qed.

Lemma count_occ_NoDup_In (l : list string) (x : string) :
  NoDup l -> In x l -> count_occ string_dec l x = 1%nat.
Proof.
  intros Hnd Hin.
  pose proof (proj1 (NoDup_count_occ string_dec l) Hnd x) as Hle.
  pose proof (proj1 (count_occ_In string_dec l x) Hin) as Hgt. lia.
Qed.

(** C3: after the [afterOptimizeChunks] handler has walked the chunks, a
    module of a chunk whose resource is a file path inside a [node_modules]
    directory has no entry in [fileToBundlesMap]; the resource of any other
    module of the chunk has an entry whose bundle list holds the chunk's
    identifier exactly once. *)
Theorem afterOptimizeChunks_membership
  (c : Compilation) (chunks : list Chunk) (p : Plugin)
  (chunk : Chunk) (md : Module_) (filePath : string) :
  In chunk chunks ->
  In md (chunkGraph c chunk) ->
  resource md = Some filePath ->
  filePath <> "" ->
  exists ftb,
    fileToBundlesMap (afterOptimizeChunks c chunks p) = Some ftb /\
    if is_node_module filePath
    then Js.get filePath ftb = None
    else exists bundles,
           Js.get filePath ftb = Some bundles /\
           count_occ string_dec bundles (chunkName chunk) = 1%nat.
Proof.
  intros Hch Hmd Hr Hne. exists (track_chunks c chunks). split; [reflexivity|].
  destruct (is_node_module filePath) eqn:En.
  - destruct (Js.get filePath (track_chunks c chunks)) as [l|] eqn:Eg; [|reflexivity].
    exfalso.
    assert (Hk : keys_sat (fun f => is_node_module f = false) (track_chunks c chunks)).
    { apply fold_chunks_keys; [auto|apply keys_sat_empty]. }
    specialize (Hk filePath l Eg). simpl in Hk. congruence.
  - destruct (fold_chunks_records c chunks Js.empty chunk md filePath
                Hch Hmd Hr (truthy_nonempty _ Hne) En) as [l [Hg Hin]].
    exists l. split; [exact Hg|].
    apply count_occ_NoDup_In; [|exact Hin].
    exact (track_chunks_NoDup c chunks filePath l Hg).
Qed.

(** C7: the handler assigns a map computed from the chunks of this
    invocation alone, whatever the plugin held before; a file that is the
    resource of no module of these chunks has no entry in it. *)
Theorem afterOptimizeChunks_replaces
  (c : Compilation) (chunks : list Chunk) (p : Plugin) (file : string) :
  (forall chunk md, In chunk chunks -> In md (chunkGraph c chunk) ->
                    resource md <> Some file) ->
  exists ftb,
    fileToBundlesMap (afterOptimizeChunks c chunks p) = Some ftb /\
    Js.get file ftb = None /\
    forall p', fileToBundlesMap (afterOptimizeChunks c chunks p') = Some ftb.
Proof.
  intros Habsent. exists (track_chunks c chunks).
  split; [reflexivity|]. split; [|reflexivity].
  destruct (Js.get file (track_chunks c chunks)) as [l|] eqn:Eg; [|reflexivity].
  exfalso.
  assert (Hk : keys_sat
                 (fun f => exists chunk md, In chunk chunks /\
                    In md (chunkGraph c chunk) /\ resource md = Some f)
                 (track_chunks c chunks)).
  { apply fold_chunks_keys; [|apply keys_sat_empty].
    intros ch md fp Hch Hmd Hr _. eauto. }
  destruct (Hk file l Eg) as [ch [md [Hch [Hmd Hr]]]].
  exact (Habsent ch md Hch Hmd Hr).
Qed.

(** C10: the identifier derived on line 82 is never falsy, because its last
    alternative is a template literal starting with [chunk-]; the guard on
    line 83 therefore never skips a chunk, and a chunk without name, id and
    rendered hash is walked under the identifier [chunk-undefined]: in the
    map the handler assigns, the resource of each of its modules outside
    [node_modules] has an entry that holds [chunk-undefined], once. *)
Theorem chunkName_always_truthy :
  (forall chunk, Js.truthy (chunkName chunk) = true) /\
  (forall chunk, chunkName chunk <> "") /\
  (forall c m chunk,
     track_chunk c m chunk =
     fold_left (track_module (chunkName chunk)) (chunkGraph c chunk) m) /\
  (forall n,
     chunkName {| debugId := n; name := None; id := None; renderedHash := None |}
     = "chunk-undefined") /\
  (forall c m n,
     let chunk := {| debugId := n; name := None; id := None; renderedHash := None |} in
     track_chunk c m chunk =
     fold_left (track_module "chunk-undefined") (chunkGraph c chunk) m) /\
  (forall c chunks p chunk md filePath,
     In chunk chunks ->
     name chunk = None -> id chunk = None -> renderedHash chunk = None ->
     In md (chunkGraph c chunk) ->
     resource md = Some filePath ->
     filePath <> "" ->
     is_node_module filePath = false ->
     exists ftb bundles,
       fileToBundlesMap (afterOptimizeChunks c chunks p) = Some ftb /\
       Js.get filePath ftb = Some bundles /\
       count_occ string_dec bundles "chunk-undefined" = 1%nat).
Proof.
  split; [exact chunkName_truthy|].
  split.
  { intros chunk H. pose proof (chunkName_truthy chunk) as Ht.
    rewrite H in Ht. discriminate. }
  split; [exact track_chunk_unguarded|].
  split; [reflexivity|].
  split; [intros c m n chunk; apply track_chunk_unguarded|].
  intros c chunks p chunk md filePath Hch Hname Hid Hhash Hmd Hr Hne Hn.
  destruct (fold_chunks_records c chunks Js.empty chunk md filePath
              Hch Hmd Hr (truthy_nonempty _ Hne) Hn) as [l [Hg Hin]].
  assert (Hcn : chunkName chunk = "chunk-undefined").
  { unfold chunkName. now rewrite Hname, Hid, Hhash. }
  rewrite Hcn in Hin.
  exists (track_chunks c chunks), l. split; [reflexivity|]. split; [exact Hg|].
  apply count_occ_NoDup_In; [|exact Hin].
  exact (track_chunks_NoDup c chunks filePath l Hg).
Qed.

(* ------------------------------------------------------------------ *)
(** ** The rule aggregator *)

Lemma push_rules_get (R : list Rule) (acc acc' : Js.obj (list Rule))
  (b b0 : string) :
  push_rules R acc b0 = inr acc' ->
  Js.get b acc' =
  if String.eqb b b0 then Some (default (Js.get b0 acc) [] ++ R)%list
  else Js.get b acc.
Proof.
  unfold push_rules. destruct (Js.get b0 acc) as [cur|] eqn:E; simpl.
  - intros H. injection H as <-. rewrite get_set. reflexivity.
  - destruct (Js.inherited b0); [discriminate|].
    intros H. injection H as <-.
    rewrite !get_set. destruct (String.eqb b b0); reflexivity.
Qed.

Lemma fold_push_get (R : list Rule) (bs : list string)
  (acc acc' : Js.obj (list Rule)) (b : string) :
  NoDup bs ->
  fold_res (push_rules R) bs acc = inr acc' ->
  Js.get b acc' =
  if Js.array_includes b bs then Some (default (Js.get b acc) [] ++ R)%list
  else Js.get b acc.
Proof.
  revert acc. induction bs as [|b0 bs IH]; intros acc Hnd H; simpl in H.
  - injection H as <-. reflexivity.
  - inversion Hnd as [|? ? Hnotin Hnd']; subst.
    destruct (push_rules R acc b0) as [e|acc1] eqn:E1; simpl in H; [discriminate|].
    rewrite (IH _ Hnd' H). rewrite (push_rules_get _ _ _ b _ E1).
    simpl.
    destruct (String.eqb_spec b b0) as [Heq|Hne]; simpl.
    + subst b0. destruct (Js.array_includes b bs) eqn:Ei; [|reflexivity].
      apply array_includes_In in Ei. contradiction.
    + reflexivity.
Qed.

Lemma collect_get (ftb : Js.obj (list string)) (b : string)
  (es : list (string * list Rule)) (acc acc' : Js.obj (list Rule)) :
  lists_NoDup ftb ->
  fold_res (collect_file ftb) es acc = inr acc' ->
  Js.get b acc' =
  appended (Js.get b acc) (filter (fun e => in_bundle ftb (fst e) b) es).
Proof.
  intros Hnd. revert acc. induction es as [|[f R] es IH]; intros acc H; simpl in H.
  - injection H as <-. reflexivity.
  - destruct (collect_file ftb acc (f, R)) as [e|acc1] eqn:E1; simpl in H;
      [discriminate|].
    rewrite (IH _ H). unfold collect_file in E1. simpl in E1.
    simpl. unfold in_bundle at 2. simpl.
    destruct (Js.get f ftb) as [bs|] eqn:Ef.
    + rewrite (fold_push_get _ _ _ _ b (Hnd f bs Ef) E1).
      destruct (Js.array_includes b bs); [|reflexivity].
      simpl. destruct (filter _ es) as [|e' cs']; simpl.
      * now rewrite app_nil_r.
      * now rewrite <- !app_assoc.
    + injection E1 as <-. reflexivity.
Qed.

Lemma push_rules_keys (R : list Rule) (acc acc' : Js.obj (list Rule))
  (b0 : string) :
  push_rules R acc b0 = inr acc' ->
  NoDup (List.map fst acc) -> NoDup (List.map fst acc').
Proof.
  unfold push_rules. intros E H. destruct (Js.get b0 acc).
  - injection E as <-. now apply set_keys_NoDup.
  - destruct (Js.inherited b0); [discriminate|]. injection E as <-.
    now repeat apply set_keys_NoDup.
Qed.

Lemma fold_push_keys (R : list Rule) (bs : list string)
  (acc acc' : Js.obj (list Rule)) :
  fold_res (push_rules R) bs acc = inr acc' ->
  NoDup (List.map fst acc) -> NoDup (List.map fst acc').
Proof.
  revert acc. induction bs as [|b0 bs IH]; intros acc E H; simpl in E.
  - now injection E as <-.
  - destruct (push_rules R acc b0) as [e|acc1] eqn:E1; simpl in E; [discriminate|].
    apply (IH _ E). exact (push_rules_keys _ _ _ _ E1 H).
Qed.

Lemma collect_keys (ftb : Js.obj (list string)) (es : list (string * list Rule))
  (acc acc' : Js.obj (list Rule)) :
  fold_res (collect_file ftb) es acc = inr acc' ->
  NoDup (List.map fst acc) -> NoDup (List.map fst acc').
Proof.
  revert acc. induction es as [|e es IH]; intros acc E H; simpl in E.
  - now injection E as <-.
  - destruct (collect_file ftb acc e) as [t|acc1] eqn:E1; simpl in E; [discriminate|].
    apply (IH _ E). unfold collect_file in E1.
    destruct (Js.get (fst e) ftb) as [bs|].
    + exact (fold_push_keys _ _ _ _ E1 H).
    + now injection E1 as <-.
Qed.

Lemma bundleToRules_keys (sr : Js.obj (list Rule)) (ftb : Js.obj (list string))
  (acc : Js.obj (list Rule)) :
  bundleToRules sr ftb = inr acc -> NoDup (List.map fst acc).
Proof. intros E. apply (collect_keys _ _ _ _ E). constructor. Qed.

(** the accumulated list of a bundle is the concatenation of the rules of
    its contributors *)
Lemma bundleToRules_get (sr : Js.obj (list Rule)) (ftb : Js.obj (list string))
  (acc : Js.obj (list Rule)) (b : string) :
  lists_NoDup ftb ->
  bundleToRules sr ftb = inr acc ->
  Js.get b acc = appended None (contributors sr ftb b).
Proof. intros H E. unfold bundleToRules in E. now rewrite (collect_get _ b _ _ _ H E). Qed.

(** *** When the accumulation throws *)

Lemma fold_push_cases (R : list Rule) (bs : list string) (acc : Js.obj (list Rule)) :
  (forall b, Js.get b acc <> None -> Js.inherited b = false) ->
  (exists acc', fold_res (push_rules R) bs acc = inr acc' /\
     (forall b, In b bs -> Js.inherited b = false) /\
     (forall b, Js.get b acc' <> None -> Js.inherited b = false)) \/
  (fold_res (push_rules R) bs acc = inl push_TypeError /\
     exists b, In b bs /\ Js.inherited b = true).
Proof.
  revert acc. induction bs as [|b0 bs IH]; intros acc Hinv; simpl.
  - left. exists acc. split; [reflexivity|]. split; [intros b []|exact Hinv].
  - assert (Hcase : (exists acc1, push_rules R acc b0 = inr acc1 /\
                       Js.inherited b0 = false) \/
                    (push_rules R acc b0 = inl push_TypeError /\
                       Js.inherited b0 = true)).
    { unfold push_rules. destruct (Js.get b0 acc) as [cur|] eqn:E.
      - left. eexists. split; [reflexivity|]. apply Hinv. rewrite E. discriminate.
      - destruct (Js.inherited b0) eqn:Ei.
        + right. split; reflexivity.
        + left. eexists. split; reflexivity. }
    destruct Hcase as [[acc1 [E1 Hb0]]|[E1 Hb0]].
    + rewrite E1. simpl.
      assert (Hinv1 : forall b, Js.get b acc1 <> None -> Js.inherited b = false).
      { intros b Hb. rewrite (push_rules_get _ _ _ b _ E1) in Hb. revert Hb.
        destruct (String.eqb b b0) eqn:Eb; intros Hb; [|now apply Hinv].
        apply String.eqb_eq in Eb. now subst b. }
      destruct (IH acc1 Hinv1) as [[acc' [E' [Hbs Hinv']]]|[E' [b [Hin Hb]]]].
      * left. exists acc'. split; [exact E'|]. split; [|exact Hinv'].
        intros b [<-|Hin]; [exact Hb0|now apply Hbs].
      * right. split; [exact E'|]. exists b. split; [now right|exact Hb].
    + rewrite E1. simpl. right. split; [reflexivity|].
      exists b0. split; [now left|exact Hb0].
Qed.

Lemma collect_cases (ftb : Js.obj (list string)) (es : list (string * list Rule))
  (acc : Js.obj (list Rule)) :
  (forall b, Js.get b acc <> None -> Js.inherited b = false) ->
  (exists acc', fold_res (collect_file ftb) es acc = inr acc' /\
     (forall e b, In e es -> in_bundle ftb (fst e) b = true ->
        Js.inherited b = false) /\
     (forall b, Js.get b acc' <> None -> Js.inherited b = false)) \/
  (fold_res (collect_file ftb) es acc = inl push_TypeError /\
     exists e b, In e es /\ in_bundle ftb (fst e) b = true /\
       Js.inherited b = true).
Proof.
  revert acc. induction es as [|e es IH]; intros acc Hinv; simpl.
  - left. exists acc. split; [reflexivity|]. split; [intros e b []|exact Hinv].
  - unfold collect_file at 1 3. unfold in_bundle.
    destruct (Js.get (fst e) ftb) as [bs|] eqn:Ef.
    + destruct (fold_push_cases (snd e) bs acc Hinv)
        as [[acc1 [E1 [Hbs Hinv1]]]|[E1 [b [Hin Hb]]]]; rewrite E1; simpl.
      * destruct (IH acc1 Hinv1)
          as [[acc' [E' [Hes Hinv']]]|[E' [e' [b [Hin [Hm Hb]]]]]].
        -- left. exists acc'. split; [exact E'|]. split; [|exact Hinv'].
           intros e' b [<-|Hin] Hm.
           ++ rewrite Ef in Hm. apply Hbs. now apply array_includes_In.
           ++ exact (Hes e' b Hin Hm).
        -- right. split; [exact E'|]. exists e', b. split; [now right|].
           split; [exact Hm|exact Hb].
      * right. split; [reflexivity|]. exists e, b. split; [now left|].
        rewrite Ef. split; [now apply array_includes_In|exact Hb].
    + simpl. destruct (IH acc Hinv)
        as [[acc' [E' [Hes Hinv']]]|[E' [e' [b [Hin [Hm Hb]]]]]].
      * left. exists acc'. split; [exact E'|]. split; [|exact Hinv'].
        intros e' b [<-|Hin] Hm.
        -- rewrite Ef in Hm. discriminate.
        -- exact (Hes e' b Hin Hm).
      * right. split; [exact E'|]. exists e', b. split; [now right|].
        split; [exact Hm|exact Hb].
Qed.

(** the accumulation either completes, and then no recorded file is a member
    of a bundle named like a property of [Object.prototype] and no key of the
    result is such a name, or throws the [TypeError] of line 122, and then
    some recorded file is *)
Lemma bundleToRules_cases (sr : Js.obj (list Rule)) (ftb : Js.obj (list string)) :
  (exists acc, bundleToRules sr ftb = inr acc /\
     (forall f R b, In (f, R) sr -> in_bundle ftb f b = true ->
        Js.inherited b = false) /\
     (forall b, Js.get b acc <> None -> Js.inherited b = false)) \/
  (bundleToRules sr ftb = inl push_TypeError /\
     exists f R b, In (f, R) sr /\ in_bundle ftb f b = true /\
       Js.inherited b = true).
Proof.
  unfold bundleToRules.
  destruct (collect_cases ftb (Js.own_entries sr) Js.empty)
    as [[acc [E [H Hkeys]]]|[E [[f R] [b [Hin [Hm Hb]]]]]].
  - intros b Hb. now elim Hb.
  - left. exists acc. split; [exact E|]. split; [|exact Hkeys].
    intros f R b Hin Hm.
    apply (H (f, R) b); [|exact Hm].
    exact (Permutation_in _ (Permutation_sym (own_entries_perm sr)) Hin).
  - right. split; [exact E|]. exists f, R, b. split; [|split; assumption].
    exact (Permutation_in _ (own_entries_perm sr) Hin).
Qed.

Lemma process_bundles_get (layers : bool) (es : list (string * list Rule))
  (acc out : Js.obj string) (b : string) :
  NoDup (List.map fst es) ->
  process_bundles layers es acc = inr out ->
  (forall R, In (b, R) es ->
     exists css, processStylexRules R layers = inr css /\ Js.get b out = Some css) /\
  (~ In b (List.map fst es) -> Js.get b out = Js.get b acc).
Proof.
  revert acc. induction es as [|[b0 R0] es IH]; intros acc Hnd Hp; simpl in *.
  - injection Hp as <-. split; [intros R []|reflexivity].
  - inversion Hnd as [|? ? Hnotin Hnd']; subst.
    destruct (processStylexRules R0 layers) as [e|css0] eqn:E0; simpl in Hp;
      [discriminate|].
    destruct (IH _ Hnd' Hp) as [IH1 IH2]. split.
    + intros R [Heq|Hin].
      * injection Heq as -> ->. exists css0. split; [exact E0|].
        rewrite IH2 by exact Hnotin. apply get_set_same.
      * now apply IH1.
    + intros Hn. rewrite IH2 by (intros Hin; apply Hn; now right).
      apply get_set_other. intros ->. apply Hn. now left.
Qed.

Lemma own_entries_keys_NoDup {V} (o : Js.obj V) :
  NoDup (List.map fst o) -> NoDup (List.map fst (Js.own_entries o)).
Proof.
  intros H. eapply Permutation_NoDup; [|exact H].
  apply Permutation_map, Permutation_sym, own_entries_perm.
Qed.

(** each bundle of the output is the processed accumulated list *)
Lemma getBundleToStylexRules_get (p : Plugin) (ftb : Js.obj (list string))
  (out : Js.obj string) (b : string) :
  fileToBundlesMap p = Some ftb ->
  getBundleToStylexRules p = inr (Some out) ->
  exists acc,
    bundleToRules (stylexRules p) ftb = inr acc /\
    match Js.get b acc with
    | Some R => exists css, processStylexRules R (useCSSLayers p) = inr css /\
                            Js.get b out = Some css
    | None => Js.get b out = None
    end.
Proof.
  intros Hftb Hout. unfold getBundleToStylexRules in Hout.
  destruct (Nat.eqb _ 0); [discriminate|]. rewrite Hftb in Hout.
  destruct (bundleToRules (stylexRules p) ftb) as [e|btr] eqn:Eb; simpl in Hout;
    [discriminate|].
  exists btr. split; [reflexivity|].
  destruct (process_bundles (useCSSLayers p) (Js.own_entries btr) Js.empty)
    as [e|processed] eqn:Ep; simpl in Hout; [discriminate|].
  injection Hout as <-.
  pose proof (bundleToRules_keys _ _ _ Eb) as Hk.
  destruct (process_bundles_get _ _ _ _ b (own_entries_keys_NoDup _ Hk) Ep)
    as [H1 H2].
  destruct (Js.get b btr) as [R|] eqn:Eg.
  - apply H1. apply (Permutation_in _ (Permutation_sym (own_entries_perm btr))).
    now apply get_In.
  - rewrite H2; [reflexivity|]. intros Hin.
    apply get_None_notin in Eg. apply Eg.
    apply (Permutation_in _ (Permutation_map fst (own_entries_perm btr))).
    exact Hin.
Qed.

Lemma in_bundle_spec (ftb : Js.obj (list string)) (file bundle : string) :
  in_bundle ftb file bundle = true <->
  exists bundles, Js.get file ftb = Some bundles /\ In bundle bundles.
Proof.
  unfold in_bundle. destruct (Js.get file ftb) as [bs|]; split.
  - intros H. exists bs. split; [reflexivity|now apply array_includes_In].
  - intros [bs' [Heq Hin]]. injection Heq as <-. now apply array_includes_In.
  - discriminate.
  - intros [bs' [Heq _]]. discriminate.
Qed.

Lemma contributors_In (sr : Js.obj (list Rule)) (ftb : Js.obj (list string))
  (bundle file : string) (rules : list Rule) :
  In (file, rules) (contributors sr ftb bundle) <->
  In (file, rules) sr /\ in_bundle ftb file bundle = true.
Proof.
  unfold contributors. rewrite filter_In. simpl. split; intros [Hin Hb]; split; auto.
  - exact (Permutation_in _ (own_entries_perm sr) Hin).
  - exact (Permutation_in _ (Permutation_sym (own_entries_perm sr)) Hin).
Qed.

(** C1: with the map the tracker left behind, the rules recorded for a file
    are part of what a bundle accumulates if and only if the file's bundle set
    contains that bundle; the accumulated list of a bundle is the
    concatenation of the rules of exactly those files, the output holds the
    processed list for the bundles that have such a file and nothing for the
    others, and a recorded file without an entry in the map is a contributor
    of no bundle. *)
Theorem aggregator_joins_on_membership
  (c : Compilation) (chunks : list Chunk) (p : Plugin) (out : Js.obj string) :
  fileToBundlesMap p = Some (track_chunks c chunks) ->
  getBundleToStylexRules p = inr (Some out) ->
  forall file bundle,
    let ftb := track_chunks c chunks in
    let cs := contributors (stylexRules p) ftb bundle in
    (forall rules,
       In (file, rules) cs <->
       In (file, rules) (stylexRules p) /\
       exists bundles, Js.get file ftb = Some bundles /\ In bundle bundles) /\
    (exists acc,
       bundleToRules (stylexRules p) ftb = inr acc /\
       Js.get bundle acc = appended None cs) /\
    match cs with
    | [] => Js.get bundle out = None
    | _ => exists css,
             processStylexRules (flat_map snd cs) (useCSSLayers p) = inr css /\
             Js.get bundle out = Some css
    end /\
    (Js.get file ftb = None ->
     forall b, ~ In file (List.map fst (contributors (stylexRules p) ftb b))).
Proof.
  intros Hftb Hout file bundle ftb cs.
  assert (Hnd : lists_NoDup ftb) by apply track_chunks_NoDup.
  split; [|split; [|split]].
  - intros rules. unfold cs. rewrite contributors_In, in_bundle_spec. reflexivity.
  - destruct (getBundleToStylexRules_get p ftb out bundle Hftb Hout)
      as [acc [Hacc _]].
    exists acc. split; [exact Hacc|]. now apply bundleToRules_get.
  - destruct (getBundleToStylexRules_get p ftb out bundle Hftb Hout)
      as [acc [Hacc H]].
    rewrite (bundleToRules_get _ _ _ _ Hnd Hacc) in H. fold cs in H.
    destruct cs as [|e cs']; simpl in *; exact H.
  - intros Hnone b Hin. apply in_map_iff in Hin.
    destruct Hin as [[f R] [Hf Hin]]. simpl in Hf. subst f.
    apply contributors_In in Hin. destruct Hin as [_ Hb].
    unfold in_bundle in Hb. fold ftb in Hnone. rewrite Hnone in Hb. discriminate.
Qed.

(** C6: when [f1] was recorded before [f2], both are file paths (no array
    index), both are members of the bundle and no other recorded file is:
    whenever the loop of lines 113-124 completes, so that lists are handed to
    [processStylexRules], the list accumulated for the bundle is [R1 ++ R2];
    the loop does complete when no recorded file is a member of a bundle
    named like a property of [Object.prototype]; and the output of the
    aggregator holds for the bundle what [processStylexRules] returned for
    [R1 ++ R2]. *)
Theorem two_files_concatenate_in_order
  (c : Compilation) (chunks : list Chunk) (p : Plugin) (bundle : string)
  (f1 f2 : string) (R1 R2 : list Rule) (l1 l2 l3 : Js.obj (list Rule)) :
  let ftb := track_chunks c chunks in
  fileToBundlesMap p = Some ftb ->
  stylexRules p = (l1 ++ (f1, R1) :: l2 ++ (f2, R2) :: l3)%list ->
  Js.is_index f1 = false ->
  Js.is_index f2 = false ->
  in_bundle ftb f1 bundle = true ->
  in_bundle ftb f2 bundle = true ->
  (forall e, In e (l1 ++ l2 ++ l3)%list -> in_bundle ftb (fst e) bundle = false) ->
  (forall acc,
     bundleToRules (stylexRules p) ftb = inr acc ->
     Js.get bundle acc = Some (R1 ++ R2)%list) /\
  ((forall f R b, In (f, R) (stylexRules p) -> in_bundle ftb f b = true ->
      Js.inherited b = false) ->
   exists acc,
     bundleToRules (stylexRules p) ftb = inr acc /\
     Js.get bundle acc = Some (R1 ++ R2)%list) /\
  (forall out,
     getBundleToStylexRules p = inr (Some out) ->
     exists css,
       processStylexRules (R1 ++ R2)%list (useCSSLayers p) = inr css /\
       Js.get bundle out = Some css).
Proof.
  intros ftb Hftb Hsr Hi1 Hi2 Hb1 Hb2 Hothers.
  assert (Hnd : lists_NoDup ftb) by apply track_chunks_NoDup.
  assert (Hnil : forall l, (forall e, In e l -> In e (l1 ++ l2 ++ l3)%list) ->
            filter (fun e : string * list Rule => in_bundle ftb (fst e) bundle) l = []).
  { intros l Hl. apply filter_nil. intros e He. apply Hothers, Hl, He. }
  assert (Hcs : contributors (stylexRules p) ftb bundle = [(f1, R1); (f2, R2)]).
  { unfold contributors. rewrite filter_own_entries.
    - rewrite Hsr. rewrite filter_app. simpl. rewrite Hb1.
      rewrite filter_app. simpl. rewrite Hb2.
      rewrite (Hnil l1), (Hnil l2), (Hnil l3); [reflexivity| | |];
        intros e He; rewrite !in_app_iff; auto.
    - intros e Hin Hsel. rewrite Hsr in Hin.
      rewrite in_app_iff in Hin. simpl in Hin. rewrite in_app_iff in Hin. simpl in Hin.
      destruct Hin as [H|[H|[H|[H|H]]]];
        try (subst e; assumption);
        rewrite Hothers in Hsel; try discriminate;
        rewrite !in_app_iff; auto. }
  assert (Hget : forall acc, bundleToRules (stylexRules p) ftb = inr acc ->
                   Js.get bundle acc = Some (R1 ++ R2)%list).
  { intros acc Hacc. rewrite (bundleToRules_get _ _ _ _ Hnd Hacc), Hcs. simpl.
    now rewrite app_nil_r. }
  split; [exact Hget|]. split.
  - intros Hnames.
    destruct (bundleToRules_cases (stylexRules p) ftb)
      as [[acc [Hacc _]]|[_ [f [R [b [Hin [Hm Hb]]]]]]].
    + exists acc. split; [exact Hacc|now apply Hget].
    + rewrite (Hnames f R b Hin Hm) in Hb. discriminate.
  - intros out Hout.
    destruct (getBundleToStylexRules_get p ftb out bundle Hftb Hout)
      as [acc [Hacc H]].
    now rewrite (Hget acc Hacc) in H.
Qed.

(* ------------------------------------------------------------------ *)
(** ** The transformation step *)

Lemma prefix_app (n h : string) :
  String.prefix n h = true <-> exists post, h = n ++ post.
Proof.
  revert h. induction n as [|a n IH]; intros h; simpl.
  - split; [intros _; now exists h|intros _; destruct h; reflexivity].
  - destruct h as [|b h]; simpl.
    + split; [discriminate|intros [post H]; discriminate].
    + destruct (Ascii.ascii_dec a b) as [->|Hne].
      * rewrite IH. split; intros [post H]; exists post; congruence.
      * split; [discriminate|intros [post H]; congruence].
Qed.

Lemma includes_spec (needle hay : string) :
  Js.includes needle hay = true <-> substring_of needle hay.
Proof.
  unfold substring_of. induction hay as [|a hay IH].
  - cbn [Js.includes]. rewrite orb_false_r, prefix_app. split.
    + intros [post H]. exists "", post. exact H.
    + intros [pre [post H]]. destruct pre; simpl in H; [now exists post|discriminate].
  - cbn [Js.includes]. rewrite orb_true_iff, prefix_app, IH. split.
    + intros [[post H]|[pre [post H]]].
      * exists "", post. exact H.
      * exists (String a pre), post. simpl. now rewrite H.
    + intros [pre [post H]]. destruct pre as [|b pre]; simpl in H.
      * left. now exists post.
      * right. exists pre, post. congruence.
Qed.

(** the only assignment of the step is [this.stylexRules[filename] = ..] with
    a non-empty rule list *)
Lemma transformCode_effect (inputCode filename : string) (st : Loading) :
  let st' := snd (transformCode inputCode filename st) in
  st' = st \/
  exists rules, rules <> [] /\
    plugin st' = set_stylexRules (plugin st)
                   (Js.set filename rules (stylexRules (plugin st))).
Proof.
  unfold transformCode, bind, read, lift, ret. simpl.
  destruct (existsb _ _); simpl; [|now left].
  destruct (if babelrc (babelConfig (plugin st)) then readFile filename
            else inr inputCode) as [e|src]; simpl; [now left|].
  destruct (transformAsync src _) as [e|result]; simpl; [now left|].
  destruct (br_stylex result) as [rules|]; simpl.
  - destruct rules as [|r rules]; simpl.
    + destruct (negb _); simpl; now left.
    + right. exists (r :: rules). split; [discriminate|].
      destruct (negb _); reflexivity.
  - destruct (negb _); simpl; now left.
Qed.

(** one call either changes nothing, or returns normally after one write to
    the map and one debug message *)
Lemma transformCode_outcome (inputCode filename : string) (st : Loading) :
  snd (transformCode inputCode filename st) = st \/
  exists rules r,
    rules <> [] /\
    transformCode inputCode filename st
    = (inr r,
       {| plugin := set_stylexRules (plugin st)
                      (Js.set filename rules (stylexRules (plugin st)));
          debugLog := (debugLog st
                       ++ [(("Read stylex styles from " ++ filename ++ ":")%string, rules)])%list |}).
Proof.
  unfold transformCode, bind, read, lift, ret. simpl.
  destruct (existsb _ _); simpl; [|now left].
  destruct (if babelrc (babelConfig (plugin st)) then readFile filename
            else inr inputCode) as [e|src]; simpl; [now left|].
  destruct (transformAsync src _) as [e|result]; simpl; [now left|].
  destruct (br_stylex result) as [rules|]; simpl.
  - destruct rules as [|r rules]; simpl.
    + destruct (negb _); simpl; now left.
    + right. exists (r :: rules).
      destruct (negb _); simpl; eexists; (split; [discriminate|reflexivity]).
  - destruct (negb _); simpl; now left.
Qed.

Lemma transformCode_frame (inputCode filename f : string) (st : Loading) :
  f <> filename ->
  Js.get f (stylexRules (plugin (snd (transformCode inputCode filename st)))) =
  Js.get f (stylexRules (plugin st)).
Proof.
  intros Hne. destruct (transformCode_effect inputCode filename st) as [->|[R [_ ->]]].
  - reflexivity.
  - simpl. now apply get_set_other.
Qed.

Lemma transformCode_no_import (inputCode filename : string) (st : Loading) :
  (forall importName, In importName (stylexImports (plugin st)) ->
                      ~ substring_of importName inputCode) ->
  transformCode inputCode filename st
    = (inr {| code := inputCode; map := None |}, st).
Proof.
  intros Hno.
  assert (E : existsb (fun importName => Js.includes importName inputCode)
                (stylexImports (plugin st)) = false).
  { destruct (existsb _ _) eqn:Ex; [|reflexivity].
    apply existsb_exists in Ex. destruct Ex as [i [Hin Hi]].
    apply includes_spec in Hi. now destruct (Hno i Hin). }
  unfold transformCode, bind, read, ret. simpl. now rewrite E.
Qed.

(** C2: when no configured import name occurs in the input text, the step
    returns the text as it is, without a source map, and changes nothing: the
    plugin and its file-to-rules map are as before, so a path that had no
    entry has none afterwards. *)
Theorem transformCode_short_circuit (inputCode filename : string) (st : Loading) :
  (forall importName, In importName (stylexImports (plugin st)) ->
                      ~ substring_of importName inputCode) ->
  transformCode inputCode filename st
    = (inr {| code := inputCode; map := None |}, st) /\
  stylexRules (plugin (snd (transformCode inputCode filename st)))
    = stylexRules (plugin st) /\
  (Js.get filename (stylexRules (plugin st)) = None ->
   Js.get filename
     (stylexRules (plugin (snd (transformCode inputCode filename st)))) = None).
Proof.
  intros Hno. rewrite (transformCode_no_import inputCode filename st Hno).
  simpl. split; [reflexivity|]. split; [reflexivity|]. intros H; exact H.
Qed.

(* ------------------------------------------------------------------ *)
(** ** The lifetime of the file-to-rules map *)

Lemma step_frame (file : string) (st : Loading) (ev : Event) :
  transforms file ev = false ->
  Js.get file (stylexRules (plugin (step st ev))) =
  Js.get file (stylexRules (plugin st)).
Proof.
  destruct ev as [|inputCode filename|modules|c chunks|c]; simpl; intros H;
    try reflexivity.
  apply transformCode_frame. intros ->. now rewrite String.eqb_refl in H.
Qed.

Lemma run_frame (file : string) (evs : list Event) (st : Loading) :
  (forall ev, In ev evs -> transforms file ev = false) ->
  Js.get file (stylexRules (plugin (run st evs))) =
  Js.get file (stylexRules (plugin st)).
Proof.
  unfold run. revert st. induction evs as [|ev evs IH]; intros st H; simpl;
    [reflexivity|].
  rewrite IH by (intros; apply H; now right).
  apply step_frame, H. now left.
Qed.

(** the keys of the map stay distinct *)
Lemma step_keys_NoDup (st : Loading) (ev : Event) :
  NoDup (List.map fst (stylexRules (plugin st))) ->
  NoDup (List.map fst (stylexRules (plugin (step st ev)))).
Proof.
  destruct ev as [|inputCode filename|modules|c chunks|c]; simpl; intros H;
    try exact H.
  destruct (transformCode_effect inputCode filename st) as [->|[R [_ ->]]];
    [exact H|]. simpl. now apply set_keys_NoDup.
Qed.

Lemma step_stylexImports (st : Loading) (ev : Event) :
  stylexImports (plugin (step st ev)) = stylexImports (plugin st).
Proof.
  destruct ev as [|inputCode filename|modules|c chunks|c]; try reflexivity.
  simpl. destruct (transformCode_effect inputCode filename st) as [->|[R [_ ->]]];
    reflexivity.
Qed.

(** a file whose text never holds an import name never gets an entry *)
Lemma never_styled_never_recorded (evs : list Event) (st : Loading) (file : string) :
  Js.get file (stylexRules (plugin st)) = None ->
  (forall inputCode importName,
     In (TransformCode inputCode file) evs ->
     In importName (stylexImports (plugin st)) ->
     ~ substring_of importName inputCode) ->
  Js.get file (stylexRules (plugin (run st evs))) = None.
Proof.
  unfold run. revert st. induction evs as [|ev evs IH]; intros st Hnone Htexts;
    [exact Hnone|].
  simpl. apply IH.
  - destruct (transforms file ev) eqn:Et.
    + destruct ev as [|inputCode filename|modules|c chunks|c]; try discriminate.
      simpl in Et. apply String.eqb_eq in Et. subst filename. simpl.
      rewrite transformCode_no_import; [exact Hnone|].
      intros importName Hin. apply (Htexts inputCode importName); [now left|exact Hin].
    + now rewrite step_frame.
  - intros inputCode importName Hin Himp. rewrite step_stylexImports in Himp.
    apply (Htexts inputCode importName); [now right|exact Himp].
Qed.

(** an entry is as before the step, unless the step is a transformation of
    the same path that records rules *)
Lemma step_keeps_or_records (st : Loading) (ev : Event) (file : string)
  (rules : list Rule) :
  Js.get file (stylexRules (plugin st)) = Some rules ->
  Js.get file (stylexRules (plugin (step st ev))) = Some rules \/
  exists rules', records_rules file rules' st ev /\
    Js.get file (stylexRules (plugin (step st ev))) = Some rules'.
Proof.
  intros Hget. destruct (transforms file ev) eqn:Et.
  - destruct ev as [|inputCode filename|modules|c chunks|c]; try discriminate.
    simpl in Et. apply String.eqb_eq in Et. subst filename. simpl.
    destruct (transformCode_outcome inputCode file st)
      as [Hs|[rules' [r [Hne Heq]]]].
    + left. now rewrite Hs.
    + right. exists rules'. split.
      * exists inputCode. split; [reflexivity|]. split; [exact Hne|].
        simpl. now rewrite Heq.
      * rewrite Heq. simpl. apply get_set_same.
  - left. now rewrite step_frame.
Qed.

Lemma run_keeps_unless_recorded (evs : list Event) (st : Loading) (file : string)
  (rules : list Rule) :
  Js.get file (stylexRules (plugin st)) = Some rules ->
  never_records file st evs ->
  Js.get file (stylexRules (plugin (run st evs))) = Some rules.
Proof.
  unfold run. revert st. induction evs as [|ev evs IH]; intros st Hget Hnever;
    simpl; [exact Hget|].
  destruct Hnever as [Hev Hrest]. apply IH; [|exact Hrest].
  destruct (step_keeps_or_records st ev file rules Hget) as [H|[rules' [Hrec _]]];
    [exact H|].
  now destruct (Hev rules').
Qed.

(** C4, as the code has it: the map is empty in a new plugin instance, only
    a transformation step changes it, and the start of a compilation ([make])
    resets nothing: an entry stays as recorded through any events that do not
    transform the same path again, and, more generally, until a later
    transformation of the same path records rules: a step leaves the entry
    as it is or is such a transformation, and then the entry holds the rules
    it recorded. *)
Theorem stylexRules_only_transform_never_reset :
  (forall o, stylexRules (new_StylexPlugin o) = Js.empty) /\
  (forall st ev,
     (forall inputCode filename, ev <> TransformCode inputCode filename) ->
     stylexRules (plugin (step st ev)) = stylexRules (plugin st)) /\
  (forall st, stylexRules (plugin (step st Make)) = stylexRules (plugin st)) /\
  (forall st evs file rules,
     Js.get file (stylexRules (plugin st)) = Some rules ->
     (forall ev, In ev evs -> transforms file ev = false) ->
     Js.get file (stylexRules (plugin (run st evs))) = Some rules) /\
  (forall st ev file rules,
     Js.get file (stylexRules (plugin st)) = Some rules ->
     Js.get file (stylexRules (plugin (step st ev))) = Some rules \/
     exists rules', records_rules file rules' st ev /\
       Js.get file (stylexRules (plugin (step st ev))) = Some rules') /\
  (forall st evs file rules,
     Js.get file (stylexRules (plugin st)) = Some rules ->
     never_records file st evs ->
     Js.get file (stylexRules (plugin (run st evs))) = Some rules).
Proof.
  split; [reflexivity|]. split; [|split; [reflexivity|split; [|split]]].
  - intros st ev Hnt.
    destruct ev as [|inputCode filename|modules|c chunks|c]; try reflexivity.
    now destruct (Hnt inputCode filename).
  - intros st evs file rules Hget Hevs. now rewrite run_frame.
  - intros st ev file rules. apply step_keeps_or_records.
  - intros st evs file rules. apply run_keeps_unless_recorded.
Qed.

(* ------------------------------------------------------------------ *)
(** ** Content hash and asset emission *)

Lemma emit_bundle_unfold (b : string * string) (c : Compilation) :
  emit_bundle b c =
  match asset_path c (fst b) (snd b) with
  | inl e => (inl e, c)
  | inr (file, info) =>
      match emitAsset_rejects c file (mkRawSource (snd b)) info with
      | Some e => (inl e, c)
      | None => (inr tt, with_asset c file (mkRawSource (snd b)) info)
      end
  end.
Proof.
  unfold emit_bundle, asset_path, emitAsset, bind, read, lift, rbind, throw, put.
  simpl. destruct (getContentHash c (snd b)) as [e|h]; [reflexivity|].
  destruct (getPathWithInfo _ _) as [e|[file info]]; [reflexivity|]. simpl.
  destruct (emitAsset_rejects _ _ _ _); reflexivity.
Qed.

Lemma emission_failure_throws (c : Compilation) (b : string * string) (e : Thrown) :
  emission_failure c b e <-> emit_bundle b c = (inl e, c).
Proof.
  rewrite emit_bundle_unfold. unfold emission_failure, asset_path, rbind.
  destruct (getContentHash c (snd b)) as [e0|h].
  - split.
    + intros [H|[[h [H _]]|[h [f [i [H _]]]]]]; congruence.
    + intros H. left. congruence.
  - destruct (getPathWithInfo _ _) as [e0|[file info]] eqn:Ep.
    + split.
      * intros [H|[[h' [Hh H]]|[h' [f [i [Hh [H _]]]]]]];
          try discriminate; injection Hh as <-; congruence.
      * intros H. right; left. exists h. split; [reflexivity|]. congruence.
    + destruct (emitAsset_rejects c file _ info) as [e0|] eqn:Er.
      * split.
        -- intros [H|[[h' [Hh H]]|[h' [f [i [Hh [H Hr]]]]]]];
             try discriminate; injection Hh as <-; try congruence.
        -- intros H. right; right. exists h, file, info.
           repeat split; congruence.
      * split; [|discriminate].
        intros [H|[[h' [Hh H]]|[h' [f [i [Hh [H Hr]]]]]]];
          try discriminate; injection Hh as <-; congruence.
Qed.

Lemma for_of_app {St X} (xs ys : list X) (body : X -> M St unit) (st : St) :
  for_of (xs ++ ys) body st =
  match for_of xs body st with
  | (inr _, st') => for_of ys body st'
  | (inl e, st') => (inl e, st')
  end.
Proof.
  revert st. induction xs as [|x xs IH]; intros st; simpl; [reflexivity|].
  unfold bind. destruct (body x st) as [[e|[]] st']; [reflexivity|apply IH].
Qed.

Lemma emit_bundle_errors (b : string * string) (c c' : Compilation) (r : Res unit) :
  emit_bundle b c = (r, c') -> errors c' = errors c.
Proof.
  rewrite emit_bundle_unfold.
  destruct (asset_path _ _ _) as [e|[file info]].
  - intros H. injection H as _ <-. reflexivity.
  - destruct (emitAsset_rejects _ _ _ _); intros H; injection H as _ <-; reflexivity.
Qed.

Lemma for_of_emit_errors (bs : list (string * string)) (c c' : Compilation)
  (r : Res unit) :
  for_of bs emit_bundle c = (r, c') -> errors c' = errors c.
Proof.
  revert c. induction bs as [|b bs IH]; intros c; simpl.
  - unfold ret. intros H. injection H as _ <-. reflexivity.
  - unfold bind. destruct (emit_bundle b c) as [[e|[]] c1] eqn:E.
    + intros H. injection H as _ <-. eapply emit_bundle_errors; eauto.
    + intros H. rewrite (IH _ H). eapply emit_bundle_errors; eauto.
Qed.

Lemma processAssets_any_filename (p : Plugin) (template : option string)
  (c : Compilation) :
  processAssets (with_filename p template) c = processAssets p c.
Proof. reflexivity. Qed.

(** C5, as the code has it: the asset of a bundle is registered under the
    path that [getPathWithInfo] returns for the template [bundle.stylex.css]
    itself, with the computed content hash and a pseudo-chunk whose id is
    that string, whose name is [path.parse] of it and whose hash is the
    content hash; the filename template configured on the plugin is not
    read. *)
Theorem emitted_path_from_bundle_name
  (p : Plugin) (template : option string) (c : Compilation)
  (bundle css contentHash file : string) (info : AssetInfo) :
  getContentHash c css = inr contentHash ->
  getPathWithInfo (bundle ++ ".stylex.css")
    {| pd_filename := bundle ++ ".stylex.css";
       pd_contentHash := contentHash;
       pd_chunk := {| pc_id := bundle ++ ".stylex.css";
                      pc_name := path_parse_name (bundle ++ ".stylex.css");
                      pc_hash := contentHash |} |} = inr (file, info) ->
  emitAsset_rejects c file (mkRawSource css) info = None ->
  emit_bundle (bundle, css) c
    = (inr tt, with_asset c file (mkRawSource css) info) /\
  Js.get file (assets (snd (emit_bundle (bundle, css) c)))
    = Some (mkRawSource css, info) /\
  processAssets (with_filename p template) c = processAssets p c.
Proof.
  intros Hh Hp Hr.
  assert (E : emit_bundle (bundle, css) c
              = (inr tt, with_asset c file (mkRawSource css) info)).
  { rewrite emit_bundle_unfold. unfold asset_path, rbind. simpl.
    rewrite Hh. unfold path_data. rewrite Hp, Hr. reflexivity. }
  split; [exact E|]. split; [|apply processAssets_any_filename].
  rewrite E. simpl. apply get_set_same.
Qed.

Lemma processAssets_aggregator_throws (p : Plugin) (c : Compilation) (e : Thrown) :
  getBundleToStylexRules p = inl e -> processAssets p c = push_error e c.
Proof.
  intros H. unfold processAssets, emit_all, bind, lift. now rewrite H.
Qed.

(** C8: when the bundles [done] have been emitted and the iteration of the
    next bundle throws, in the hash computation, in the path resolution or in
    the registration of the asset, the handler returns normally: the thrown
    value is the one new entry of [compilation.errors], the assets are those
    present after [done], and the remaining bundles are not visited.  An
    exception of the aggregator, inside the same [try], is recorded the same
    way. *)
Theorem processAssets_catches_exception
  (p : Plugin) (c c1 : Compilation) (out : Js.obj string)
  (done rest : list (string * string)) (b : string * string) (e : Thrown) :
  getBundleToStylexRules p = inr (Some out) ->
  Js.own_entries out = (done ++ b :: rest)%list ->
  for_of done emit_bundle c = (inr tt, c1) ->
  emission_failure c1 b e ->
  processAssets p c = push_error e c1 /\
  assets (processAssets p c) = assets c1 /\
  errors (processAssets p c) = (errors c ++ [e])%list /\
  (forall p' e', getBundleToStylexRules p' = inl e' ->
                 processAssets p' c = push_error e' c).
Proof.
  intros Hout Hsplit Hdone Hfail.
  apply emission_failure_throws in Hfail.
  assert (E : processAssets p c = push_error e c1).
  { unfold processAssets, emit_all, bind, lift. rewrite Hout, Hsplit.
    rewrite for_of_app, Hdone. simpl. unfold bind. now rewrite Hfail. }
  split; [exact E|]. rewrite E. simpl.
  split; [reflexivity|]. split.
  - now rewrite (for_of_emit_errors _ _ _ _ Hdone).
  - intros p' e'. apply processAssets_aggregator_throws.
Qed.

(** C9: the content hash depends on the payload and on the four hash
    settings of [outputOptions] only; two compilations that agree on them
    compute the same hash, and resolve the same path for the asset of a
    bundle. *)
Theorem getContentHash_deterministic
  (c1 c2 : Compilation) (source bundle : string) :
  hashFunction (outputOptions c1) = hashFunction (outputOptions c2) ->
  hashSalt (outputOptions c1) = hashSalt (outputOptions c2) ->
  hashDigest (outputOptions c1) = hashDigest (outputOptions c2) ->
  hashDigestLength (outputOptions c1) = hashDigestLength (outputOptions c2) ->
  getContentHash c1 source = getContentHash c2 source /\
  asset_path c1 bundle source = asset_path c2 bundle source.
Proof.
  intros Hf Hs Hd Hl.
  assert (E : getContentHash c1 source = getContentHash c2 source).
  { unfold getContentHash. now rewrite Hf, Hs, Hd, Hl. }
  split; [exact E|]. unfold asset_path. now rewrite E.
Qed.

(* ------------------------------------------------------------------ *)
(** ** The loader hook *)

Ltac bool_hyps :=
  repeat match goal with
         | H : (_ && _) = true |- _ => apply andb_true_iff in H; destruct H
         | H : (_ || _) = true |- _ => apply orb_true_iff in H; destruct H
         | H : Ascii.eqb _ _ = true |- _ => apply Ascii.eqb_eq in H; subst
         | H : false = true |- _ => discriminate H
         end.

Lemma x_then_end_true (s : string) :
  x_then_end s = true -> s = "" \/ s = "x".
Proof.
  destruct s as [|c [|c' s]]; simpl; intros H; bool_hyps; auto; discriminate.
Qed.

Lemma jt_s_true (s : string) :
  jt_s s = true -> In s ["js"; "jsx"; "ts"; "tsx"].
Proof.
  destruct s as [|c [|c' s]]; simpl; intros H; try discriminate.
  bool_hyps;
    match goal with H : x_then_end _ = true |- _ =>
      destruct (x_then_end_true _ H); subst end; simpl; auto.
Qed.

Lemma ext_pattern_here_spec (s : string) :
  ext_pattern_here s = true <-> In s matched_extensions.
Proof.
  split.
  - destruct s as [|c rest]; simpl; intros H; [discriminate|].
    bool_hyps.
    + destruct rest as [|c' rest']; [discriminate|]. bool_hyps;
        match goal with H : jt_s _ = true |- _ =>
          apply jt_s_true in H; simpl in H;
          decompose [or] H; subst; simpl; auto 20; contradiction end.
    + match goal with H : jt_s _ = true |- _ =>
        apply jt_s_true in H; simpl in H;
        decompose [or] H; subst; simpl; auto 20; contradiction end.
  - unfold matched_extensions. simpl. intros H.
    decompose [or] H; subst; try reflexivity; contradiction.
Qed.

(** the pattern accepts exactly the texts that end with one of the twelve
    extensions *)
Lemma ext_pattern_test_spec (s : string) :
  ext_pattern_test s = true <-> ends_with_matched s.
Proof.
  unfold ends_with_matched. induction s as [|a s IH].
  - split.
    + simpl. discriminate.
    + intros [pre [e [Hin Heq]]]. destruct pre; [|discriminate].
      simpl in Heq. subst e. apply ext_pattern_here_spec in Hin. discriminate.
  - cbn [ext_pattern_test]. rewrite orb_true_iff, ext_pattern_here_spec, IH. split.
    + intros [Hin|[pre [e [Hin Heq]]]].
      * exists "", (String a s). auto.
      * exists (String a pre), e. split; [exact Hin|]. simpl. now rewrite Heq.
    + intros [pre [e [Hin Heq]]]. destruct pre as [|b pre]; simpl in Heq.
      * left. now subst e.
      * right. exists pre, e. split; [exact Hin|]. congruence.
Qed.

(** X1: the pattern of the loader hook accepts a text exactly when it ends
    with [.js], [.jsx], [.ts], [.tsx] or one of these behind an [m] or a [c]:
    [.mjsx], [.cjsx], [.mtsx] and [.ctsx] are accepted too. *)
Theorem ext_pattern_accepts_twelve :
  (forall s, ext_pattern_test s = true <-> ends_with_matched s) /\
  (forall e, In e matched_extensions -> ext_pattern_test e = true) /\
  ext_pattern_test ".mjsx" = true /\
  ext_pattern_test ".json" = false /\
  ext_pattern_test ".css" = false /\
  ext_pattern_test "" = false.
Proof.
  split; [exact ext_pattern_test_spec|]. split; [|repeat split; reflexivity].
  intros e Hin. apply ext_pattern_test_spec. exists "", e. auto.
Qed.

(** X2: for a module whose resource is a string, the hook puts the plugin's
    loader in front of the module's loaders when the extension of the resource
    ends with an accepted extension, and leaves the module as it is
    otherwise; the loaders already there keep their order. *)
Theorem loader_hook_prepends (module : NormalModule) (r : string) :
  resource (nm_module module) = Some r ->
  exists module',
    loader_hook module = inr module' /\
    nm_module module' = nm_module module /\
    (ends_with_matched (path_extname r) ->
     loaders module' = stylex_entry :: loaders module) /\
    (~ ends_with_matched (path_extname r) -> module' = module).
Proof.
  intros Hr. unfold loader_hook. rewrite Hr.
  destruct (ext_pattern_test (path_extname r)) eqn:E.
  - eexists. split; [reflexivity|]. split; [reflexivity|]. split; [reflexivity|].
    intros Hn. apply ext_pattern_test_spec in E. contradiction.
  - exists module. split; [reflexivity|]. split; [reflexivity|]. split; [|reflexivity].
    intros Hm. apply ext_pattern_test_spec in Hm. congruence.
Qed.

(* ------------------------------------------------------------------ *)
(** ** More on the transformation step *)

Lemma transformCode_throws_unchanged (inputCode filename : string) (st : Loading)
  (e : Thrown) :
  fst (transformCode inputCode filename st) = inl e ->
  snd (transformCode inputCode filename st) = st.
Proof.
  intros H. destruct (transformCode_outcome inputCode filename st)
    as [Hs|[rules [r [_ Heq]]]]; [exact Hs|].
  rewrite Heq in H. discriminate.
Qed.

Lemma set_stylexRules_same (p : Plugin) : set_stylexRules p (stylexRules p) = p.
Proof. destruct p; reflexivity. Qed.

(** X3: a call of the step changes the plugin in its file-to-rules map only,
    and there in one of two ways: nothing is written and nothing is logged, or
    the entry of the file at hand is set to a non-empty rule list and exactly
    one debug message with the file name and these rules is logged. *)
Theorem transformCode_writes_own_entry (inputCode filename : string) (st : Loading) :
  let st' := snd (transformCode inputCode filename st) in
  plugin st' = set_stylexRules (plugin st) (stylexRules (plugin st')) /\
  ((stylexRules (plugin st') = stylexRules (plugin st) /\
    debugLog st' = debugLog st) \/
   exists rules,
     rules <> [] /\
     stylexRules (plugin st') = Js.set filename rules (stylexRules (plugin st)) /\
     debugLog st'
     = (debugLog st ++ [(("Read stylex styles from " ++ filename ++ ":")%string, rules)])%list).
Proof.
  intros st'. unfold st'.
  destruct (transformCode_outcome inputCode filename st)
    as [Hs|[rules [r [Hne Heq]]]].
  - rewrite Hs. split; [now rewrite set_stylexRules_same|]. left. auto.
  - rewrite Heq. simpl. split; [reflexivity|]. right. exists rules. auto.
Qed.

(** X4: when the step throws, in reading the file or in the compiler, the
    plugin and the debug log are as before the call. *)
Theorem transformCode_failure_changes_nothing
  (inputCode filename : string) (st : Loading) (e : Thrown) :
  fst (transformCode inputCode filename st) = inl e ->
  transformCode inputCode filename st = (inl e, st).
Proof.
  intros H. pose proof (transformCode_throws_unchanged _ _ _ _ H) as Hs.
  destruct (transformCode inputCode filename st) as [r st'].
  simpl in *. now subst.
Qed.

(** X5: with [babelrc] set, the step never rewrites the text: whenever it
    returns, it returns the input text and no source map, also for a file
    that uses the styling API. *)
Theorem transformCode_babelrc_returns_input
  (inputCode filename : string) (st st' : Loading) (r : Transformed) :
  babelrc (babelConfig (plugin st)) = true ->
  transformCode inputCode filename st = (inr r, st') ->
  r = {| code := inputCode; map := None |}.
Proof.
  intros Hb. unfold transformCode, bind, read, lift, ret. simpl. rewrite Hb. simpl.
  destruct (existsb _ _); simpl; [|intros H; now injection H as <- _].
  destruct (readFile filename) as [e|src]; simpl; [discriminate|].
  destruct (transformAsync src _) as [e|result]; simpl; [discriminate|].
  destruct (br_stylex result) as [[|x rules]|]; simpl;
    intros H; now injection H as <- _.
Qed.

(* ------------------------------------------------------------------ *)
(** ** What a plugin instance keeps over its lifetime *)

Lemma same_config_refl (p : Plugin) : same_config p p.
Proof. repeat split. Qed.

Lemma same_config_trans (p1 p2 p3 : Plugin) :
  same_config p1 p2 -> same_config p2 p3 -> same_config p1 p3.
Proof.
  unfold same_config. intros [A1 [A2 [A3 [A4 [A5 A6]]]]] [B1 [B2 [B3 [B4 [B5 B6]]]]].
  repeat split; congruence.
Qed.

Lemma step_same_config (st : Loading) (ev : Event) :
  same_config (plugin st) (plugin (step st ev)).
Proof.
  destruct ev as [|inputCode filename|modules|c chunks|c]; simpl;
    try (repeat split; fail).
  destruct (transformCode_effect inputCode filename st) as [->|[R [_ ->]]];
    repeat split.
Qed.

Lemma run_same_config (evs : list Event) (st : Loading) :
  same_config (plugin st) (plugin (run st evs)).
Proof.
  unfold run. revert st. induction evs as [|ev evs IH]; intros st; simpl.
  - apply same_config_refl.
  - eapply same_config_trans; [apply step_same_config|apply IH].
Qed.


Lemma step_keeps_keys (st : Loading) (ev : Event) (file : string) (rules : list Rule) :
  Js.get file (stylexRules (plugin st)) = Some rules ->
  exists rules', Js.get file (stylexRules (plugin (step st ev))) = Some rules'.
Proof.
  intros H. destruct ev as [|inputCode filename|modules|c chunks|c]; simpl;
    try (exists rules; exact H).
  destruct (transformCode_effect inputCode filename st) as [->|[R [_ ->]]];
    [exists rules; exact H|].
  simpl. rewrite get_set. destruct (String.eqb file filename); eauto.
Qed.

(** X7: an entry of the file-to-rules map is never removed: whatever events
    follow, also new compilations and transformations that find no rules, a
    file that has an entry keeps one. *)
Theorem stylexRules_never_lose_a_file
  (evs : list Event) (st : Loading) (file : string) (rules : list Rule) :
  Js.get file (stylexRules (plugin st)) = Some rules ->
  exists rules', Js.get file (stylexRules (plugin (run st evs))) = Some rules'.
Proof.
  unfold run. revert st rules. induction evs as [|ev evs IH]; intros st rules H;
    simpl; [eauto|].
  destruct (step_keeps_keys st ev file rules H) as [rules1 H1].
  exact (IH _ _ H1).
Qed.

Lemma step_rules_nonempty (st : Loading) (ev : Event) :
  (forall f R, Js.get f (stylexRules (plugin st)) = Some R -> R <> []) ->
  forall f R, Js.get f (stylexRules (plugin (step st ev))) = Some R -> R <> [].
Proof.
  intros Hinv f R. destruct ev as [|inputCode filename|modules|c chunks|c]; simpl;
    try apply Hinv.
  destruct (transformCode_effect inputCode filename st) as [->|[R' [Hne ->]]];
    [apply Hinv|].
  simpl. rewrite get_set. destruct (String.eqb f filename).
  - intros H. injection H as <-. exact Hne.
  - apply Hinv.
Qed.

Lemma run_rules_nonempty (evs : list Event) (st : Loading) :
  (forall f R, Js.get f (stylexRules (plugin st)) = Some R -> R <> []) ->
  forall f R, Js.get f (stylexRules (plugin (run st evs))) = Some R -> R <> [].
Proof.
  unfold run. revert st. induction evs as [|ev evs IH]; intros st Hinv; simpl;
    [exact Hinv|].
  apply IH. now apply step_rules_nonempty.
Qed.

(** X8: in a plugin instance every recorded rule list is non-empty, after
    any sequence of events since its construction. *)
Theorem recorded_rules_are_nonempty
  (o : PluginOptions) (evs : list Event) (file : string) (rules : list Rule) :
  Js.get file (stylexRules (plugin (run (constructed o) evs))) = Some rules ->
  rules <> [].
Proof.
  apply (run_rules_nonempty evs (constructed o)).
  intros f R H. simpl in H. discriminate.
Qed.

(* ------------------------------------------------------------------ *)
(** ** More on the bundle-membership tracker *)

Lemma add_bundle_members (fp cn : string) (m : Js.obj (list string)) (l : list string) :
  Js.get fp (add_bundle fp cn m) = Some l ->
  l <> [] /\ forall b, In b l -> b = cn \/ In b (default (Js.get fp m) []).
Proof.
  unfold add_bundle. destruct (Js.get fp m) as [cur|] eqn:E; simpl.
  - destruct (Js.array_includes cn cur) eqn:Ei.
    + rewrite E. intros H. injection H as <-. split; [|auto].
      apply array_includes_In in Ei. intros ->. destruct Ei.
    + rewrite get_set_same. intros H. injection H as <-. split.
      * intros Hnil. apply app_eq_nil in Hnil. destruct Hnil; discriminate.
      * intros b Hb. apply in_app_or in Hb. destruct Hb as [Hb|[<-|[]]]; auto.
  - rewrite get_set_same. intros H. injection H as <-. split; [discriminate|].
    intros b [<-|[]]. now left.
Qed.

Lemma track_module_members (R : string -> string -> Prop) (cn : string)
  (m : Js.obj (list string)) (md : Module_) :
  (forall fp, resource md = Some fp -> Js.truthy fp = true ->
              is_node_module fp = false -> R fp cn) ->
  members_sat R m -> members_sat R (track_module cn m md).
Proof.
  intros HR H. unfold track_module.
  destruct (resource md) as [fp|] eqn:Er; [|exact H].
  destruct (Js.truthy fp) eqn:Et; [|exact H].
  destruct (is_node_module fp) eqn:En; simpl; [exact H|].
  intros f l Hf. destruct (String.eqb_spec f fp) as [->|Hne].
  - destruct (add_bundle_members fp cn m l Hf) as [Hnil Hmem].
    split; [exact Hnil|]. intros b Hb. destruct (Hmem b Hb) as [->|Hold].
    + now apply HR.
    + destruct (Js.get fp m) as [cur|] eqn:E; simpl in Hold; [|destruct Hold].
      exact (proj2 (H fp cur E) b Hold).
  - rewrite add_bundle_other in Hf by exact Hne. exact (H f l Hf).
Qed.

Lemma fold_modules_members (R : string -> string -> Prop) (cn : string)
  (mods : list Module_) (m : Js.obj (list string)) :
  (forall md fp, In md mods -> resource md = Some fp -> Js.truthy fp = true ->
                 is_node_module fp = false -> R fp cn) ->
  members_sat R m -> members_sat R (fold_left (track_module cn) mods m).
Proof.
  revert m. induction mods as [|md mods IH]; intros m HR H; simpl; [exact H|].
  apply IH.
  - intros md' fp Hin. apply HR. now right.
  - apply track_module_members; [|exact H]. intros fp. apply HR. now left.
Qed.

Lemma fold_chunks_members (R : string -> string -> Prop) (c : Compilation)
  (chunks : list Chunk) (m : Js.obj (list string)) :
  (forall ch md fp, In ch chunks -> In md (chunkGraph c ch) ->
     resource md = Some fp -> Js.truthy fp = true ->
     is_node_module fp = false -> R fp (chunkName ch)) ->
  members_sat R m -> members_sat R (fold_left (track_chunk c) chunks m).
Proof.
  revert m. induction chunks as [|ch chunks IH]; intros m HR H; simpl; [exact H|].
  apply IH.
  - intros ch' md fp Hin. apply HR. now right.
  - rewrite track_chunk_unguarded. apply fold_modules_members; [|exact H].
    intros md fp. apply HR. now left.
Qed.

Lemma truthy_not_empty (s : string) : Js.truthy s = true -> s <> "".
Proof. destruct s; [discriminate|discriminate]. Qed.

(** what the tracker records is sound *)
Lemma track_chunks_members (c : Compilation) (chunks : list Chunk) :
  members_sat
    (fun f b => f <> "" /\ is_node_module f = false /\
                exists chunk md, In chunk chunks /\ chunkName chunk = b /\
                  In md (chunkGraph c chunk) /\ resource md = Some f)
    (track_chunks c chunks).
Proof.
  apply fold_chunks_members.
  - intros ch md fp Hch Hmd Hr Ht Hn. split; [now apply truthy_not_empty|].
    split; [exact Hn|]. exists ch, md. auto.
  - intros f l H. discriminate.
Qed.

(** X9: the map of the tracker holds nothing else than memberships: a file
    with an entry is a non-empty path outside the dependency directories, its
    bundle list is not empty, and every identifier in it is the identifier of
    a chunk of this invocation that has a module with this resource. *)
Theorem tracked_bundles_come_from_chunks
  (c : Compilation) (chunks : list Chunk) (file : string) (bundles : list string) :
  Js.get file (track_chunks c chunks) = Some bundles ->
  bundles <> [] /\ file <> "" /\ is_node_module file = false /\
  forall b, In b bundles ->
    exists chunk md, In chunk chunks /\ chunkName chunk = b /\
      In md (chunkGraph c chunk) /\ resource md = Some file.
Proof.
  intros H. destruct (track_chunks_members c chunks file bundles H) as [Hnil Hmem].
  split; [exact Hnil|].
  destruct bundles as [|b0 rest]; [now destruct Hnil|].
  destruct (Hmem b0 (or_introl eq_refl)) as [Hf [Hn _]].
  split; [exact Hf|]. split; [exact Hn|].
  intros b Hb. exact (proj2 (proj2 (Hmem b Hb))).
Qed.

(* ------------------------------------------------------------------ *)
(** ** More on the aggregator and the emission *)

Lemma own_entries_length {V} (o : Js.obj V) :
  List.length (Js.own_entries o) = List.length o.
Proof. apply Permutation_length, own_entries_perm. Qed.

Lemma own_keys_empty {V} (o : Js.obj V) :
  Nat.eqb (List.length (Js.own_keys o)) 0 = true <-> o = [].
Proof.
  unfold Js.own_keys. rewrite length_map, own_entries_length, Nat.eqb_eq.
  destruct o; simpl; split; congruence.
Qed.

(** X10: when [afterOptimizeChunks] has not run on the instance, the
    emission does nothing if no rules are recorded, and otherwise ends in the
    [TypeError] of reading a property of [undefined], which is caught: the
    compilation gets this one error and no asset. *)
Theorem processAssets_before_tracking (p : Plugin) (c : Compilation) :
  fileToBundlesMap p = None ->
  (stylexRules p = Js.empty -> processAssets p c = c) /\
  (stylexRules p <> Js.empty ->
   processAssets p c
   = push_error (TypeError "Cannot read properties of undefined") c).
Proof.
  intros Hnone. unfold processAssets, emit_all, bind, lift, getBundleToStylexRules.
  split; intros H.
  - rewrite (proj2 (own_keys_empty _) H). reflexivity.
  - destruct (Nat.eqb _ 0) eqn:E.
    + apply own_keys_empty in E. contradiction.
    + rewrite Hnone. reflexivity.
Qed.

(** X11: a bundle of the aggregator's output always has a contributor: a
    file with recorded rules that is the resource of a module of a tracked
    chunk with this identifier.  No asset is emitted for a chunk without such
    a file. *)
Theorem output_bundles_have_contributors
  (c : Compilation) (chunks : list Chunk) (p : Plugin) (out : Js.obj string)
  (bundle css : string) :
  fileToBundlesMap p = Some (track_chunks c chunks) ->
  getBundleToStylexRules p = inr (Some out) ->
  Js.get bundle out = Some css ->
  exists file rules chunk md,
    In (file, rules) (stylexRules p) /\
    In chunk chunks /\ chunkName chunk = bundle /\
    In md (chunkGraph c chunk) /\ resource md = Some file /\
    is_node_module file = false.
Proof.
  intros Hftb Hout Hget.
  destruct (getBundleToStylexRules_get p _ out bundle Hftb Hout) as [acc [Hacc H]].
  rewrite (bundleToRules_get _ _ _ _ (track_chunks_NoDup c chunks) Hacc) in H.
  destruct (contributors (stylexRules p) (track_chunks c chunks) bundle)
    as [|[file rules] cs] eqn:Ecs; simpl in H; [congruence|].
  assert (Hin : In (file, rules)
                  (contributors (stylexRules p) (track_chunks c chunks) bundle))
    by (rewrite Ecs; now left).
  apply contributors_In in Hin. destruct Hin as [Hsr Hb].
  apply in_bundle_spec in Hb. destruct Hb as [bundles [Hg Hmem]].
  destruct (track_chunks_members c chunks file bundles Hg) as [_ Hall].
  destruct (Hall bundle Hmem) as [_ [Hn [chunk [md [Hch [Hname [Hmd Hr]]]]]]].
  exists file, rules, chunk, md. auto 10.
Qed.

Lemma asset_path_outputOptions (c1 c2 : Compilation) (bundle css : string) :
  outputOptions c1 = outputOptions c2 ->
  asset_path c1 bundle css = asset_path c2 bundle css.
Proof. intros H. unfold asset_path, getContentHash. now rewrite H. Qed.

(** what one iteration of the emission keeps, however it ends *)
Lemma emit_bundle_keeps (b : string * string) (c c' : Compilation) (r : Res unit) :
  emit_bundle b c = (r, c') ->
  outputOptions c' = outputOptions c /\ chunkGraph c' = chunkGraph c /\
  forall file a, Js.get file (assets c) = Some a ->
                 exists a', Js.get file (assets c') = Some a'.
Proof.
  rewrite emit_bundle_unfold.
  destruct (asset_path _ _ _) as [e|[file info]].
  - intros H. injection H as _ <-. eauto.
  - destruct (emitAsset_rejects _ _ _ _); intros H; injection H as _ <-;
      [eauto|].
    simpl. split; [reflexivity|]. split; [reflexivity|].
    intros f a Ha. rewrite get_set. destruct (String.eqb f file); eauto.
Qed.

Lemma for_of_emit_keeps (bs : list (string * string)) (c c' : Compilation)
  (r : Res unit) :
  for_of bs emit_bundle c = (r, c') ->
  outputOptions c' = outputOptions c /\ chunkGraph c' = chunkGraph c /\
  forall file a, Js.get file (assets c) = Some a ->
                 exists a', Js.get file (assets c') = Some a'.
Proof.
  revert c. induction bs as [|b bs IH]; intros c; simpl.
  - unfold ret. intros H. injection H as _ <-. eauto.
  - unfold bind. destruct (emit_bundle b c) as [[e|[]] c1] eqn:E.
    + intros H. injection H as _ <-. eapply emit_bundle_keeps; eauto.
    + intros H. destruct (emit_bundle_keeps _ _ _ _ E) as [Ho [Hg Ha]].
      destruct (IH _ H) as [Ho' [Hg' Ha']].
      split; [congruence|]. split; [congruence|].
      intros file a Hf. destruct (Ha file a Hf) as [a1 H1]. eauto.
Qed.

Lemma for_of_emit_registers (bs : list (string * string)) (c c' : Compilation) :
  for_of bs emit_bundle c = (inr tt, c') ->
  forall b css, In (b, css) bs ->
    exists file info, asset_path c b css = inr (file, info) /\
      exists a, Js.get file (assets c') = Some a.
Proof.
  revert c. induction bs as [|b0 bs IH]; intros c H b css Hin; [destruct Hin|].
  simpl in H. unfold bind in H.
  destruct (emit_bundle b0 c) as [[e|[]] c1] eqn:E; [discriminate|].
  destruct (emit_bundle_keeps _ _ _ _ E) as [Ho _].
  destruct Hin as [->|Hin].
  - rewrite emit_bundle_unfold in E. simpl in E.
    destruct (asset_path c b css) as [e|[file info]]; [discriminate|].
    destruct (emitAsset_rejects _ _ _ _); [discriminate|].
    injection E as <-. exists file, info. split; [reflexivity|].
    destruct (for_of_emit_keeps _ _ _ _ H) as [_ [_ Hk]].
    apply (Hk file (mkRawSource css, info)). simpl. apply get_set_same.
  - destruct (IH _ H b css Hin) as [file [info [Hp Ha]]].
    exists file, info. split; [|exact Ha].
    rewrite <- Hp. symmetry. now apply asset_path_outputOptions.
Qed.

(** X12: when every bundle of the output was emitted without an exception,
    the handler returns the compilation after the last registration: no error
    is added, and for every bundle an asset is registered under the path
    resolved for it. *)
Theorem processAssets_emits_every_bundle
  (p : Plugin) (c c' : Compilation) (out : Js.obj string) :
  getBundleToStylexRules p = inr (Some out) ->
  for_of (Js.own_entries out) emit_bundle c = (inr tt, c') ->
  processAssets p c = c' /\
  errors c' = errors c /\
  forall bundle css, Js.get bundle out = Some css ->
    exists file info, asset_path c bundle css = inr (file, info) /\
      exists a, Js.get file (assets c') = Some a.
Proof.
  intros Hout Hloop. split; [|split].
  - unfold processAssets, emit_all, bind, lift. now rewrite Hout, Hloop.
  - exact (for_of_emit_errors _ _ _ _ Hloop).
  - intros bundle css Hget.
    apply (for_of_emit_registers _ _ _ Hloop).
    apply (Permutation_in _ (Permutation_sym (own_entries_perm out))).
    now apply get_In.
Qed.

(** X13: whatever happens in the emission, the handler returns a
    compilation with the same output options and chunk graph, in which every
    asset that was registered before is still registered, and whose error list
    is the old one or the old one with one more entry. *)
Theorem processAssets_keeps_compilation (p : Plugin) (c : Compilation) :
  outputOptions (processAssets p c) = outputOptions c /\
  chunkGraph (processAssets p c) = chunkGraph c /\
  (forall file a, Js.get file (assets c) = Some a ->
                  exists a', Js.get file (assets (processAssets p c)) = Some a') /\
  (errors (processAssets p c) = errors c \/
   exists e, errors (processAssets p c) = (errors c ++ [e])%list).
Proof.
  unfold processAssets, emit_all, bind, lift.
  destruct (getBundleToStylexRules p) as [e|[out|]]; simpl.
  - repeat split; eauto.
  - destruct (for_of (Js.own_entries out) emit_bundle c) as [[e|[]] c'] eqn:E;
      destruct (for_of_emit_keeps _ _ _ _ E) as [Ho [Hg Hk]];
      pose proof (for_of_emit_errors _ _ _ _ E) as He; simpl.
    + repeat split; auto. right. exists e. now rewrite He.
    + repeat split; auto.
  - unfold ret. repeat split; eauto.
Qed.

(* ------------------------------------------------------------------ *)
(** ** More on the content hash *)

Lemma substring_0_length (k : nat) (s : string) :
  (String.length (String.substring 0 k s) <= k)%nat.
Proof.
  revert s. induction k as [|k IH]; intros s; destruct s as [|a s]; simpl;
    try lia. specialize (IH s). lia.
Qed.

Lemma substring_0_prefix (k : nat) (s : string) :
  exists rest, s = String.substring 0 k s ++ rest.
Proof.
  revert s. induction k as [|k IH]; intros s; destruct s as [|a s]; simpl.
  - now exists "".
  - now exists (String a s).
  - now exists "".
  - destruct (IH s) as [rest H]. exists rest. now rewrite <- H.
Qed.

Lemma slice0_prefix (s : string) (n : option Z) :
  exists rest, s = Js.slice0 s n ++ rest.
Proof.
  destruct n as [z|]; simpl.
  - apply substring_0_prefix.
  - exists "". induction s as [|a s IH]; simpl; congruence.
Qed.

Lemma slice0_length (s : string) (z : Z) :
  (0 <= z)%Z -> (Z.of_nat (String.length (Js.slice0 s (Some z))) <= z)%Z.
Proof.
  intros Hz. unfold Js.slice0.
  destruct (Z.ltb_spec z 0); [lia|].
  pose proof (substring_0_length
                (Z.to_nat (Z.min z (Z.of_nat (String.length s)))) s). lia.
Qed.

(** X14: the content hash is the beginning of what [digest] returned for
    the hash object fed with the salt and the payload, and with a
    non-negative [hashDigestLength] it is at most that long. *)
Theorem content_hash_is_truncated_digest
  (c : Compilation) (source h : string) :
  getContentHash c source = inr h ->
  (exists hash rest,
     hash_digest hash (hashDigest (outputOptions c)) = inr (h ++ rest)) /\
  (forall n, hashDigestLength (outputOptions c) = Some n -> (0 <= n)%Z ->
             (Z.of_nat (String.length h) <= n)%Z).
Proof.
  unfold getContentHash, rbind.
  destruct (createHash _) as [e|h0]; [discriminate|].
  destruct (match hashSalt (outputOptions c) with
            | Some salt => if Js.truthy salt then hash_update h0 salt else inr h0
            | None => inr h0
            end) as [e|h1]; [discriminate|].
  destruct (hash_update h1 source) as [e|h2]; [discriminate|].
  destruct (hash_digest h2 _) as [e|full] eqn:Ed; [discriminate|].
  intros H. injection H as <-. split.
  - destruct (slice0_prefix full (hashDigestLength (outputOptions c))) as [rest Hr].
    exists h2, rest. now rewrite <- Hr.
  - intros n Hn Hz. rewrite Hn. now apply slice0_length.
Qed.

(** X15: an empty salt is no salt: the hash object is not fed with it, and
    the content hash is the one computed without [hashSalt]. *)
Theorem empty_salt_is_no_salt (c1 c2 : Compilation) (source : string) :
  hashSalt (outputOptions c1) = Some "" ->
  hashSalt (outputOptions c2) = None ->
  hashFunction (outputOptions c1) = hashFunction (outputOptions c2) ->
  hashDigest (outputOptions c1) = hashDigest (outputOptions c2) ->
  hashDigestLength (outputOptions c1) = hashDigestLength (outputOptions c2) ->
  getContentHash c1 source = getContentHash c2 source.
Proof.
  intros Hs1 Hs2 Hf Hd Hl. unfold getContentHash.
  rewrite Hs1, Hs2, Hf, Hd, Hl. reflexivity.
Qed.

(* ------------------------------------------------------------------ *)
(** ** The loader *)

(** X16: the loader the hook installs hands a module that names no
    configured import to the next loader as it came: the callback gets the
    input text, no source map and no error, and the plugin is unchanged. *)
Theorem stylexLoader_passes_unrelated_text
  (resourcePath inputCode : string) (st : Loading) :
  (forall importName, In importName (stylexImports (plugin st)) ->
                      ~ substring_of importName inputCode) ->
  stylexLoader (options stylex_entry) resourcePath inputCode st
  = (CallbackResult inputCode None, st).
Proof.
  intros Hno. unfold stylexLoader. simpl.
  now rewrite (transformCode_no_import inputCode resourcePath st Hno).
Qed.

(** X17: a value thrown by the transformation reaches the callback and
    nothing else happens: an [Error] is passed on as it is, any other value
    as a new [Error] with its text, and the plugin is as before the call.
    Without usable options the loader reports its own error and does not
    touch the plugin, whatever the module and whatever the transformation
    would have done. *)
Theorem stylexLoader_reports_failure
  (resourcePath inputCode : string) (st : Loading) :
  (forall e,
     fst (transformCode inputCode resourcePath st) = inl e ->
     stylexLoader (Some PluginInstance) resourcePath inputCode st
     = (CallbackError
          (if is_Error e then Rethrown e
           else NewError (default (String_of_truthy e)
                            "Unknown error in stylexPlugin.transformCode")),
        st)) /\
  (forall opts, opts <> Some PluginInstance ->
     stylexLoader opts resourcePath inputCode st
     = (CallbackError (NewError missing_plugin_message), st)).
Proof.
  split.
  - intros e H. pose proof (transformCode_throws_unchanged _ _ _ _ H) as Hs.
    unfold stylexLoader.
    destruct (transformCode inputCode resourcePath st) as [r st'].
    simpl in H, Hs. subst r st'. destruct (is_Error e); reflexivity.
  - intros opts Hopts. unfold stylexLoader.
    destruct opts as [[| |]|]; try reflexivity. congruence.
Qed.

(* ------------------------------------------------------------------ *)
(** ** The two classes *)

Lemma own_entries_no_index {V} (o : Js.obj V) :
  (forall e, In e o -> Js.is_index (fst e) = false) -> Js.own_entries o = o.
Proof.
  intros H. unfold Js.own_entries.
  rewrite (filter_nil (fun e => Js.is_index (fst e)) o H). simpl.
  induction o as [|e o IH]; simpl; [reflexivity|].
  rewrite (H e (or_introl eq_refl)). simpl. f_equal. apply IH.
  intros e' He'. apply H. now right.
Qed.

(** X18: on the same two maps, with CSS layers off and no recorded path
    that is an array index, the aggregator of the TypeScript class returns
    what the aggregator of the JavaScript class returns. *)
Theorem ts_aggregator_agrees (p : Plugin) (ftb : Js.obj (list string)) :
  fileToBundlesMap p = Some ftb ->
  useCSSLayers p = false ->
  (forall e, In e (stylexRules p) -> Js.is_index (fst e) = false) ->
  ts_getBundleToStylexRules
    {| ts_stylexRules := stylexRules p; ts_fileToBundlesMap := ftb |}
  = getBundleToStylexRules p.
Proof.
  intros Hftb Hl Hidx.
  unfold ts_getBundleToStylexRules, getBundleToStylexRules, ts_bundleToRules,
    bundleToRules, Js.own_keys. simpl.
  rewrite Hftb, Hl, length_map, (own_entries_no_index _ Hidx).
  destruct (Nat.eqb _ 0); reflexivity.
Qed.

(* ------------------------------------------------------------------ *)
(** ** The lists given to the rule processing *)

(** the map of an instance is unassigned or the result of a walk *)
Lemma run_fileToBundlesMap (evs : list Event) (st : Loading) :
  (fileToBundlesMap (plugin st) = None \/
   exists c chunks, fileToBundlesMap (plugin st) = Some (track_chunks c chunks)) ->
  fileToBundlesMap (plugin (run st evs)) = None \/
  exists c chunks,
    fileToBundlesMap (plugin (run st evs)) = Some (track_chunks c chunks).
Proof.
  unfold run. revert st. induction evs as [|ev evs IH]; intros st H; simpl;
    [exact H|].
  apply IH. destruct ev as [|inputCode filename|modules|c chunks|c]; simpl;
    try exact H.
  - destruct (transformCode_effect inputCode filename st) as [->|[R [_ ->]]];
      exact H.
  - right. eauto.
Qed.

(** X19: in a plugin instance the aggregator never collects an empty list:
    whatever events came before, every bundle of [bundleToRules] holds at
    least one rule, so [processStylexRules] is never called without rules. *)
Theorem accumulated_lists_are_nonempty
  (o : PluginOptions) (evs : list Event) (ftb : Js.obj (list string))
  (acc : Js.obj (list Rule)) (bundle : string) (rules : list Rule) :
  let p := plugin (run (constructed o) evs) in
  fileToBundlesMap p = Some ftb ->
  bundleToRules (stylexRules p) ftb = inr acc ->
  Js.get bundle acc = Some rules ->
  rules <> [].
Proof.
  intros p Hftb Hacc Hget.
  assert (Hnd : lists_NoDup ftb).
  { destruct (run_fileToBundlesMap evs (constructed o) (or_introl eq_refl))
      as [Hn|[c [chunks Hs]]]; fold p in Hn || fold p in Hs.
    - congruence.
    - rewrite Hs in Hftb. injection Hftb as <-. apply track_chunks_NoDup. }
  rewrite (bundleToRules_get _ _ _ _ Hnd Hacc) in Hget.
  destruct (contributors (stylexRules p) ftb bundle) as [|[f R] cs] eqn:Ecs;
    simpl in Hget; [discriminate|].
  injection Hget as <-.
  assert (Hin : In (f, R) (contributors (stylexRules p) ftb bundle))
    by (rewrite Ecs; now left).
  apply contributors_In in Hin. destruct Hin as [Hsr _].
  assert (HR : R <> []).
  { assert (Hempty : forall f0 R0,
              Js.get f0 (stylexRules (plugin (constructed o))) = Some R0 ->
              R0 <> []) by (intros f0 R0 H0; discriminate).
    apply (run_rules_nonempty evs (constructed o) Hempty f).
    apply In_get; [|exact Hsr].
    clear. unfold run.
    assert (Hgen : forall st, NoDup (List.map fst (stylexRules (plugin st))) ->
              NoDup (List.map fst (stylexRules (plugin (fold_left step evs st))))).
    { induction evs as [|ev evs IH]; intros st H; simpl; [exact H|].
      apply IH. now apply step_keys_NoDup. }
    apply Hgen. constructor. }
  destruct R as [|r R]; [now destruct HR|]. discriminate.
Qed.

(** X20: a bundle identifier that is the name of a property of
    [Object.prototype] ([constructor], [toString], [__proto__], ...) breaks
    the emission.  When a file with recorded rules is a member of such a
    bundle, the lookup of line 119 reads the inherited value, no array is
    created, and line 122 throws a [TypeError]: the aggregator throws it,
    and [processAssets] registers no asset, for this bundle or any other, and
    records the error.  This is the only way the loop of lines 113-124
    throws; with no such membership it completes, and no key of the object
    it has built is such a name. *)
Theorem aggregator_throws_on_inherited_name
  (p : Plugin) (ftb : Js.obj (list string)) (c : Compilation) :
  fileToBundlesMap p = Some ftb ->
  ((exists f R b, In (f, R) (stylexRules p) /\ in_bundle ftb f b = true /\
      Js.inherited b = true) ->
   bundleToRules (stylexRules p) ftb = inl push_TypeError /\
   getBundleToStylexRules p = inl push_TypeError /\
   processAssets p c = push_error push_TypeError c) /\
  (forall e,
     bundleToRules (stylexRules p) ftb = inl e ->
     e = push_TypeError /\
     exists f R b, In (f, R) (stylexRules p) /\ in_bundle ftb f b = true /\
       Js.inherited b = true) /\
  ((forall f R b, In (f, R) (stylexRules p) -> in_bundle ftb f b = true ->
      Js.inherited b = false) ->
   exists acc,
     bundleToRules (stylexRules p) ftb = inr acc /\
     forall b, Js.get b acc <> None -> Js.inherited b = false).
Proof.
  intros Hftb.
  destruct (bundleToRules_cases (stylexRules p) ftb)
    as [[acc [Hacc [Hnames Hkeys]]]|[Hthrow Hex]].
  - split; [|split].
    + intros [f [R [b [Hin [Hm Hb]]]]].
      rewrite (Hnames f R b Hin Hm) in Hb. discriminate.
    + intros e He. rewrite Hacc in He. discriminate.
    + intros _. now exists acc.
  - split; [|split].
    + intros [f [R [b [Hin _]]]].
      assert (Hout : getBundleToStylexRules p = inl push_TypeError).
      { unfold getBundleToStylexRules.
        destruct (Nat.eqb _ 0) eqn:E.
        - apply own_keys_empty in E. rewrite E in Hin. destruct Hin.
        - rewrite Hftb, Hthrow. reflexivity. }
      split; [exact Hthrow|]. split; [exact Hout|].
      unfold processAssets, emit_all, bind, lift. now rewrite Hout.
    + intros e He. rewrite Hthrow in He. injection He as <-.
      split; [reflexivity|exact Hex].
    + intros Hnames. destruct Hex as [f [R [b [Hin [Hm Hb]]]]].
      rewrite (Hnames f R b Hin Hm) in Hb. discriminate.
Qed.

End Properties.

Example sample_maps :
  stylexRules (plugin Sample.built)
  = [ (Sample.a_js, ["rule-of:/proj/src/a.js"]);
      (Sample.b_js, ["rule-of:/proj/src/b.js"]);
      (Sample.gone_js, ["rule-of:/proj/src/gone.js"]) ] /\
  fileToBundlesMap (plugin Sample.built)
  = Some [ (Sample.a_js, ["main"; "179"]);
           (Sample.util_js, ["main"]);
           (Sample.b_js, ["179"]) ].
Proof. split; reflexivity. Qed.

Example sample_emission :
  Sample.getBundleToStylexRules (plugin Sample.built)
  = inr (Some [ ("179", "rule-of:/proj/src/a.js;rule-of:/proj/src/b.js");
                ("main", "rule-of:/proj/src/a.js") ]) /\
  Js.own_keys (assets (Sample.processAssets (plugin Sample.built)
                         (Sample.compilation "md4")))
  = ["179.stylex.css"; "main.stylex.css"] /\
  errors (Sample.processAssets (plugin Sample.built) (Sample.compilation "md4")) = [].
Proof. repeat split; vm_compute; reflexivity. Qed.

Example keeps_earlier_entry :
  (* a.js no longer imports the styling API: the entry of the earlier
     transformation is still there *)
  Js.get Sample.a_js
    (stylexRules (plugin (Sample.step Sample.built
                            (TransformCode Sample.plain Sample.a_js))))
  = Some ["rule-of:/proj/src/a.js"].
Proof. reflexivity. Qed.

(* ------------------------------------------------------------------ *)
(** ** The theorems on the sample project *)

Lemma aggregator_joins_on_membership_witness :
  let ftb := Sample.track_chunks (Sample.compilation "md4") [Sample.main; Sample.lazy] in
  let sr := stylexRules (plugin Sample.built) in
  fileToBundlesMap (plugin Sample.built) = Some ftb /\
  Js.get Sample.gone_js ftb = None /\
  (exists acc,
     bundleToRules sr ftb = inr acc /\
     Js.get "179" acc = appended None (contributors sr ftb "179")) /\
  contributors sr ftb "179"
    = [ (Sample.a_js, ["rule-of:/proj/src/a.js"]);
        (Sample.b_js, ["rule-of:/proj/src/b.js"]) ] /\
  forall b, ~ In Sample.gone_js (List.map fst (contributors sr ftb b)).
Proof.
  pose proof (aggregator_joins_on_membership
                Sample.Rule Sample.AssetInfo Sample.BabelItem Sample.ExtraOptions
                PosixPath.sep Sample.processStylexRules
                (Sample.compilation "md4") [Sample.main; Sample.lazy]
                (plugin Sample.built)
                [ ("179", "rule-of:/proj/src/a.js;rule-of:/proj/src/b.js");
                  ("main", "rule-of:/proj/src/a.js") ]
                eq_refl eq_refl Sample.gone_js "179") as H.
  destruct H as [_ [Hacc [_ Hgone]]].
  split; [reflexivity|]. split; [reflexivity|]. split; [exact Hacc|].
  split; [reflexivity|]. exact (Hgone eq_refl).
Defined.

Lemma transformCode_short_circuit_witness :
  (forall importName, In importName (stylexImports (plugin Sample.built)) ->
                      ~ substring_of importName Sample.plain) /\
  Sample.transformCode Sample.plain Sample.util_js Sample.built
    = (inr {| code := Sample.plain; map := None |}, Sample.built) /\
  Js.get Sample.util_js
    (stylexRules (plugin (snd (Sample.transformCode Sample.plain Sample.util_js
                                 Sample.built)))) = None.
Proof.
  assert (Hno : forall importName,
            In importName (stylexImports (plugin Sample.built)) ->
            ~ substring_of importName Sample.plain).
  { intros importName [<-|[<-|[]]] Hsub; apply includes_spec in Hsub;
      vm_compute in Hsub; discriminate. }
  split; [exact Hno|].
  destruct (transformCode_short_circuit
              Sample.Rule Sample.SourceMap Sample.BabelItem Sample.ExtraOptions
              PosixPath.extname Sample.readFile Sample.transformAsync
              Sample.plain Sample.util_js Sample.built Hno) as [Hret [_ Hnone]].
  split; [exact Hret|]. exact (Hnone eq_refl).
Defined.

Lemma afterOptimizeChunks_membership_witness :
  (* a.js is listed twice among the modules of [main]; the dependency is
     a module of [main] too *)
  Sample.modules_of Sample.main
    = [ {| resource := Some Sample.a_js |}; {| resource := Some Sample.util_js |};
        {| resource := Some Sample.dep_js |}; {| resource := Some Sample.a_js |};
        {| resource := None |} ] /\
  (exists ftb,
     fileToBundlesMap (Sample.afterOptimizeChunks (Sample.compilation "md4")
                         [Sample.main; Sample.lazy] (plugin Sample.started))
       = Some ftb /\
     exists bundles, Js.get Sample.a_js ftb = Some bundles /\
                     count_occ string_dec bundles "main" = 1%nat) /\
  (exists ftb,
     fileToBundlesMap (Sample.afterOptimizeChunks (Sample.compilation "md4")
                         [Sample.main; Sample.lazy] (plugin Sample.started))
       = Some ftb /\
     Js.get Sample.dep_js ftb = None).
Proof.
  split; [reflexivity|]. split.
  - exact (afterOptimizeChunks_membership
             Sample.Rule Sample.AssetInfo Sample.BabelItem Sample.ExtraOptions
             PosixPath.sep (Sample.compilation "md4") [Sample.main; Sample.lazy]
             (plugin Sample.started) Sample.main
             {| resource := Some Sample.a_js |} Sample.a_js
             (or_introl eq_refl) (or_introl eq_refl) eq_refl
             (fun H => eq_ind Sample.a_js
                         (fun s => match s with EmptyString => False | _ => True end)
                         I "" H)).
  - exact (afterOptimizeChunks_membership
             Sample.Rule Sample.AssetInfo Sample.BabelItem Sample.ExtraOptions
             PosixPath.sep (Sample.compilation "md4") [Sample.main; Sample.lazy]
             (plugin Sample.started) Sample.main
             {| resource := Some Sample.dep_js |} Sample.dep_js
             (or_introl eq_refl) (or_intror (or_intror (or_introl eq_refl))) eq_refl
             (fun H => eq_ind Sample.dep_js
                         (fun s => match s with EmptyString => False | _ => True end)
                         I "" H)).
Defined.

Lemma two_files_concatenate_in_order_witness :
  let ftb := Sample.track_chunks (Sample.compilation "md4") [Sample.main; Sample.lazy] in
  stylexRules (plugin Sample.built)
    = [ (Sample.a_js, ["rule-of:/proj/src/a.js"]);
        (Sample.b_js, ["rule-of:/proj/src/b.js"]);
        (Sample.gone_js, ["rule-of:/proj/src/gone.js"]) ] /\
  in_bundle ftb Sample.a_js "179" = true /\
  in_bundle ftb Sample.b_js "179" = true /\
  in_bundle ftb Sample.gone_js "179" = false /\
  bundleToRules (stylexRules (plugin Sample.built)) ftb
    = inr [ ("main", ["rule-of:/proj/src/a.js"]);
            ("179", ["rule-of:/proj/src/a.js"; "rule-of:/proj/src/b.js"]) ] /\
  Js.get "179"
    [ ("main", ["rule-of:/proj/src/a.js"]);
      ("179", ["rule-of:/proj/src/a.js"; "rule-of:/proj/src/b.js"]) ]
    = Some ["rule-of:/proj/src/a.js"; "rule-of:/proj/src/b.js"] /\
  exists css,
    Sample.processStylexRules
      ["rule-of:/proj/src/a.js"; "rule-of:/proj/src/b.js"] false = inr css /\
    Js.get "179"
      [ ("179", "rule-of:/proj/src/a.js;rule-of:/proj/src/b.js");
        ("main", "rule-of:/proj/src/a.js") ] = Some css.
Proof.
  assert (Hothers : forall e : string * list Sample.Rule,
            In e ([] ++ [] ++ [(Sample.gone_js, ["rule-of:/proj/src/gone.js"])])%list ->
            in_bundle (Sample.track_chunks (Sample.compilation "md4")
                         [Sample.main; Sample.lazy]) (fst e) "179" = false).
  { intros e [<-|[]]. reflexivity. }
  destruct (two_files_concatenate_in_order
              Sample.Rule Sample.AssetInfo Sample.BabelItem Sample.ExtraOptions
              PosixPath.sep Sample.processStylexRules
              (Sample.compilation "md4") [Sample.main; Sample.lazy]
              (plugin Sample.built) "179" Sample.a_js Sample.b_js
              ["rule-of:/proj/src/a.js"] ["rule-of:/proj/src/b.js"]
              [] [] [(Sample.gone_js, ["rule-of:/proj/src/gone.js"])]
              eq_refl eq_refl eq_refl eq_refl eq_refl eq_refl Hothers)
    as [Hlist [_ Hout]].
  do 5 (split; [reflexivity|]).
  split; [exact (Hlist _ eq_refl)|].
  exact (Hout _ eq_refl).
Defined.

Lemma afterOptimizeChunks_replaces_witness :
  (* the earlier invocation recorded a.js; the chunk of this one does not
     hold it *)
  in_bundle (default (fileToBundlesMap (plugin Sample.built)) Js.empty)
    Sample.a_js "main" = true /\
  exists ftb,
    fileToBundlesMap (Sample.afterOptimizeChunks (Sample.compilation "md4")
                        [Sample.anonymous] (plugin Sample.built)) = Some ftb /\
    Js.get Sample.a_js ftb = None /\
    forall p', fileToBundlesMap (Sample.afterOptimizeChunks (Sample.compilation "md4")
                                   [Sample.anonymous] p') = Some ftb.
Proof.
  split; [reflexivity|].
  refine (afterOptimizeChunks_replaces
            Sample.Rule Sample.AssetInfo Sample.BabelItem Sample.ExtraOptions
            PosixPath.sep (Sample.compilation "md4") [Sample.anonymous]
            (plugin Sample.built) Sample.a_js _).
  intros chunk md [<-|[]] [<-|[<-|[]]]; discriminate.
Defined.

Lemma processAssets_catches_exception_witness :
  let css179 := "rule-of:/proj/src/a.js;rule-of:/proj/src/b.js" in
  let c1 := with_asset Sample.occupied "179.stylex.css" (mkRawSource css179) "109613" in
  Sample.getBundleToStylexRules Sample.three_chunks
    = inr (Some [ ("179", css179); ("main", "rule-of:/proj/src/a.js");
                  ("chunk-undefined", "rule-of:/proj/src/b.js") ]) /\
  Sample.emission_failure c1 ("main", "rule-of:/proj/src/a.js")
    (HostError "Conflict: main.stylex.css") /\
  Js.own_keys (assets (Sample.processAssets Sample.three_chunks Sample.occupied))
    = ["main.stylex.css"; "179.stylex.css"] /\
  assets (Sample.processAssets Sample.three_chunks Sample.occupied) = assets c1 /\
  errors (Sample.processAssets Sample.three_chunks Sample.occupied)
    = [HostError "Conflict: main.stylex.css"].
Proof.
  intros css179 c1.
  assert (Hfail : Sample.emission_failure c1 ("main", "rule-of:/proj/src/a.js")
                    (HostError "Conflict: main.stylex.css")).
  { right; right. exists "575555", "main.stylex.css", "575555".
    repeat split; reflexivity. }
  destruct (processAssets_catches_exception
              Sample.Rule Sample.AssetInfo Sample.BabelItem Sample.ExtraOptions
              Sample.Hash PosixPath.parse_name Sample.processStylexRules
              Sample.createHash Sample.hash_update Sample.hash_digest
              Sample.getPathWithInfo Sample.emitAsset_rejects
              Sample.three_chunks Sample.occupied c1
              [ ("179", css179); ("main", "rule-of:/proj/src/a.js");
                ("chunk-undefined", "rule-of:/proj/src/b.js") ]
              [("179", css179)] [("chunk-undefined", "rule-of:/proj/src/b.js")]
              ("main", "rule-of:/proj/src/a.js")
              (HostError "Conflict: main.stylex.css")
              eq_refl eq_refl eq_refl Hfail) as [_ [Hassets [Herrors _]]].
  split; [reflexivity|]. split; [exact Hfail|]. split; [reflexivity|].
  split; [exact Hassets|exact Herrors].
Defined.

Lemma getContentHash_deterministic_witness :
  (* the two compilations differ in their assets *)
  assets (Sample.compilation "md4") <> assets Sample.occupied /\
  Sample.getContentHash (Sample.compilation "md4") "rule-of:/proj/src/a.js"
    = Sample.getContentHash Sample.occupied "rule-of:/proj/src/a.js" /\
  Sample.asset_path (Sample.compilation "md4") "main" "rule-of:/proj/src/a.js"
    = Sample.asset_path Sample.occupied "main" "rule-of:/proj/src/a.js" /\
  Sample.getContentHash Sample.occupied "rule-of:/proj/src/a.js" = inr "575555".
Proof.
  split; [discriminate|].
  destruct (getContentHash_deterministic
              Sample.AssetInfo Sample.Hash PosixPath.parse_name
              Sample.createHash Sample.hash_update Sample.hash_digest
              Sample.getPathWithInfo
              (Sample.compilation "md4") Sample.occupied
              "rule-of:/proj/src/a.js" "main"
              eq_refl eq_refl eq_refl eq_refl) as [Hh Hp].
  split; [exact Hh|]. split; [exact Hp|reflexivity].
Defined.

Lemma emitted_path_from_bundle_name_witness :
  Sample.getContentHash (Sample.compilation "md4") "rule-of:/proj/src/a.js"
    = inr "575555" /\
  Js.get "main.stylex.css"
    (assets (snd (Sample.emit_bundle ("main", "rule-of:/proj/src/a.js")
                    (Sample.compilation "md4"))))
    = Some (mkRawSource "rule-of:/proj/src/a.js", "575555") /\
  Sample.processAssets (with_filename (plugin Sample.built) (Some "styles.css"))
    (Sample.compilation "md4")
  = Sample.processAssets (plugin Sample.built) (Sample.compilation "md4").
Proof.
  split; [reflexivity|].
  exact (proj2 (emitted_path_from_bundle_name
           Sample.Rule Sample.AssetInfo Sample.BabelItem Sample.ExtraOptions
           Sample.Hash PosixPath.parse_name Sample.processStylexRules
           Sample.createHash Sample.hash_update Sample.hash_digest
           Sample.getPathWithInfo Sample.emitAsset_rejects
           (plugin Sample.built) (Some "styles.css") (Sample.compilation "md4")
           "main" "rule-of:/proj/src/a.js" "575555" "main.stylex.css" "575555"
           eq_refl eq_refl eq_refl)).
Defined.

Lemma stylexRules_only_transform_never_reset_witness :
  (* after the first build: emission, the start of a second compilation, the
     transformation of another file, and three transformations of a.js that
     record nothing: its text no longer imports the styling API, imports it
     without a rule, does not compile *)
  Js.get Sample.a_js (stylexRules (plugin Sample.built))
    = Some ["rule-of:/proj/src/a.js"] /\
  Js.get Sample.a_js
    (stylexRules (plugin (Sample.run Sample.built
                            [ ProcessAssets (Sample.compilation "md4"); Make;
                              TransformCode Sample.styled Sample.b_js;
                              TransformCode Sample.plain Sample.a_js;
                              TransformCode SampleLoader.unused_import Sample.a_js;
                              TransformCode SampleLoader.broken Sample.a_js;
                              AfterOptimizeChunks (Sample.compilation "md4")
                                [Sample.lazy] ])))
    = Some ["rule-of:/proj/src/a.js"] /\
  (* when a.js is transformed with a rule again, the entry is what this
     transformation recorded *)
  Js.get Sample.a_js
    (stylexRules (plugin (Sample.step SampleLoader.renamed
                            (TransformCode Sample.styled Sample.a_js))))
    = Some ["rule-of:/proj/src/a.js"].
Proof.
  pose proof (stylexRules_only_transform_never_reset
            Sample.Rule Sample.SourceMap Sample.AssetInfo Sample.BabelItem
            Sample.ExtraOptions false "/proj" PosixPath.sep PosixPath.extname
            Sample.readFile Sample.transformAsync)
    as [_ [_ [_ [_ [Hstep Hrun]]]]].
  split; [reflexivity|]. split.
  - refine (Hrun Sample.built _ Sample.a_js _ eq_refl _).
    cbn [never_records].
    repeat match goal with |- _ /\ _ => split end; try exact I;
      intros rules [inputCode [Hev [_ Hst]]];
      try discriminate Hev;
      try (injection Hev as _ Hf; vm_compute in Hf; discriminate Hf);
      apply (f_equal (fun st => List.length (debugLog st))) in Hst;
      vm_compute in Hst; discriminate Hst.
  - destruct (Hstep SampleLoader.renamed (TransformCode Sample.styled Sample.a_js)
                Sample.a_js ["old-rule"] eq_refl) as [H|[rules' [_ H]]].
    + vm_compute in H. discriminate H.
    + reflexivity.
Defined.

(** C5, the claim on the sample project: the plugin is configured with the
    template [styles.css], which would be the path of every asset; the assets
    are registered under the bundle names instead. *)
Lemma configured_template_ignored :
  filename (plugin Sample.configured_built) = Some "styles.css" /\
  Sample.claimed_asset_path (plugin Sample.configured_built)
    (Sample.compilation "md4") "main" "rule-of:/proj/src/a.js"
    = inr ("styles.css", "575555") /\
  Js.own_keys (assets (Sample.processAssets (plugin Sample.configured_built)
                         (Sample.compilation "md4")))
    = ["179.stylex.css"; "main.stylex.css"] /\
  Js.get "styles.css"
    (assets (Sample.processAssets (plugin Sample.configured_built)
               (Sample.compilation "md4"))) = None.
Proof. repeat split; reflexivity. Qed.

(** C4, the claim on the sample project: a second compilation starts on
    the plugin of the first build, and the map still holds the three entries
    recorded during the first one. *)
Lemma stylexRules_survive_new_compilation :
  stylexRules (plugin (Sample.run Sample.started
                         (Sample.first_build
                          ++ [ProcessAssets (Sample.compilation "md4"); Make])))
  = [ (Sample.a_js, ["rule-of:/proj/src/a.js"]);
      (Sample.b_js, ["rule-of:/proj/src/b.js"]);
      (Sample.gone_js, ["rule-of:/proj/src/gone.js"]) ] /\
  stylexRules (plugin (Sample.run Sample.started
                         (Sample.first_build
                          ++ [ProcessAssets (Sample.compilation "md4"); Make])))
  <> Js.empty.
Proof. split; [reflexivity|discriminate]. Qed.

(** the scenario of the specification: [a.js] has one rule and is in
    [main], [util.js] has none: one asset, [main.stylex.css] *)
Example one_asset_for_main :
  let st := Sample.run Sample.started
              [ Make; TransformCode Sample.styled Sample.a_js;
                TransformCode Sample.plain Sample.util_js;
                AfterOptimizeChunks (Sample.compilation "md4") [Sample.main] ] in
  assets (Sample.processAssets (plugin st) (Sample.compilation "md4"))
  = [ ("main.stylex.css", (mkRawSource "rule-of:/proj/src/a.js", "575555")) ].
Proof. reflexivity. Qed.

(** a chunk without name, id and rendered hash is recorded, not skipped *)
Example anonymous_chunk_recorded :
  Sample.track_chunks (Sample.compilation "md4") [Sample.anonymous]
  = [ (Sample.util_js, ["chunk-undefined"]); (Sample.b_js, ["chunk-undefined"]) ].
Proof. reflexivity. Qed.

(** the aggregator before any chunk was tracked *)
Example aggregator_before_tracking :
  errors (Sample.processAssets
            (plugin (Sample.run Sample.started
                       [Make; TransformCode Sample.styled Sample.a_js]))
            (Sample.compilation "md4"))
  = [TypeError "Cannot read properties of undefined"].
Proof. reflexivity. Qed.

(** the helpers on concrete values *)
Example extname_ex :
  List.map PosixPath.extname ["/a/b.ts"; "/a/b.test.tsx"; "/a/.bashrc"; "a."; ".."; "/a.d/b"; "x.js/"]
  = [".ts"; ".tsx"; ""; "."; ""; ""; ".js"].
Proof. reflexivity. Qed.
Example parse_name_ex :
  List.map PosixPath.parse_name ["main.stylex.css"; "pages/home.stylex.css"; "179.stylex.css"]
  = ["main.stylex"; "home.stylex"; "179.stylex"].
Proof. reflexivity. Qed.
Example includes_ex : Js.includes "stylex" "import * as stylex from 'x'" = true.
Proof. reflexivity. Qed.
Example own_keys_ex :
  Js.own_keys (Js.set "10" 1 (Js.set "b" 2 (Js.set "9" 3 (Js.set "a" 4 Js.empty))))
  = ["9"; "10"; "a"; "b"].
Proof. reflexivity. Qed.
Example slice_ex :
  Js.slice0 "abcdef" (Some 4%Z) = "abcd" /\ Js.slice0 "abcdef" (Some (-2)%Z) = "abcd" /\
  Js.slice0 "abc" (Some 20%Z) = "abc" /\ Js.number_toString 179 = "179" /\
  Js.number_toString 0 = "0".
Proof. repeat split; reflexivity. Qed.

(* ------------------------------------------------------------------ *)
(** ** The further theorems on the sample project *)

Lemma loader_hook_prepends_witness :
  ends_with_matched (PosixPath.extname "/proj/src/page.mjsx") /\
  ~ ends_with_matched (PosixPath.extname "/proj/src/page.css") /\
  (exists module', SampleLoader.loader_hook SampleLoader.page = inr module' /\
     loaders module'
     = [ {| loader := SampleLoader.loader_js; options := Some PluginInstance |};
         SampleLoader.babel_loader ]) /\
  SampleLoader.loader_hook SampleLoader.stylesheet = inr SampleLoader.stylesheet.
Proof.
  assert (Hyes : ends_with_matched (PosixPath.extname "/proj/src/page.mjsx")).
  { exists "", ".mjsx". split; [|reflexivity]. simpl. auto 10. }
  assert (Hno : ~ ends_with_matched (PosixPath.extname "/proj/src/page.css")).
  { intros H. apply ext_pattern_test_spec in H. vm_compute in H. discriminate. }
  split; [exact Hyes|]. split; [exact Hno|]. split.
  - destruct (loader_hook_prepends PosixPath.extname SampleLoader.loader_js
                SampleLoader.page "/proj/src/page.mjsx" eq_refl)
      as [module' [Heq [_ [Hatt _]]]].
    exists module'. split; [exact Heq|exact (Hatt Hyes)].
  - destruct (loader_hook_prepends PosixPath.extname SampleLoader.loader_js
                SampleLoader.stylesheet "/proj/src/page.css" eq_refl)
      as [module' [Heq [_ [_ Hsame]]]].
    unfold SampleLoader.loader_hook. rewrite Heq. f_equal. exact (Hsame Hno).
Defined.

Lemma transformCode_failure_changes_nothing_witness :
  fst (Sample.transformCode SampleLoader.broken Sample.a_js Sample.built)
    = inl (HostError "SyntaxError") /\
  Sample.transformCode SampleLoader.broken Sample.a_js Sample.built
    = (inl (HostError "SyntaxError"), Sample.built).
Proof.
  split; [reflexivity|].
  exact (transformCode_failure_changes_nothing
           Sample.Rule Sample.SourceMap Sample.BabelItem Sample.ExtraOptions
           PosixPath.extname Sample.readFile Sample.transformAsync
           SampleLoader.broken Sample.a_js Sample.built
           (HostError "SyntaxError") eq_refl).
Defined.

Lemma transformCode_babelrc_returns_input_witness :
  (* the text on disk uses the styling API and its rules are recorded; the
     text handed on is the one that came in *)
  babelrc (babelConfig (plugin SampleLoader.raw_config)) = true /\
  Js.get Sample.a_js
    (stylexRules (plugin (snd (SampleLoader.transformCode_on_disk
                                 SampleLoader.unused_import Sample.a_js
                                 SampleLoader.raw_config))))
    = Some ["rule-of:/proj/src/a.js"] /\
  fst (SampleLoader.transformCode_on_disk SampleLoader.unused_import Sample.a_js
         SampleLoader.raw_config)
    = inr {| code := SampleLoader.unused_import; map := None |}.
Proof.
  split; [reflexivity|]. split; [reflexivity|].
  pose proof (transformCode_babelrc_returns_input
            Sample.Rule Sample.SourceMap Sample.BabelItem Sample.ExtraOptions
            PosixPath.extname SampleLoader.on_disk Sample.transformAsync
            SampleLoader.unused_import Sample.a_js SampleLoader.raw_config
            (snd (SampleLoader.transformCode_on_disk SampleLoader.unused_import
                    Sample.a_js SampleLoader.raw_config))
            (match fst (SampleLoader.transformCode_on_disk
                          SampleLoader.unused_import Sample.a_js
                          SampleLoader.raw_config) with
             | inr r => r
             | inl _ => {| code := ""; map := None |}
             end)
            eq_refl eq_refl) as H.
  rewrite <- H. reflexivity.
Defined.

Lemma stylexRules_never_lose_a_file_witness :
  (* a.js is transformed again: once without an import, once with an import
     the compiler finds no rules for *)
  Js.get Sample.a_js (stylexRules (plugin Sample.built))
    = Some ["rule-of:/proj/src/a.js"] /\
  exists rules',
    Js.get Sample.a_js
      (stylexRules (plugin (Sample.run Sample.built
                              [ Make;
                                TransformCode Sample.plain Sample.a_js;
                                TransformCode SampleLoader.unused_import Sample.a_js;
                                AfterOptimizeChunks (Sample.compilation "md4") [] ])))
    = Some rules'.
Proof.
  split; [reflexivity|].
  exact (stylexRules_never_lose_a_file
           Sample.Rule Sample.SourceMap Sample.AssetInfo Sample.BabelItem
           Sample.ExtraOptions PosixPath.sep PosixPath.extname Sample.readFile
           Sample.transformAsync _ Sample.built Sample.a_js
           ["rule-of:/proj/src/a.js"] eq_refl).
Defined.

Lemma recorded_rules_are_nonempty_witness :
  Js.get Sample.b_js
    (stylexRules (plugin (Sample.run Sample.started Sample.first_build)))
    = Some ["rule-of:/proj/src/b.js"] /\
  ["rule-of:/proj/src/b.js"] <> ([] : list Sample.Rule).
Proof.
  split; [reflexivity|].
  exact (recorded_rules_are_nonempty
           Sample.Rule Sample.SourceMap Sample.AssetInfo Sample.BabelItem
           Sample.ExtraOptions false "/proj" PosixPath.sep PosixPath.extname
           Sample.readFile Sample.transformAsync
           Sample.no_options Sample.first_build Sample.b_js
           ["rule-of:/proj/src/b.js"] eq_refl).
Defined.

Lemma tracked_bundles_come_from_chunks_witness :
  Js.get Sample.a_js
    (Sample.track_chunks (Sample.compilation "md4") [Sample.main; Sample.lazy])
    = Some ["main"; "179"] /\
  forall b, In b ["main"; "179"] ->
    exists chunk md,
      In chunk [Sample.main; Sample.lazy] /\ chunkName chunk = b /\
      In md (Sample.modules_of chunk) /\ resource md = Some Sample.a_js.
Proof.
  split; [reflexivity|].
  exact (proj2 (proj2 (proj2 (tracked_bundles_come_from_chunks
           Sample.AssetInfo PosixPath.sep (Sample.compilation "md4")
           [Sample.main; Sample.lazy] Sample.a_js ["main"; "179"] eq_refl)))).
Defined.

Lemma processAssets_before_tracking_witness :
  let loaded := plugin (Sample.run Sample.started
                          [Make; TransformCode Sample.styled Sample.a_js]) in
  fileToBundlesMap (plugin Sample.started) = None /\
  fileToBundlesMap loaded = None /\
  assets (Sample.processAssets (plugin Sample.started) (Sample.compilation "md4"))
    = Js.empty /\
  errors (Sample.processAssets (plugin Sample.started) (Sample.compilation "md4"))
    = [] /\
  Sample.processAssets loaded (Sample.compilation "md4")
    = push_error (TypeError "Cannot read properties of undefined")
        (Sample.compilation "md4").
Proof.
  intros loaded.
  pose proof (proj1 (processAssets_before_tracking
           Sample.Rule Sample.AssetInfo Sample.BabelItem Sample.ExtraOptions
           Sample.Hash PosixPath.parse_name Sample.processStylexRules
           Sample.createHash Sample.hash_update Sample.hash_digest
           Sample.getPathWithInfo Sample.emitAsset_rejects
           (plugin Sample.started) (Sample.compilation "md4") eq_refl) eq_refl)
    as Hnothing.
  split; [reflexivity|]. split; [reflexivity|].
  unfold Sample.processAssets.
  split; [now rewrite Hnothing|]. split; [now rewrite Hnothing|].
  refine (proj2 (processAssets_before_tracking
           Sample.Rule Sample.AssetInfo Sample.BabelItem Sample.ExtraOptions
           Sample.Hash PosixPath.parse_name Sample.processStylexRules
           Sample.createHash Sample.hash_update Sample.hash_digest
           Sample.getPathWithInfo Sample.emitAsset_rejects
           loaded (Sample.compilation "md4") eq_refl) _).
  discriminate.
Defined.

Lemma output_bundles_have_contributors_witness :
  Js.get "179"
    [ ("179", "rule-of:/proj/src/a.js;rule-of:/proj/src/b.js");
      ("main", "rule-of:/proj/src/a.js") ]
    = Some "rule-of:/proj/src/a.js;rule-of:/proj/src/b.js" /\
  exists file rules chunk md,
    In (file, rules) (stylexRules (plugin Sample.built)) /\
    In chunk [Sample.main; Sample.lazy] /\ chunkName chunk = "179" /\
    In md (Sample.modules_of chunk) /\ resource md = Some file /\
    is_node_module PosixPath.sep file = false.
Proof.
  split; [reflexivity|].
  exact (output_bundles_have_contributors
           Sample.Rule Sample.AssetInfo Sample.BabelItem Sample.ExtraOptions
           PosixPath.sep Sample.processStylexRules
           (Sample.compilation "md4") [Sample.main; Sample.lazy]
           (plugin Sample.built)
           [ ("179", "rule-of:/proj/src/a.js;rule-of:/proj/src/b.js");
             ("main", "rule-of:/proj/src/a.js") ]
           "179" "rule-of:/proj/src/a.js;rule-of:/proj/src/b.js"
           eq_refl eq_refl eq_refl).
Defined.

Lemma processAssets_emits_every_bundle_witness :
  let c' := Sample.processAssets (plugin Sample.built) (Sample.compilation "md4") in
  errors c' = [] /\
  forall bundle css,
    Js.get bundle
      [ ("179", "rule-of:/proj/src/a.js;rule-of:/proj/src/b.js");
        ("main", "rule-of:/proj/src/a.js") ] = Some css ->
    exists file info,
      Sample.asset_path (Sample.compilation "md4") bundle css = inr (file, info) /\
      exists a, Js.get file (assets c') = Some a.
Proof.
  intros c'.
  destruct (processAssets_emits_every_bundle
           Sample.Rule Sample.AssetInfo Sample.BabelItem Sample.ExtraOptions
           Sample.Hash PosixPath.parse_name Sample.processStylexRules
           Sample.createHash Sample.hash_update Sample.hash_digest
           Sample.getPathWithInfo Sample.emitAsset_rejects
           (plugin Sample.built) (Sample.compilation "md4")
           (with_asset
              (with_asset (Sample.compilation "md4") "179.stylex.css"
                 (mkRawSource "rule-of:/proj/src/a.js;rule-of:/proj/src/b.js")
                 "109613")
              "main.stylex.css" (mkRawSource "rule-of:/proj/src/a.js") "575555")
           [ ("179", "rule-of:/proj/src/a.js;rule-of:/proj/src/b.js");
             ("main", "rule-of:/proj/src/a.js") ]
           eq_refl eq_refl) as [Hc' H].
  unfold c', Sample.processAssets. rewrite Hc'. exact H.
Defined.

Lemma content_hash_is_truncated_digest_witness :
  Sample.getContentHash (Sample.compilation "md4")
    "rule-of:/proj/src/a.js;rule-of:/proj/src/b.js" = inr "109613" /\
  (exists hash rest,
     Sample.hash_digest hash (Some "hex") = inr ("109613" ++ rest)) /\
  (Z.of_nat (String.length "109613") <= 6)%Z.
Proof.
  split; [reflexivity|].
  destruct (content_hash_is_truncated_digest
              Sample.AssetInfo Sample.Hash Sample.createHash Sample.hash_update
              Sample.hash_digest (Sample.compilation "md4")
              "rule-of:/proj/src/a.js;rule-of:/proj/src/b.js" "109613" eq_refl)
    as [Hprefix Hbound].
  split; [exact Hprefix|].
  exact (Hbound 6%Z eq_refl (proj1 (Z.leb_le 0 6) eq_refl)).
Defined.

Lemma empty_salt_is_no_salt_witness :
  Sample.getContentHash (SampleLoader.salted (Some "")) "rule-of:/proj/src/a.js"
    = Sample.getContentHash (SampleLoader.salted None) "rule-of:/proj/src/a.js" /\
  Sample.getContentHash (SampleLoader.salted (Some "pepper")) "rule-of:/proj/src/a.js"
    <> Sample.getContentHash (SampleLoader.salted None) "rule-of:/proj/src/a.js".
Proof.
  split; [|vm_compute; discriminate].
  exact (empty_salt_is_no_salt
           Sample.AssetInfo Sample.Hash Sample.createHash Sample.hash_update
           Sample.hash_digest (SampleLoader.salted (Some ""))
           (SampleLoader.salted None) "rule-of:/proj/src/a.js"
           eq_refl eq_refl eq_refl eq_refl eq_refl).
Defined.

Lemma stylexLoader_passes_unrelated_text_witness :
  SampleLoader.stylexLoader (Some PluginInstance) Sample.util_js Sample.plain
    Sample.built
  = (CallbackResult Sample.plain None, Sample.built).
Proof.
  refine (stylexLoader_passes_unrelated_text
            Sample.Rule Sample.SourceMap Sample.BabelItem Sample.ExtraOptions
            PosixPath.extname Sample.readFile Sample.transformAsync
            SampleLoader.loader_js SampleLoader.is_Error
            SampleLoader.String_of_truthy
            Sample.util_js Sample.plain Sample.built _).
  intros importName [<-|[<-|[]]] Hsub; apply includes_spec in Hsub;
    vm_compute in Hsub; discriminate.
Defined.

Lemma stylexLoader_reports_failure_witness :
  (* a text the compiler rejects; then a text it accepts, handed to a loader
     whose options hold no usable plugin *)
  SampleLoader.stylexLoader (Some PluginInstance) Sample.a_js SampleLoader.broken
    Sample.built
  = (CallbackError (Rethrown (HostError "SyntaxError")), Sample.built) /\
  fst (Sample.transformCode Sample.styled Sample.a_js Sample.started)
  = inr {| code := "compiled:" ++ Sample.styled; map := Some "map" |} /\
  SampleLoader.stylexLoader None Sample.a_js Sample.styled Sample.started
  = (CallbackError (NewError missing_plugin_message), Sample.started) /\
  SampleLoader.stylexLoader (Some PluginWithoutTransform) Sample.a_js Sample.styled
    Sample.started
  = (CallbackError (NewError missing_plugin_message), Sample.started).
Proof.
  destruct (stylexLoader_reports_failure
              Sample.Rule Sample.SourceMap Sample.BabelItem Sample.ExtraOptions
              PosixPath.extname Sample.readFile Sample.transformAsync
              SampleLoader.is_Error SampleLoader.String_of_truthy
              Sample.a_js SampleLoader.broken Sample.built) as [Hthrown _].
  destruct (stylexLoader_reports_failure
              Sample.Rule Sample.SourceMap Sample.BabelItem Sample.ExtraOptions
              PosixPath.extname Sample.readFile Sample.transformAsync
              SampleLoader.is_Error SampleLoader.String_of_truthy
              Sample.a_js Sample.styled Sample.started) as [_ Hopts].
  split; [exact (Hthrown (HostError "SyntaxError") eq_refl)|].
  split; [reflexivity|].
  split; apply Hopts; discriminate.
Defined.

Lemma ts_aggregator_agrees_witness :
  ts_getBundleToStylexRules Sample.Rule Sample.processStylexRules
    {| ts_stylexRules := stylexRules (plugin Sample.built);
       ts_fileToBundlesMap :=
         Sample.track_chunks (Sample.compilation "md4") [Sample.main; Sample.lazy] |}
  = Sample.getBundleToStylexRules (plugin Sample.built).
Proof.
  refine (ts_aggregator_agrees
            Sample.Rule Sample.BabelItem Sample.ExtraOptions
            Sample.processStylexRules (plugin Sample.built)
            (Sample.track_chunks (Sample.compilation "md4")
               [Sample.main; Sample.lazy])
            eq_refl eq_refl _).
  intros e [<-|[<-|[<-|[]]]]; reflexivity.
Defined.

Lemma accumulated_lists_are_nonempty_witness :
  let ftb := Sample.track_chunks (Sample.compilation "md4")
               [Sample.main; Sample.lazy] in
  let acc := [ ("main", ["rule-of:/proj/src/a.js"]);
               ("179", ["rule-of:/proj/src/a.js"; "rule-of:/proj/src/b.js"]) ] in
  bundleToRules
    (stylexRules (plugin (Sample.run Sample.started Sample.first_build))) ftb
    = inr acc /\
  Js.get "main" acc = Some ["rule-of:/proj/src/a.js"] /\
  ["rule-of:/proj/src/a.js"] <> ([] : list Sample.Rule).
Proof.
  intros ftb acc. split; [reflexivity|]. split; [reflexivity|].
  exact (accumulated_lists_are_nonempty
           Sample.Rule Sample.SourceMap Sample.AssetInfo Sample.BabelItem
           Sample.ExtraOptions false "/proj" PosixPath.sep PosixPath.extname
           Sample.readFile Sample.transformAsync
           Sample.no_options Sample.first_build ftb acc "main"
           ["rule-of:/proj/src/a.js"] eq_refl eq_refl eq_refl).
Defined.

Lemma chunkName_always_truthy_witness :
  (* the third chunk has no name, no id and no rendered hash *)
  name Sample.anonymous = None /\ id Sample.anonymous = None /\
  renderedHash Sample.anonymous = None /\
  exists ftb bundles,
    fileToBundlesMap (Sample.afterOptimizeChunks (Sample.compilation "md4")
                        [Sample.main; Sample.lazy; Sample.anonymous]
                        (plugin Sample.built)) = Some ftb /\
    Js.get Sample.util_js ftb = Some bundles /\
    count_occ string_dec bundles "chunk-undefined" = 1%nat.
Proof.
  do 3 (split; [reflexivity|]).
  refine (proj2 (proj2 (proj2 (proj2 (proj2 (chunkName_always_truthy
            Sample.Rule Sample.AssetInfo Sample.BabelItem Sample.ExtraOptions
            PosixPath.sep)))))
          (Sample.compilation "md4") [Sample.main; Sample.lazy; Sample.anonymous]
          (plugin Sample.built) Sample.anonymous
          {| resource := Some Sample.util_js |} Sample.util_js
          (or_intror (or_intror (or_introl eq_refl)))
          eq_refl eq_refl eq_refl (or_introl eq_refl) eq_refl _ eq_refl).
  discriminate.
Defined.

Lemma aggregator_throws_on_inherited_name_witness :
  (* a.js and b.js are the modules of the entry point [constructor] *)
  fileToBundlesMap Sample.with_entry_constructor
    = Some [ (Sample.a_js, ["main"; "constructor"]); (Sample.util_js, ["main"]);
             (Sample.b_js, ["constructor"]) ] /\
  Js.inherited "constructor" = true /\
  Sample.getBundleToStylexRules Sample.with_entry_constructor = inl push_TypeError /\
  assets (Sample.processAssets Sample.with_entry_constructor
            (Sample.compilation "md4")) = Js.empty /\
  errors (Sample.processAssets Sample.with_entry_constructor
            (Sample.compilation "md4")) = [push_TypeError].
Proof.
  destruct (aggregator_throws_on_inherited_name
              Sample.Rule Sample.AssetInfo Sample.BabelItem Sample.ExtraOptions
              Sample.Hash PosixPath.parse_name Sample.processStylexRules
              Sample.createHash Sample.hash_update Sample.hash_digest
              Sample.getPathWithInfo Sample.emitAsset_rejects
              Sample.with_entry_constructor
              [ (Sample.a_js, ["main"; "constructor"]); (Sample.util_js, ["main"]);
                (Sample.b_js, ["constructor"]) ]
              (Sample.compilation "md4") eq_refl) as [Hthrows _].
  destruct Hthrows as [_ [Hout Hassets]].
  { exists Sample.b_js, ["rule-of:/proj/src/b.js"], "constructor".
    split; [right; left; reflexivity|]. split; reflexivity. }
  split; [reflexivity|]. split; [reflexivity|]. split; [exact Hout|].
  unfold Sample.processAssets. rewrite Hassets. split; reflexivity.
Defined.

(** the options can name the imports twice: the short-circuit tests
    [stylexImports], the compiler is told [importSources] *)
Example two_import_lists_differ :
  let p := Sample.new_StylexPlugin Sample.two_import_lists in
  stylexImports p = ["css"] /\ sb_importSources (babelPlugin p) = ["@acme/css"].
Proof. split; reflexivity. Qed.

(** the two aggregators on a recorded path that is an array index *)
Example aggregators_differ_on_index_keys :
  let sr := [ ("/b.js", ["b"]); ("7", ["seven"]) ] in
  let ftb := [ ("/b.js", ["main"]); ("7", ["main"]) ] in
  bundleToRules sr ftb = inr [("main", ["seven"; "b"])] /\
  ts_bundleToRules string {| ts_stylexRules := sr; ts_fileToBundlesMap := ftb |}
    = inr [("main", ["b"; "seven"])].
Proof. split; reflexivity. Qed.
